(** * Dead-tree detection workflow: evaluation engine and detection pipeline

    A shallow embedding of

    - the accuracy evaluation at the end of
      [code_for_dead_trees_detection.py] (lines 112-190, repeated verbatim at
      the end of [enhanced_toolbox.py]), and
    - [DetectDeadTrees.execute] of [enhanced_toolbox.py] (lines 163-350).

    Python numbers: counts are unbounded integers ([Z]).  The quotients are
    Python floats.  The arithmetic of the evaluation is given twice: over the
    exact rationals ([Q], compared with [==]), where the general statements
    are made about the real-number value of each formula, and in binary64
    (the IEEE 754 operations of [SpecFloat]), where the numbers of the
    worked examples are computed as Python computes them. *)

From Stdlib Require Import ZArith QArith Qabs SpecFloat List String Ascii Bool Lia Lqa.
From Stdlib Require Import DecimalString.
From Stdlib Require Import Permutation.
Import ListNotations.

Set Implicit Arguments.

(* ================================================================== *)
(** * Part I: the evaluation engine                                    *)
(* ================================================================== *)

Module Evaluation.

Local Open Scope Z_scope.

(** The only exception the arithmetic of the script can raise. *)
Inductive exn : Set := ZeroDivisionError.

(** Outcome of a piece of the script: a value, or an exception that nothing
    in the script catches. *)
Inductive result (A : Type) : Type :=
| Ok (a : A)
| Raise (e : exn).
Arguments Ok {A} a.
Arguments Raise {A} e.

Definition bind {A B} (m : result A) (k : A -> result B) : result B :=
  match m with
  | Ok a => k a
  | Raise e => Raise e
  end.

Notation "x <- m ;; k" := (bind m (fun x => k))
  (at level 100, m at next level, right associativity).

(** [a / b] on two Python ints, true division: the exact quotient, which
    Python rounds to a binary64 number ([int_truediv_b64] below). *)
Definition int_truediv (a b : Z) : result Q :=
  if b =? 0 then Raise ZeroDivisionError
  else Ok (inject_Z a / inject_Z b)%Q.

(** [a / b] on two Python floats, without the rounding
    ([float_truediv_b64] below). *)
Definition float_truediv (a b : Q) : result Q :=
  if Qeq_bool b 0 then Raise ZeroDivisionError
  else Ok (a / b)%Q.

(** ** Joined feature sets *)

(** One row of the output of a spatial join: the target feature and the
    [Join_Count] attribute the join attached to it. *)
Record row (T : Type) : Type := mkRow { feature : T; Join_Count : Z }.

(** Modelled from the spec: [arcpy.analysis.SpatialJoin] is a tool of the
    external GIS engine.  Called with three arguments (lines 123 and 128) it
    runs with its defaults, which is what section 4.2 of the specification
    describes: for every feature of [target], one output row carrying a
    [Join_Count] equal to the number of [join] features that intersect it. *)
Definition SpatialJoin {T J : Type} (intersects : T -> J -> bool)
    (target_feature : list T) (join_feature : list J) : list (row T) :=
  map (fun t => mkRow t (Z.of_nat (List.length (filter (intersects t) join_feature))))
      target_feature.

(** [arcpy.Select_analysis(fc, out, '"Join_Count" <> 0')] (lines 138, 147). *)
Definition Select_Join_Count_ne_0 {T} (fc : list (row T)) : list (row T) :=
  filter (fun r => negb (Join_Count r =? 0)) fc.

(** [int(arcpy.GetCount_management(fc).getOutput(0))]. *)
Definition GetCount {T} (fc : list T) : Z := Z.of_nat (List.length fc).

(** The pair of counts the script takes from one joined feature set
    (lines 138-142 and 147-151). *)
Definition countMatched {T} (joined : list (row T)) : Z * Z :=
  (GetCount (Select_Join_Count_ne_0 joined), GetCount joined).

(** ** Metrics *)

Record metrics : Set := mkMetrics { precision : Q; recall : Q; f1_score : Q }.

(** Lines 162-169; lines 178-185 are the same three statements with [TP_2]
    written for [TP]. *)
Definition computeMetrics (TP FP FN : Z) : result metrics :=
  precision <- int_truediv TP (TP + FP) ;;
  recall <- int_truediv TP (TP + FN) ;;
  f1_score <- float_truediv (2 * (precision * recall))%Q (precision + recall)%Q ;;
  Ok (mkMetrics precision recall f1_score).

(** ** The same statements in binary64 *)

Definition float : Set := spec_float.

(** [float(n)] for an int: the nearest binary64 number. *)
Definition float_of_int (n : Z) : float := binary_normalize 53 1024 n 0 false.

(** The rational a finite float stands for. *)
Definition float_value (x : float) : Q :=
  match x with
  | S754_finite s m e =>
      let v := if (0 <=? e)%Z then inject_Z (Z.pos m * 2 ^ e)
               else (inject_Z (Z.pos m) / inject_Z (2 ^ (- e)))%Q in
      if s then (- v)%Q else v
  | _ => 0%Q
  end.

(** [a / b] on two ints; the quotient of the two conversions is Python's
    result as long as both ints are below 2^53 in absolute value. *)
Definition int_truediv_b64 (a b : Z) : result float :=
  if b =? 0 then Raise ZeroDivisionError
  else Ok (SFdiv 53 1024 (float_of_int a) (float_of_int b)).

(** [a / b] on two floats. *)
Definition float_truediv_b64 (a b : float) : result float :=
  if SFeqb b (S754_zero false) then Raise ZeroDivisionError
  else Ok (SFdiv 53 1024 a b).

(** Lines 162-169 in binary64: precision, recall, f1_score. *)
Definition computeMetrics_b64 (TP FP FN : Z) : result (float * float * float) :=
  precision <- int_truediv_b64 TP (TP + FP) ;;
  recall <- int_truediv_b64 TP (TP + FN) ;;
  f1_score <- float_truediv_b64
                (SFmul 53 1024 (float_of_int 2) (SFmul 53 1024 precision recall))
                (SFadd 53 1024 precision recall) ;;
  Ok (precision, recall, f1_score).

(** The six counts of lines 141-152. *)
Record counts : Set := mkCounts {
  TP : Z; All_polygons : Z; FN : Z;
  TP_2 : Z; All_points : Z; FP : Z
}.

Definition count_rows {P G} (polygons_to_points : list (row P))
    (points_to_polygons : list (row G)) : counts :=
  let TP := GetCount (Select_Join_Count_ne_0 polygons_to_points) in
  let All_polygons := GetCount polygons_to_points in
  let FN := All_polygons - TP in
  let TP_2 := GetCount (Select_Join_Count_ne_0 points_to_polygons) in
  let All_points := GetCount points_to_polygons in
  let FP := All_points - TP_2 in
  mkCounts TP All_polygons FN TP_2 All_points FP.

(** What the script has computed when it ends normally: the counts, the
    triple of lines 163-169 and the triple of lines 179-185. *)
Record report : Set := mkReport {
  cnt : counts;
  poly_view : metrics;    (* precision, recall, f1_score *)
  point_view : metrics    (* precision_2, recall_2, f1_score_2 *)
}.

(** Lines 162-185 on given counts.  There is no [try] in the script: an
    exception of the first triple ends it before the second is computed. *)
Definition metrics_of_counts (c : counts) : result report :=
  m <- computeMetrics (TP c) (FP c) (FN c) ;;
  m_2 <- computeMetrics (TP_2 c) (FP c) (FN c) ;;
  Ok (mkReport c m m_2).

(** Lines 137-185 on the two joined feature sets. *)
Definition evaluate_joined {P G} (polygons_to_points : list (row P))
    (points_to_polygons : list (row G)) : result report :=
  metrics_of_counts (count_rows polygons_to_points points_to_polygons).

(** Lines 120-185: both joins, then the counts and the metrics.
    [dead_trees_final] are the detected polygons, [Molly_points_clipped] the
    ground-truth points. *)
Definition evaluation {P G} (intersects : P -> G -> bool)
    (dead_trees_final : list P) (Molly_points_clipped : list G) : result report :=
  let polygons_to_points :=
    SpatialJoin intersects dead_trees_final Molly_points_clipped in
  let points_to_polygons :=
    SpatialJoin (fun g p => intersects p g) Molly_points_clipped dead_trees_final in
  evaluate_joined polygons_to_points points_to_polygons.

(** ** The end-to-end scenario of section 8

    Three detected polygons and two ground-truth points, features named by
    numbers: polygon 0 contains point 0, polygon 1 contains point 1, polygon
    2 contains no point. *)
Definition scenario_polygons : list nat := [0; 1; 2]%nat.
Definition scenario_points : list nat := [0; 1]%nat.
Definition scenario_intersects (polygon point : nat) : bool :=
  Nat.eqb polygon point.

(** The sum of the Join_Count column of a joined table. *)
Definition sum_Join_Count {T} (joined : list (row T)) : Z :=
  fold_right (fun r acc => Join_Count r + acc) 0 joined.

End Evaluation.

(* ================================================================== *)
(** * Part II: the detection pipeline ([DetectDeadTrees.execute])      *)
(* ================================================================== *)

Module Pipeline.

Local Open Scope string_scope.

(** ** Python string operations used by [execute] *)

(** A Python [str] is kept as the bytes of its UTF-8 encoding, so a
    character is one to four bytes. *)
Definition chr (bytes : list nat) : string :=
  string_of_list_ascii (map ascii_of_nat bytes).

(** The characters of a string: a byte from 192 on opens a character of
    two bytes, from 224 on of three, from 240 on of four. *)
Fixpoint characters (s : string) : list string :=
  match s with
  | EmptyString => []
  | String c1 s1 =>
      let n := nat_of_ascii c1 in
      if (n <? 192)%nat then String c1 EmptyString :: characters s1
      else
        match s1 with
        | EmptyString => [String c1 EmptyString]
        | String c2 s2 =>
            if (n <? 224)%nat
            then String c1 (String c2 EmptyString) :: characters s2
            else
              match s2 with
              | EmptyString => [String c1 (String c2 EmptyString)]
              | String c3 s3 =>
                  if (n <? 240)%nat
                  then String c1 (String c2 (String c3 EmptyString))
                       :: characters s3
                  else
                    match s3 with
                    | EmptyString =>
                        [String c1 (String c2 (String c3 EmptyString))]
                    | String c4 s4 =>
                        String c1 (String c2 (String c3 (String c4 EmptyString)))
                        :: characters s4
                    end
              end
        end
  end.

(** The characters [str.strip] removes, those for which [str.isspace]
    holds: U+0009 to U+000D, U+001C to U+0020, U+0085, U+00A0, U+1680,
    U+2000 to U+200A, U+2028, U+2029, U+202F, U+205F and U+3000. *)
Definition whitespace : list string :=
  map chr
    [ [9]; [10]; [11]; [12]; [13]; [28]; [29]; [30]; [31]; [32];
      [194; 133]; [194; 160]; [225; 154; 128];
      [226; 128; 128]; [226; 128; 129]; [226; 128; 130]; [226; 128; 131];
      [226; 128; 132]; [226; 128; 133]; [226; 128; 134]; [226; 128; 135];
      [226; 128; 136]; [226; 128; 137]; [226; 128; 138];
      [226; 128; 168]; [226; 128; 169]; [226; 128; 175];
      [226; 129; 159]; [227; 128; 128] ]%nat.

(** [ch.isspace()] for a character. *)
Definition isspace (ch : string) : bool :=
  existsb (String.eqb ch) whitespace.

(** [s.lstrip()] on the list of characters. *)
Fixpoint lstrip (l : list string) : list string :=
  match l with
  | [] => []
  | ch :: l' => if isspace ch then lstrip l' else l
  end.

(** [s.strip()] *)
Definition strip (s : string) : string :=
  String.concat EmptyString
    (rev (lstrip (rev (lstrip (characters s))))).

Definition lower_ascii (c : ascii) : ascii :=
  let n := nat_of_ascii c in
  if ((65 <=? n) && (n <=? 90))%nat then ascii_of_nat (n + 32) else c.

(** [s.lower()] *)
Fixpoint lower (s : string) : string :=
  match s with
  | EmptyString => EmptyString
  | String c s' => String (lower_ascii c) (lower s')
  end.

(** [s.endswith(suffix)] *)
Definition endswith (s suffix : string) : bool :=
  let n := String.length s in
  let m := String.length suffix in
  (m <=? n)%nat && (substring (n - m) m s =? suffix).

(** Truth value of a string: non-empty. *)
Definition truthy (s : string) : bool := negb (s =? EmptyString).

(** Truth value of a [valueAsText]: neither [None] nor empty. *)
Definition truthy_text (o : option string) : bool :=
  match o with
  | Some s => truthy s
  | None => false
  end.

(** [str(n)] for an int, as an f-string renders it. *)
Definition str (n : Z) : string := NilZero.string_of_int (Z.to_int n).

(** ** Exceptions, messages, tool calls *)

Inductive exn : Type :=
| ExecuteError (msg : string)      (* arcpy.ExecuteError *)
| Exception (msg : string).        (* any other Exception *)

(** What the tool writes to the [messages] object. *)
Inductive message : Type :=
| Message (s : string)             (* messages.addMessage *)
| WarningMessage (s : string)      (* messages.addWarningMessage *)
| ErrorMessage (s : string).       (* messages.addErrorMessage *)

(** Right-hand side of one [RemapValue] entry. *)
Inductive remap_target : Type :=
| NODATA
| NewValue (v : Z).

Definition RemapValue : Type := list (Z * remap_target).

(** The [where_clause] of the two [Select] calls: the field Shape_Area is
    greater than the threshold. *)
Inductive where_clause : Type :=
| Shape_Area_gt (threshold : Q).

(** The calls into the GIS engine that [execute] makes and that can raise,
    with the arguments that vary; constant arguments are named in the
    comments. *)
Inductive call : Type :=
| CheckOutExtension (ext : string)
| CheckInExtension (ext : string)
| Describe (path : string)
| ExtractByMask (in_raster mask : string)
| IsoClusterUnsupervisedClassification
    (in_raster : string) (number_classes min_class_size sample_interval : Z)
| Reclassify (in_raster field : string) (remap : RemapValue)
| Raster (path : string)
| Con_GreaterThanEqual (raster : string) (threshold true_value : Z)
                                   (* Con(raster >= threshold, true_value) *)
| MajorityFilter (in_raster : string)
| Expand (in_raster : string) (cells : Z) (zones : list Z)
| Shrink (in_raster : string) (cells : Z) (zones : list Z)
| RegionGroup (in_raster : string)
| save (path : string)             (* the [.save(path)] of a raster result *)
| RasterToPolygon (in_raster out_features : string)
                                   (* "NO_SIMPLIFY", "VALUE" *)
| ListFields (dataset : string)
| AddField (table field type : string)
| CalculateField (table field expression : string)      (* "PYTHON3" *)
| Select (in_features out_features : string) (where_clause : where_clause)
| Buffer (in_features out_features distance : string)
                                   (* "FULL", "ROUND", "NONE", None, "PLANAR" *)
| Dissolve (in_features out_features : string)
                                   (* no dissolve field, no statistics, "SINGLE_PART", "DISSOLVE_LINES" *)
| CopyFeatures (in_features out_features : string)
| Delete (path : string).

(** A call together with what became of it: [None] when it returned,
    [Some e] when it raised [e]. *)
Definition event : Type := call * option exn.

(** The calls of the [finally] block. *)
Definition is_cleanup_call (c : call) : Prop :=
  match c with
  | Delete _ | CheckInExtension _ => True
  | _ => False
  end.

(** ** The environment of a run *)

(** Everything [execute] does not decide itself.  [fails n c] is the outcome
    of call [c] when [n] calls have been made before it; the other fields are
    what the queries return and the two [os.path] functions. *)
Record world : Type := mkWorld {
  fails : nat -> call -> option exn;
  workspaceType : string -> string;  (* arcpy.Describe(path).workspaceType *)
  CheckExtension : string -> string;
  field_names : string -> list string; (* [f.name for f in arcpy.ListFields(d)] *)
  os_path_join : string -> string -> string;
  os_path_splitext : string -> string * string
}.

(** ** State *)

Record state : Type := mkState {
  datasets : list string;        (* the paths for which [arcpy.Exists] holds *)
  intermediates : list string;   (* the list [intermediates] of line 196 *)
  messages : list message;       (* oldest first *)
  trace : list event             (* the calls made so far, oldest first *)
}.

Definition init_state (datasets : list string) : state :=
  mkState datasets [] [] [].

(** ** The monad: state and exceptions *)

Inductive result (A : Type) : Type :=
| Ok (a : A)
| Raise (e : exn).
Arguments Ok {A} a.
Arguments Raise {A} e.

Definition M (A : Type) : Type := state -> result A * state.

Definition ret {A} (a : A) : M A := fun st => (Ok a, st).

Definition bind {A B} (m : M A) (k : A -> M B) : M B :=
  fun st =>
    match m st with
    | (Ok a, st') => k a st'
    | (Raise e, st') => (Raise e, st')
    end.

Definition raise {A} (e : exn) : M A := fun st => (Raise e, st).

(** [try: body  except Exception as e: handler e] *)
Definition try_except {A} (body : M A) (handler : exn -> M A) : M A :=
  fun st =>
    match body st with
    | (Ok a, st') => (Ok a, st')
    | (Raise e, st') => handler e st'
    end.

(** [try: body  finally: final]: [final] runs on every way out of [body];
    the outcome is that of [body] unless [final] raises. *)
Definition try_finally {A} (body : M A) (final : M unit) : M A :=
  fun st =>
    match body st with
    | (r, st') =>
        match final st' with
        | (Ok _, st'') => (r, st'')
        | (Raise e, st'') => (Raise e, st'')
        end
    end.

Declare Scope py_scope.
Delimit Scope py_scope with py.
Notation "x <- m ;; k" := (bind m (fun x => k))
  (at level 100, m at next level, right associativity) : py_scope.
Notation "m ;; k" := (bind m (fun _ => k))
  (at level 100, right associativity) : py_scope.
Local Open Scope py_scope.

(** [for x in l: body x] *)
Fixpoint for_each {A} (l : list A) (body : A -> M unit) : M unit :=
  match l with
  | [] => ret tt
  | x :: l' => body x ;; for_each l' body
  end.

(** ** Primitive statements *)

Definition addMessage (s : string) : M unit :=
  fun st => (Ok tt, mkState (datasets st) (intermediates st)
                            (messages st ++ [Message s]) (trace st)).

Definition addWarningMessage (s : string) : M unit :=
  fun st => (Ok tt, mkState (datasets st) (intermediates st)
                            (messages st ++ [WarningMessage s]) (trace st)).

Definition addErrorMessage (s : string) : M unit :=
  fun st => (Ok tt, mkState (datasets st) (intermediates st)
                            (messages st ++ [ErrorMessage s]) (trace st)).

(** [intermediates.append(path)] *)
Definition append (path : string) : M unit :=
  fun st => (Ok tt, mkState (datasets st) (intermediates st ++ [path])
                            (messages st) (trace st)).

(** [intermediates.extend(paths)] *)
Definition extend (paths : list string) : M unit :=
  fun st => (Ok tt, mkState (datasets st) (intermediates st ++ paths)
                            (messages st) (trace st)).

(** [arcpy.Exists(path)], a query that does not raise.  A dataset is known
    by the string of its path: two strings that a file system takes for one
    file (a different case, the other slash) are two datasets here. *)
Definition Exists (path : string) : M bool :=
  fun st => (Ok (existsb (String.eqb path) (datasets st)), st).

(** A dataset comes into existence at [path]. *)
Definition created (path : string) : M unit :=
  fun st => (Ok tt, mkState (path :: datasets st) (intermediates st)
                            (messages st) (trace st)).

(** The dataset at [path] is gone. *)
Definition removed (path : string) : M unit :=
  fun st => (Ok tt, mkState (filter (fun d => negb (d =? path)) (datasets st))
                            (intermediates st) (messages st) (trace st)).

(** [set(intermediates)]: the distinct paths of the list.  Python fixes no
    order of iteration for a set; the order taken here is one of them. *)
Definition set (l : list string) : list string := nodup string_dec l.

(** ** Parameters *)

Record parameters : Type := mkParameters {
  p_input_raster : string;             (* parameters[0].valueAsText *)
  p_mask_layer : option string;        (* parameters[1].valueAsText *)
  p_workspace : string;                (* parameters[2].valueAsText *)
  p_number_classes : option Z;         (* parameters[3].value *)
  p_min_area : option Q;               (* parameters[4].value *)
  p_buffer_distance : option string;   (* parameters[5].valueAsText *)
  p_min_buffer_area : option Q;        (* parameters[6].value *)
  p_output_features : string;          (* parameters[7].valueAsText *)
  p_blue_band_index : option Z         (* parameters[8].value *)
}.

(** Lines 165-173. *)
Definition input_raster (p : parameters) : string := p_input_raster p.
Definition mask_layer (p : parameters) : option string := p_mask_layer p.
Definition workspace (p : parameters) : string := p_workspace p.
Definition number_classes (p : parameters) : Z :=
  match p_number_classes p with Some v => v | None => 10%Z end.
Definition min_area (p : parameters) : Q :=
  match p_min_area p with Some v => v | None => 1.0%Q end.
Definition buffer_distance (p : parameters) : string :=
  if truthy_text (p_buffer_distance p)
  then match p_buffer_distance p with Some s => s | None => "1 Meters" end
  else "1 Meters".
Definition min_buffer_area (p : parameters) : Q :=
  match p_min_buffer_area p with Some v => v | None => 30.0%Q end.
Definition output_features (p : parameters) : string := p_output_features p.
Definition blue_band_index (p : parameters) : Z :=
  match p_blue_band_index p with Some v => v | None => 3%Z end.

(** [f"{input_raster}/Band_{blue_band_index}"] (line 249). *)
Definition band_path (p : parameters) : string :=
  input_raster p ++ "/Band_" ++ str (blue_band_index p).

(** [mask_layer and mask_layer.strip()] (line 212). *)
Definition mask_given (p : parameters) : bool :=
  match mask_layer p with
  | Some m => truthy m && truthy (strip m)
  | None => false
  end.

Section WithWorld.

Variable w : world.

(** One call into the engine: it is recorded with its outcome, and its
    exception, when there is one, is raised. *)
Definition arcpy (c : call) : M unit :=
  fun st =>
    let o := fails w (List.length (trace st)) c in
    let st' := mkState (datasets st) (intermediates st) (messages st)
                       (trace st ++ [(c, o)]) in
    match o with
    | None => (Ok tt, st')
    | Some e => (Raise e, st')
    end.

(** [tool(...).save(path)]: the tool runs, then its result is saved.  The
    dataset exists once both have returned; a call that raises is taken to
    leave nothing at [path]. *)
Definition run_save (tool : call) (path : string) : M unit :=
  arcpy tool ;; arcpy (save path) ;; created path.

(** A geoprocessing tool that writes the dataset [out]. *)
Definition run_out (tool : call) (out : string) : M unit :=
  arcpy tool ;; created out.

(** Lines 198-208. *)
Definition _tmp (workspace name : string) : M string :=
  let base := os_path_join w workspace name in
  arcpy (Describe workspace) ;;
  if workspaceType w workspace =? "FileSystem" then
    if endswith (lower name) ".shp" then ret base
    else ret (os_path_join w workspace (name ++ ".tif"))
  else ret base.

(** [os.path.splitext(_tmp(name))[0] + ".shp"] *)
Definition _tmp_shp (workspace name : string) : M string :=
  p <- _tmp workspace name ;;
  ret (fst (os_path_splitext w p) ++ ".shp").

(** Lines 291-293 and 312-314: make sure there is an area field, fill it. *)
Definition ensure_Shape_Area (dataset : string) : M unit :=
  arcpy (ListFields dataset) ;;
  (if existsb (String.eqb "Shape_Area") (field_names w dataset) then ret tt
   else arcpy (AddField dataset "Shape_Area" "DOUBLE")) ;;
  arcpy (CalculateField dataset "Shape_Area" "!shape.area!").

(** The remap table of lines 235-240. *)
Definition remap : RemapValue :=
  [ (1, NODATA); (2, NODATA); (3, NODATA);
    (4, NODATA); (5, NODATA); (6, NODATA);
    (7, NODATA); (8, NODATA); (9, NODATA);
    (10, NewValue 1) ]%Z.

(** ** The statements of [execute] *)

(** Lines 183-194: the checks made before the [try], and the check-out. *)
Definition validate (p : parameters) : M unit :=
  input_exists <- Exists (input_raster p) ;;
  (if negb input_exists
   then raise (ExecuteError "Input raster does not exist.") else ret tt) ;;
  mask_missing <- (if truthy_text (mask_layer p)
                   then match mask_layer p with
                        | Some m => (e <- Exists m ;; ret (negb e))
                        | None => ret false
                        end
                   else ret false) ;;
  (if mask_missing
   then raise (ExecuteError "Forest mask layer path is invalid or not found.")
   else ret tt) ;;
  workspace_exists <- Exists (workspace p) ;;
  (if negb workspace_exists
   then raise (ExecuteError "Workspace does not exist.") else ret tt) ;;
  let ext_status := CheckExtension w "Spatial" in
  (if negb (ext_status =? "Available")
   then raise (ExecuteError "Spatial Analyst extension is not available.")
   else ret tt) ;;
  arcpy (CheckOutExtension "Spatial").

(** Lines 211-220. *)
Definition step_1 (p : parameters) : M string :=
  addMessage "Step 1/10: Preparing raster…" ;;
  if mask_given p then
    addMessage "• Forest mask provided — extracting forest area from input raster." ;;
    aerial_image <- _tmp (workspace p) "aerial_image" ;;
    run_save (ExtractByMask (input_raster p)
                            (match mask_layer p with Some m => m | None => EmptyString end))
             aerial_image ;;
    append aerial_image ;;
    ret aerial_image
  else
    addWarningMessage ("• No forest mask provided — proceeding on full extent. "
      ++ "Tip: Using a forest polygon mask can speed up processing and reduce false positives.") ;;
    ret (input_raster p).

(** Lines 246-254: the band is opened by its path; when that raises, the
    whole raster is opened in its place and a warning is written. *)
Definition open_blue_band (p : parameters) : M string :=
  try_except
    (arcpy (Raster (band_path p)) ;; ret (band_path p))
    (fun _ =>
       arcpy (Raster (input_raster p)) ;;
       addWarningMessage ("• Could not read a specific band path; using the full raster as a fallback for blue band. "
         ++ "Consider providing a multiband raster with accessible bands.") ;;
       ret (input_raster p)).

(** Lines 211-331: the body of the [try]. *)
Definition body (p : parameters) : M unit :=
  aerial_image <- step_1 p ;;
  addMessage "Step 2/10: Creating unsupervised classes with IsoCluster…" ;;
  classified_raster <- _tmp (workspace p) "classified" ;;
  run_save (IsoClusterUnsupervisedClassification
              aerial_image (number_classes p) 1000 10)
           classified_raster ;;
  append classified_raster ;;
  addMessage "Step 3/10: Skipping MLClassify (unsupervised classes already created)." ;;
  addMessage "Step 4/10: Reclassifying to isolate likely dead trees (class 10 -> 1; others -> NoData)…" ;;
  dead_trees_raster <- _tmp (workspace p) "dead_trees" ;;
  run_save (Reclassify classified_raster "Value" remap) dead_trees_raster ;;
  append dead_trees_raster ;;
  addMessage ("Step 5/10: Blue band check (using Band "
              ++ str (blue_band_index p) ++ ")…") ;;
  blue_band <- open_blue_band p ;;
  blue_mask <- _tmp (workspace p) "blue_mask" ;;
  run_save (Con_GreaterThanEqual blue_band 150 1) blue_mask ;;
  append blue_mask ;;
  extracted_raster <- _tmp (workspace p) "extracted_raster_one_band" ;;
  run_save (ExtractByMask dead_trees_raster blue_mask) extracted_raster ;;
  append extracted_raster ;;
  addMessage "Step 6/10: Applying majority filter to reduce salt-and-pepper noise…" ;;
  filtered_raster <- _tmp (workspace p) "filtered" ;;
  run_save (MajorityFilter extracted_raster) filtered_raster ;;
  append filtered_raster ;;
  addMessage "Step 7/10: Expanding and shrinking to connect small fragments…" ;;
  expanded_raster <- _tmp (workspace p) "expanded" ;;
  run_save (Expand filtered_raster 1 [1%Z]) expanded_raster ;;
  append expanded_raster ;;
  shrinked_raster <- _tmp (workspace p) "shrinked" ;;
  run_save (Shrink expanded_raster 1 [1%Z]) shrinked_raster ;;
  append shrinked_raster ;;
  addMessage "Step 8/10: Converting raster to polygons and filtering by area…" ;;
  grouped_raster <- _tmp (workspace p) "region_group" ;;
  run_save (RegionGroup shrinked_raster) grouped_raster ;;
  append grouped_raster ;;
  dead_trees_vector <- _tmp_shp (workspace p) "dead_trees_vector" ;;
  run_out (RasterToPolygon grouped_raster dead_trees_vector) dead_trees_vector ;;
  ensure_Shape_Area dead_trees_vector ;;
  dead_trees_selected <- _tmp_shp (workspace p) "dead_trees_selected" ;;
  run_out (Select dead_trees_vector dead_trees_selected (Shape_Area_gt (min_area p)))
          dead_trees_selected ;;
  extend [dead_trees_vector; dead_trees_selected] ;;
  addMessage "Step 9/10: Buffering and dissolving…" ;;
  buffered_trees <- _tmp_shp (workspace p) "buffered_trees" ;;
  run_out (Buffer dead_trees_selected buffered_trees (buffer_distance p))
          buffered_trees ;;
  append buffered_trees ;;
  dissolved_buffer <- _tmp_shp (workspace p) "dissolved_buffer" ;;
  run_out (Dissolve buffered_trees dissolved_buffer) dissolved_buffer ;;
  ensure_Shape_Area dissolved_buffer ;;
  append dissolved_buffer ;;
  addMessage "Step 10/10: Final selection and saving output…" ;;
  trees_buffer_processed <- _tmp_shp (workspace p) "trees_buffer_processed" ;;
  run_out (Select dissolved_buffer trees_buffer_processed
                  (Shape_Area_gt (min_buffer_area p)))
          trees_buffer_processed ;;
  run_out (CopyFeatures trees_buffer_processed (output_features p))
          (output_features p) ;;
  addMessage "Done! ✅" ;;
  addMessage "Suggestions:" ;;
  addMessage "• If your sensor’s blue band isn’t Band 3 (e.g., Sentinel-2 uses Band 2 for Blue), set the Blue Band Index accordingly." ;;
  addMessage "• Providing a forest polygon mask can improve precision and speed." ;;
  addMessage "• Class 10 is assumed as the dead-tree class. If results look off, inspect the classified raster to confirm which class to keep." ;;
  addMessage "• Consider tuning the blue threshold (currently >= 150) to your data’s radiometry (8/12/16-bit).".

(** The error line written by the two [except] clauses of lines 333-338:
    [arcpy.GetMessages(2)] for an [ExecuteError], which are the error
    messages of the tool that raised it, and the text of any other
    exception after [Unexpected error: ]. *)
Definition error_report (e : exn) : string :=
  match e with
  | ExecuteError msg => msg
  | Exception msg => "Unexpected error: " ++ msg
  end.

(** Lines 333-338: both clauses write the error and raise it again. *)
Definition handler (e : exn) : M unit :=
  addErrorMessage (error_report e) ;; raise e.

(** Lines 341-346. *)
Definition delete_intermediate (path : string) : M unit :=
  try_except
    (e <- Exists path ;;
     if e then (arcpy (Delete path) ;; removed path) else ret tt)
    (fun _ => ret tt).

(** Lines 340-350: the [finally] block. *)
Definition cleanup : M unit :=
  (fun st => for_each (set (intermediates st)) delete_intermediate st) ;;
  try_except (arcpy (CheckInExtension "Spatial")) (fun _ => ret tt).

(** Lines 163-350. *)
Definition execute (p : parameters) : M unit :=
  validate p ;;
  try_finally (try_except (body p) handler) cleanup.

End WithWorld.

(** One run of the tool in world [w], started where the datasets [existing]
    exist. *)
Definition run (w : world) (p : parameters) (existing : list string)
  : result unit * state :=
  execute w p (init_state existing).

(** ** Vocabulary of the statements *)

(** The path [_tmp(name)] returns. *)
Definition tmp_path (w : world) (workspace name : string) : string :=
  if workspaceType w workspace =? "FileSystem" then
    if endswith (lower name) ".shp" then os_path_join w workspace name
    else os_path_join w workspace (name ++ ".tif")
  else os_path_join w workspace name.

(** [os.path.splitext(_tmp(name))[0] + ".shp"] *)
Definition tmp_shp_path (w : world) (workspace name : string) : string :=
  fst (os_path_splitext w (tmp_path w workspace name)) ++ ".shp".

(** The paths of the intermediate rasters and feature classes that section 6
    of the specification lists, as [execute] builds them. *)
Definition artifact_paths (w : world) (p : parameters) : list string :=
  map (tmp_path w (workspace p))
      ["aerial_image"; "classified"; "dead_trees"; "blue_mask";
       "extracted_raster_one_band"; "filtered"; "expanded"; "shrinked";
       "region_group"]
  ++ map (tmp_shp_path w (workspace p))
      ["dead_trees_vector"; "dead_trees_selected"; "buffered_trees";
       "dissolved_buffer"; "trees_buffer_processed"].

(** A cell of a raster. *)
Inductive cell : Type :=
| NoData
| Value (v : Z).

(** Modelled from the spec: [Reclassify] is a tool of the external engine.
    A cell whose value the remap table lists takes the listed value or
    becomes NoData; [execute] passes no fourth argument, so a value that the
    table does not list is kept. *)
Definition reclassify_cell (table : RemapValue) (v : Z) : cell :=
  match find (fun entry => (fst entry =? v)%Z) table with
  | Some (_, NODATA) => NoData
  | Some (_, NewValue n) => Value n
  | None => Value v
  end.

(** Hoare triples for [M]: from a state in [P], [m] ends in [Q] when it
    returns and in [E] when it raises. *)
Definition hoare {A} (P : state -> Prop) (m : M A)
    (Q : A -> state -> Prop) (E : exn -> state -> Prop) : Prop :=
  forall st, P st ->
    match m st with
    | (Ok a, st') => Q a st'
    | (Raise e, st') => E e st'
    end.

(** An event that does not end the run: the call returned, or it is the
    opening of the band by its path, whose exception line 250 catches. *)
Definition quiet (p : parameters) (ev : event) : Prop :=
  snd ev = None \/ fst ev = Raster (band_path p).

Definition cleanup_event (ev : event) : Prop := is_cleanup_call (fst ev).

(** The paths [execute] appends to [intermediates]: the first one only
    when a forest mask is given. *)
Definition recorded_paths (w : world) (p : parameters) : list string :=
  (if mask_given p then [tmp_path w (workspace p) "aerial_image"] else [])
  ++ map (tmp_path w (workspace p))
      ["classified"; "dead_trees"; "blue_mask"; "extracted_raster_one_band";
       "filtered"; "expanded"; "shrinked"; "region_group"]
  ++ map (tmp_shp_path w (workspace p))
      ["dead_trees_vector"; "dead_trees_selected"; "buffered_trees";
       "dissolved_buffer"].

(** What can be said of every call the body of the [try] makes: it is none
    of the calls made outside the body, a classification asks for
    [number_classes] classes, and a reclassification uses the table
    [remap]. *)
Definition stage_call (p : parameters) (c : call) : Prop :=
  match c with
  | CheckOutExtension _ | CheckInExtension _ | Delete _ => False
  | IsoClusterUnsupervisedClassification _ n _ _ => n = number_classes p
  | Reclassify _ _ table => table = remap
  | _ => True
  end.

(** No call so far has ended the run. *)
Definition Clean (p : parameters) (st : state) : Prop :=
  Forall (quiet p) (trace st).

(** The last call raised [e], and no call before it ended the run. *)
Definition Aborted (p : parameters) (e : exn) (st : state) : Prop :=
  exists pre c, trace st = (pre ++ [(c, Some e)])%list /\ Forall (quiet p) pre.

(** The state after one more call. *)
Definition logged (st : state) (c : call) (o : option exn) : state :=
  mkState (datasets st) (intermediates st) (messages st)
          (trace st ++ [(c, o)]).

(** The paths whose deletion was attempted, in order. *)
Definition deleted_paths (t : list event) : list string :=
  flat_map (fun ev => match fst ev with Delete path => [path] | _ => [] end) t.

(** What the [finally] block does to a state [st], giving [st'], as far as
    the paths of [l] go: only cleanup calls are made; a path of [l] that
    existed has had its deletion attempted; one that still exists has had
    its deletion fail; no deletion is attempted outside [l], and none
    twice; nothing is created, nothing outside [l] is deleted. *)
Definition swept (l : list string) (st st' : state) : Prop :=
  intermediates st' = intermediates st /\
  messages st' = messages st /\
  (exists post,
      trace st' = (trace st ++ post)%list /\
      Forall cleanup_event post /\
      (forall path, In path l -> In path (datasets st) ->
                    exists o, In (Delete path, o) post) /\
      (forall path, In path l -> In path (datasets st') ->
                    exists e, In (Delete path, Some e) post) /\
      (forall path o, In (Delete path, o) post -> In path l) /\
      NoDup (deleted_paths post)) /\
  (forall q, In q (datasets st') -> In q (datasets st)) /\
  (forall q, ~ In q l -> In q (datasets st) -> In q (datasets st')).

(** ** Concrete worlds and runs, used in the examples *)

(** Position of the last occurrence of [c] in [s], or -1: [s.rfind(c)]. *)
Fixpoint rfind_from (c : ascii) (s : string) (i : Z) (found : Z) : Z :=
  match s with
  | EmptyString => found
  | String x s' => rfind_from c s' (i + 1) (if Ascii.eqb x c then i else found)
  end.

Definition rfind (c : ascii) (s : string) : Z := rfind_from c s 0 (-1).

(** [os.path.splitext] on Windows: the extension starts at the last dot of
    the last path component, leading dots of that component apart. *)
Definition ntpath_splitext (p : string) : string * string :=
  let sepIndex := Z.max (rfind "\" p) (rfind "/" p) in
  let dotIndex := rfind "." p in
  let filenameIndex := (sepIndex + 1)%Z in
  if (dotIndex >? sepIndex)%Z
     && existsb (fun c => negb (Ascii.eqb c "."))
                (list_ascii_of_string
                   (substring (Z.to_nat filenameIndex)
                              (Z.to_nat (dotIndex - filenameIndex)) p))
  then (substring 0 (Z.to_nat dotIndex) p,
        substring (Z.to_nat dotIndex) (String.length p - Z.to_nat dotIndex) p)
  else (p, EmptyString).

(** [os.path.join(a, b)] on Windows for a folder [a] that does not end in a
    separator and a plain file name [b]. *)
Definition ntpath_join (a b : string) : string := a ++ "\" ++ b.

(** A world in which every call succeeds, the workspace is a folder, the
    extension is available and no dataset has a Shape_Area field yet. *)
Definition calm : world :=
  {| fails := fun _ _ => None;
     workspaceType := fun _ => "FileSystem";
     CheckExtension := fun _ => "Available";
     field_names := fun _ => ["FID"; "Shape"; "Id"; "gridcode"];
     os_path_join := ntpath_join;
     os_path_splitext := ntpath_splitext |}.

(** The world [w] with the outcomes of the calls replaced. *)
Definition with_fails (f : nat -> call -> option exn) (w : world) : world :=
  {| fails := f;
     workspaceType := workspaceType w;
     CheckExtension := CheckExtension w;
     field_names := field_names w;
     os_path_join := os_path_join w;
     os_path_splitext := os_path_splitext w |}.

(** Every [Delete] fails, everything else succeeds. *)
Definition locked : world :=
  with_fails (fun _ c => match c with
                         | Delete _ => Some (ExecuteError "ERROR 000601: Cannot delete")
                         | _ => None
                         end) calm.

(** Opening a band by its path fails, everything else succeeds. *)
Definition single_band : world :=
  with_fails (fun _ c => match c with
                         | Raster path =>
                             if endswith path "/Band_3"
                             then Some (Exception "RuntimeError: ERROR 000732")
                             else None
                         | _ => None
                         end) calm.

(** The [Expand] tool fails, everything else succeeds. *)
Definition expand_fails : world :=
  with_fails (fun _ c => match c with
                         | Expand _ _ _ => Some (ExecuteError "ERROR 010067: Error in executing grid expression.")
                         | _ => None
                         end) calm.

(** Only the input raster, the workspace and the output are given. *)
Definition tile : parameters :=
  {| p_input_raster := "C:\data\tile6.tif";
     p_mask_layer := None;
     p_workspace := "C:\work";
     p_number_classes := None;
     p_min_area := None;
     p_buffer_distance := None;
     p_min_buffer_area := None;
     p_output_features := "C:\out\dead_trees_final.shp";
     p_blue_band_index := None |}.

Definition tile_existing : list string := ["C:\data\tile6.tif"; "C:\work"].

(** The same with five classes asked for. *)
Definition tile_5_classes : parameters :=
  {| p_input_raster := "C:\data\tile6.tif";
     p_mask_layer := None;
     p_workspace := "C:\work";
     p_number_classes := Some 5%Z;
     p_min_area := None;
     p_buffer_distance := None;
     p_min_buffer_area := None;
     p_output_features := "C:\out\dead_trees_final.shp";
     p_blue_band_index := None |}.

(** The input raster lies in the workspace and is called classified.tif. *)
Definition clash : parameters :=
  {| p_input_raster := "C:\work\classified.tif";
     p_mask_layer := None;
     p_workspace := "C:\work";
     p_number_classes := None;
     p_min_area := None;
     p_buffer_distance := None;
     p_min_buffer_area := None;
     p_output_features := "C:\out\dead_trees_final.shp";
     p_blue_band_index := None |}.

Definition clash_existing : list string := ["C:\work\classified.tif"; "C:\work"].

(** ** Vocabulary of the further statements *)

(** A message that is not an error line. *)
Definition info (m : message) : Prop :=
  match m with
  | ErrorMessage _ => False
  | _ => True
  end.

Definition is_delete (c : call) : Prop :=
  match c with
  | Delete _ => True
  | _ => False
  end.

(** The raster that is classified: the masked copy when a forest mask is
    given, the input raster itself otherwise (lines 212-220). *)
Definition aerial_image_path (w : world) (p : parameters) : string :=
  if mask_given p then tmp_path w (workspace p) "aerial_image"
  else input_raster p.

(** The calls the body of the [try] can make, with their arguments. *)
Definition body_calls (w : world) (p : parameters) : list call :=
  let t := tmp_path w (workspace p) in
  let s := tmp_shp_path w (workspace p) in
  (if mask_given p
   then [ExtractByMask (input_raster p)
                       (match mask_layer p with Some m => m | None => EmptyString end)]
   else [])
  ++ [ Describe (workspace p);
       save (t "aerial_image");
       IsoClusterUnsupervisedClassification
         (aerial_image_path w p) (number_classes p) 1000 10;
       save (t "classified");
       Reclassify (t "classified") "Value" remap;
       save (t "dead_trees");
       Raster (band_path p);
       Raster (input_raster p);
       Con_GreaterThanEqual (band_path p) 150 1;
       Con_GreaterThanEqual (input_raster p) 150 1;
       save (t "blue_mask");
       ExtractByMask (t "dead_trees") (t "blue_mask");
       save (t "extracted_raster_one_band");
       MajorityFilter (t "extracted_raster_one_band");
       save (t "filtered");
       Expand (t "filtered") 1 [1%Z];
       save (t "expanded");
       Shrink (t "expanded") 1 [1%Z];
       save (t "shrinked");
       RegionGroup (t "shrinked");
       save (t "region_group");
       RasterToPolygon (t "region_group") (s "dead_trees_vector");
       ListFields (s "dead_trees_vector");
       AddField (s "dead_trees_vector") "Shape_Area" "DOUBLE";
       CalculateField (s "dead_trees_vector") "Shape_Area" "!shape.area!";
       Select (s "dead_trees_vector") (s "dead_trees_selected")
              (Shape_Area_gt (min_area p));
       Buffer (s "dead_trees_selected") (s "buffered_trees") (buffer_distance p);
       Dissolve (s "buffered_trees") (s "dissolved_buffer");
       ListFields (s "dissolved_buffer");
       AddField (s "dissolved_buffer") "Shape_Area" "DOUBLE";
       CalculateField (s "dissolved_buffer") "Shape_Area" "!shape.area!";
       Select (s "dissolved_buffer") (s "trees_buffer_processed")
              (Shape_Area_gt (min_buffer_area p));
       CopyFeatures (s "trees_buffer_processed") (output_features p) ].

(** How the parameters reach the tools: what holds of a call of a run,
    whichever it is. *)
Definition wired (w : world) (p : parameters) (c : call) : Prop :=
  let t := tmp_path w (workspace p) in
  let s := tmp_shp_path w (workspace p) in
  match c with
  | ExtractByMask in_raster mask =>
      (mask_given p = true /\ in_raster = input_raster p /\
       mask_layer p = Some mask) \/
      (in_raster = t "dead_trees" /\ mask = t "blue_mask")
  | IsoClusterUnsupervisedClassification in_raster n min_size interval =>
      in_raster = aerial_image_path w p /\ n = number_classes p /\
      min_size = 1000%Z /\ interval = 10%Z
  | Con_GreaterThanEqual raster threshold value =>
      (raster = band_path p \/ raster = input_raster p) /\
      threshold = 150%Z /\ value = 1%Z
  | Select in_features out_features (Shape_Area_gt threshold) =>
      (in_features = s "dead_trees_vector" /\
       out_features = s "dead_trees_selected" /\ threshold = min_area p) \/
      (in_features = s "dissolved_buffer" /\
       out_features = s "trees_buffer_processed" /\
       threshold = min_buffer_area p)
  | Buffer in_features out_features distance =>
      in_features = s "dead_trees_selected" /\
      out_features = s "buffered_trees" /\ distance = buffer_distance p
  | CopyFeatures in_features out_features =>
      in_features = s "trees_buffer_processed" /\
      out_features = output_features p
  | Delete path => In path (recorded_paths w p)
  | _ => True
  end.

(** A forest mask is given. *)
Definition masked_tile : parameters :=
  {| p_input_raster := "C:\data\tile6.tif";
     p_mask_layer := Some "C:\data\forest.shp";
     p_workspace := "C:\work";
     p_number_classes := None;
     p_min_area := Some 2.5%Q;
     p_buffer_distance := Some "2 Meters";
     p_min_buffer_area := None;
     p_output_features := "C:\out\dead_trees_final.shp";
     p_blue_band_index := Some 1%Z |}.

Definition masked_tile_existing : list string :=
  ["C:\data\tile6.tif"; "C:\data\forest.shp"; "C:\work"].

(** The forest mask is a no-break space (U+00A0): a string that is not
    empty and that [strip] empties. *)
Definition blank_mask_tile : parameters :=
  {| p_input_raster := "C:\data\tile6.tif";
     p_mask_layer := Some (chr [194; 160]%nat);
     p_workspace := "C:\work";
     p_number_classes := None;
     p_min_area := None;
     p_buffer_distance := None;
     p_min_buffer_area := None;
     p_output_features := "C:\out\dead_trees_final.shp";
     p_blue_band_index := None |}.

Definition blank_mask_tile_existing : list string :=
  ["C:\data\tile6.tif"; chr [194; 160]%nat; "C:\work"].

(** The call of line 258. *)
Definition is_threshold (c : call) : Prop :=
  match c with
  | Con_GreaterThanEqual _ _ _ => True
  | _ => False
  end.

(** What lines 247-254 have left in [blue_band], read off the calls made
    [before]: the band, which has been opened by its path; or the whole
    raster, which has been opened after the opening of the band had
    raised. *)
Definition blue_band_opened (p : parameters) (raster : string)
    (before : list event) : Prop :=
  (raster = band_path p /\ In (Raster (band_path p), None) before) \/
  (raster = input_raster p /\
   (exists e, In (Raster (band_path p), Some e) before) /\
   In (Raster (input_raster p), None) before).

(** The dataset a call creates when it returns.  The tools of [arcpy.sa]
    return raster objects, which [save] writes. *)
Definition creates (c : call) : option string :=
  match c with
  | save path => Some path
  | RasterToPolygon _ out_features => Some out_features
  | Select _ out_features _ => Some out_features
  | Buffer _ out_features _ => Some out_features
  | Dissolve _ out_features => Some out_features
  | CopyFeatures _ out_features => Some out_features
  | _ => None
  end.

(** The datasets a call writes, changes or deletes. *)
Definition targets (c : call) : list string :=
  match c with
  | AddField table _ _ => [table]
  | CalculateField table _ _ => [table]
  | Delete path => [path]
  | _ => match creates c with Some path => [path] | None => [] end
  end.

(** The intermediates that [execute] appends to [intermediates] in the
    statement that follows the one creating them, each with the call that
    creates it: the nine rasters (lines 215-216, 227-228, 242-243, 258-259,
    262-263, 268-269, 274-275, 278-279, 284-285), dead_trees_selected
    (lines 296-297) and buffered_trees (lines 302-306).  The three other
    feature classes are left out: dead_trees_vector and dissolved_buffer
    are recorded once their area field is filled (lines 288-297, 309-315),
    trees_buffer_processed never (lines 319-320). *)
Definition tracked_creations (w : world) (p : parameters) : list (call * string) :=
  let t := tmp_path w (workspace p) in
  let s := tmp_shp_path w (workspace p) in
  map (fun name => (save (t name), t name))
      ["aerial_image"; "classified"; "dead_trees"; "blue_mask";
       "extracted_raster_one_band"; "filtered"; "expanded"; "shrinked";
       "region_group"]
  ++ [ (Select (s "dead_trees_vector") (s "dead_trees_selected")
               (Shape_Area_gt (min_area p)),
        s "dead_trees_selected");
       (Buffer (s "dead_trees_selected") (s "buffered_trees") (buffer_distance p),
        s "buffered_trees") ].

(** The state [st] with the paths [l] appended to [intermediates]. *)
Definition recorded (l : list string) (st : state) : state :=
  mkState (datasets st) (intermediates st ++ l) (messages st) (trace st).

(** Every tracked intermediate whose creating call has returned is in
    [intermediates], and so are the paths [done]. *)
Definition tracked_recorded (w : world) (p : parameters)
    (done : list string) (st : state) : Prop :=
  (forall c a,
      In (c, a) (tracked_creations w p) ->
      In (c, None) (trace st) -> In a (intermediates st)) /\
  incl done (intermediates st).

(** Before every call of line 258 the raster it thresholds has been opened
    as [blue_band_opened] says, and the call asks for the cells from 150
    on to become 1. *)
Definition thresholds_follow_opening (p : parameters) (t : list event) : Prop :=
  forall before raster threshold value o after,
    t = (before ++ (Con_GreaterThanEqual raster threshold value, o) :: after)%list ->
    blue_band_opened p raster before /\ threshold = 150%Z /\ value = 1%Z.

End Pipeline.

(* ================================================================== *)
(** * Part II b: the stand-alone scripts, as sequences of tool calls   *)
(* ================================================================== *)

(** [code_for_dead_trees_detection.py], the script at the end of
    [enhanced_toolbox.py] and the loop body of [zoom.py] are straight-line
    sequences of calls into the GIS engine, with literal dataset names and
    no [try].  Each call is kept with its line, its tool, the datasets and
    raster objects it reads and writes, and its other arguments.  The
    arithmetic that follows the calls is the subject of [Evaluation]. *)

Module Script.

Local Open Scope string_scope.

(** A dataset named by a path, or a raster object held in a Python
    variable. *)
Inductive name : Type :=
| File (path : string)
| Var (id : string).

Definition name_eqb (a b : name) : bool :=
  match a, b with
  | File x, File y => x =? y
  | Var x, Var y => x =? y
  | _, _ => false
  end.

Record stmt : Type := mkStmt {
  line : nat;
  tool : string;
  reads : list name;
  writes : list name;
  options : list string
}.

(** How a script ends: it runs to its end, or a call raises because a
    dataset it reads does not exist, or a call raises for a reason of its
    own; nothing in the scripts catches the exception. *)
Inductive outcome : Type :=
| Completed
| MissingInput (at_line : nat) (missing : name)
| ToolError (at_line : nat).

Definition present (env : list name) (n : name) : bool :=
  existsb (name_eqb n) env.

(** The first dataset a call reads that is not there. *)
Definition first_missing (s : stmt) (env : list name) : option name :=
  find (fun n => negb (present env n)) (reads s).

(** The script from the names in [env]: a call whose inputs are there and
    that does not fail adds what it writes (overwriteOutput is set, so an
    existing output is replaced); no call of the scripts deletes
    anything. *)
Fixpoint run_script (tool_fails : stmt -> bool) (script : list stmt)
    (env : list name) : outcome * list name :=
  match script with
  | [] => (Completed, env)
  | s :: rest =>
      match first_missing s env with
      | Some n => (MissingInput (line s) n, env)
      | None =>
          if tool_fails s then (ToolError (line s), env)
          else run_script tool_fails rest (writes s ++ env)
      end
  end.

(** The names a script reads without having written them before. *)
Fixpoint free_reads_from (written : list name) (script : list stmt) : list name :=
  match script with
  | [] => []
  | s :: rest =>
      filter (fun n => negb (present written n)) (reads s)
      ++ free_reads_from (writes s ++ written) rest
  end.

(** A list of names without its repetitions. *)
Fixpoint distinct (l : list name) : list name :=
  match l with
  | [] => []
  | n :: l' => if present l' n then distinct l' else n :: distinct l'
  end.

Definition free_reads (script : list stmt) : list name :=
  distinct (free_reads_from [] script).

(** The names a script writes. *)
Definition all_writes (script : list stmt) : list name :=
  flat_map writes script.

(** The names a script reads. *)
Definition all_reads (script : list stmt) : list name :=
  flat_map reads script.

(** A double quote, for the where clauses. *)
Definition dq : string := String (ascii_of_nat 34) EmptyString.

(** ** [code_for_dead_trees_detection.py], lines 12-151 *)

Definition input_raster : string :=
  "D:\Luba\chapter3\python_code_workflow\input_images\across_RI\12_RISTAT033020OrthoSectorTile6.tif".

Definition mask_layer : string :=
  "D:\Luba\chapter3\project_dead_trees_mapping\dead_trees_mapping\dead_trees_mapping.gdb\forest_from_ccap".

Definition remap_text : string :=
  "[[1, NODATA], [2, NODATA], [3, NODATA], [4, NODATA], [5, NODATA], [6, NODATA], [7, NODATA], [8, NODATA], [9, NODATA], [10, 1]]".

Definition detection_script : list stmt :=
  [ mkStmt 18 "arcpy.sa.ExtractByMask"
      [File input_raster; File mask_layer] [Var "raster_clipped_forest"] [];
    mkStmt 19 "save"
      [Var "raster_clipped_forest"] [File "aerial_image.tif"] [];
    mkStmt 23 "arcpy.sa.IsoCluster"
      [Var "raster_clipped_forest"] [File "output_signature.GSG"]
      ["number_classes=10"];
    mkStmt 26 "arcpy.sa.MLClassify"
      [File "aerial_image.tif"; File "output_signature.GSG"]
      [Var "classified_raster"] [];
    mkStmt 30 "arcpy.sa.Reclassify"
      [Var "classified_raster"] [Var "out_classified_raster"]
      ["Value"; remap_text];
    mkStmt 31 "save"
      [Var "out_classified_raster"] [File "dead_trees.tif"] [];
    mkStmt 46 "arcpy.management.CreateColorComposite"
      [File input_raster] [File "blue_raster.tif"]
      ["Band IDs"; "B3"; "B3"; "B3"];
    mkStmt 50 "arcpy.ddd.Reclassify"
      [File "blue_raster.tif"] [File "blue_mask.tif"]
      ["Value"; "29 150 NODATA; 150 250 1"; "True"];
    mkStmt 51 "arcpy.sa.ExtractByMask"
      [File "dead_trees.tif"; File "blue_mask.tif"]
      [Var "extracted_raster_both_bands"] [];
    mkStmt 52 "save"
      [Var "extracted_raster_both_bands"] [File "extracted_raster_one_band.tif"] [];
    mkStmt 54 "arcpy.sa.MajorityFilter"
      [File "extracted_raster_one_band.tif"] [Var "result of line 54"] [];
    mkStmt 54 "save"
      [Var "result of line 54"] [File "filtered_raster.tif"] [];
    mkStmt 58 "arcpy.sa.Expand"
      [File "filtered_raster.tif"] [Var "result of line 58"] ["1"; "1"];
    mkStmt 58 "save"
      [Var "result of line 58"] [File "expanded_raster.tif"] [];
    mkStmt 61 "arcpy.sa.Shrink"
      [File "expanded_raster.tif"] [Var "result of line 61"] ["1"; "1"];
    mkStmt 61 "save"
      [Var "result of line 61"] [File "shrinked_raster.tif"] [];
    mkStmt 64 "arcpy.sa.RegionGroup"
      [File "shrinked_raster.tif"] [Var "dead_trees_region"] [];
    mkStmt 66 "arcpy.conversion.RasterToPolygon"
      [Var "dead_trees_region"] [File "dead_trees_vector.shp"] ["NO_SIMPLIFY"];
    mkStmt 69 "arcpy.AddField_management"
      [File "dead_trees_vector.shp"] [File "dead_trees_vector.shp"]
      ["Shape_Area"; "DOUBLE"];
    mkStmt 73 "arcpy.CalculateField_management"
      [File "dead_trees_vector.shp"] [File "dead_trees_vector.shp"]
      ["Shape_Area"; "!shape.area!"; "PYTHON"];
    mkStmt 78 "arcpy.analysis.Select"
      [File "dead_trees_vector.shp"] [File "dead_trees_selected.shp"]
      ["Shape_Area > 2"];
    mkStmt 80 "arcpy.management.CopyFeatures"
      [File "dead_trees_selected.shp"] [File "dead_trees_selected_copy.shp"] [];
    mkStmt 90 "arcpy.analysis.Buffer"
      [File "dead_trees_selected_copy.shp"] [File "buffered_trees.shp"]
      ["1 Meters"; "FULL"; "ROUND"];
    mkStmt 94 "arcpy.management.Dissolve"
      [File "buffered_trees.shp"] [File "dissolved_buffer.shp"]
      [EmptyString; EmptyString; "SINGLE_PART"];
    mkStmt 97 "arcpy.AddField_management"
      [File "dissolved_buffer.shp"] [File "dissolved_buffer.shp"]
      ["Shape_Area"; "DOUBLE"];
    mkStmt 101 "arcpy.CalculateField_management"
      [File "dissolved_buffer.shp"] [File "dissolved_buffer.shp"]
      ["Shape_Area"; "!shape.area!"; "PYTHON"];
    mkStmt 105 "arcpy.analysis.Select"
      [File "dissolved_buffer.shp"] [File "trees_buffer_processed.shp"]
      [dq ++ "Shape_Area" ++ dq ++ ">80"];
    mkStmt 109 "arcpy.management.CopyFeatures"
      [File "trees_buffer_processed.shp"] [File "dead_trees_final_12.shp"] [];
    mkStmt 118 "arcpy.management.CopyFeatures"
      [File "Molly_deadtrees.shp"] [File "Molly_points_clipped.shp"] [];
    mkStmt 123 "arcpy.analysis.SpatialJoin"
      [File "dead_trees_final.shp"; File "Molly_points_clipped.shp"]
      [File "polygons_to_points.shp"] [];
    mkStmt 128 "arcpy.analysis.SpatialJoin"
      [File "Molly_points_clipped.shp"; File "dead_trees_final.shp"]
      [File "points_to_polygons.shp"] [];
    mkStmt 138 "arcpy.Select_analysis"
      [File "polygons_to_points.shp"] [File "selected_polygons_to_points"]
      [dq ++ "Join_Count" ++ dq ++ " <> 0"];
    mkStmt 141 "arcpy.GetCount_management"
      [File "selected_polygons_to_points"] [] [];
    mkStmt 142 "arcpy.GetCount_management"
      [File "polygons_to_points.shp"] [] [];
    mkStmt 147 "arcpy.Select_analysis"
      [File "points_to_polygons.shp"] [File "selected_points_to_polygons"]
      [dq ++ "Join_Count" ++ dq ++ " <> 0"];
    mkStmt 150 "arcpy.GetCount_management"
      [File "selected_points_to_polygons"] [] [];
    mkStmt 151 "arcpy.GetCount_management"
      [File "points_to_polygons.shp"] [] [] ]%nat.

(** ** The script at the end of [enhanced_toolbox.py], lines 365-485 *)

Definition no_blue_input_raster : string :=
  "D:\Luba\chapter3\python_code_workflow\input_images\RISTAT047012OrthoSectorTile3.JP2".

Definition no_blue_script : list stmt :=
  [ mkStmt 370 "arcpy.sa.ExtractByMask"
      [File no_blue_input_raster; File "forest_lc.tif"]
      [Var "raster_clipped_forest"] [];
    mkStmt 371 "save"
      [Var "raster_clipped_forest"] [File "aerial_image.tif"] [];
    mkStmt 375 "arcpy.sa.IsoCluster"
      [Var "raster_clipped_forest"] [File "output_signature.GSG"]
      ["number_classes=10"];
    mkStmt 378 "arcpy.sa.MLClassify"
      [File "aerial_image.tif"; File "output_signature.GSG"]
      [Var "classified_raster"] [];
    mkStmt 382 "arcpy.sa.Reclassify"
      [Var "classified_raster"] [Var "out_classified_raster"]
      ["Value"; remap_text];
    mkStmt 383 "save"
      [Var "out_classified_raster"] [File "dead_trees.tif"] [];
    mkStmt 387 "arcpy.management.CreateColorComposite"
      [File no_blue_input_raster] [File "red_raster.tif"]
      ["Band IDs"; "B1"; "B1"; "B1"];
    mkStmt 391 "arcpy.ddd.Reclassify"
      [File "red_raster.tif"] [File "red_mask.tif"]
      ["Value"; "0 100 NODATA; 100 255 1"; "True"];
    mkStmt 393 "arcpy.sa.ExtractByMask"
      [File "dead_trees.tif"; File "red_mask.tif"]
      [Var "extracted_raster_by_red"] [];
    mkStmt 394 "save"
      [Var "extracted_raster_by_red"] [File "extracted_raster_by_red.tif"] [];
    mkStmt 398 "arcpy.sa.RegionGroup"
      [File "extracted_raster_by_red.tif"] [Var "dead_trees_region"] [];
    mkStmt 400 "arcpy.conversion.RasterToPolygon"
      [Var "dead_trees_region"] [File "dead_trees_vector_no_blue.shp"]
      ["NO_SIMPLIFY"];
    mkStmt 403 "arcpy.AddField_management"
      [File "dead_trees_vector_no_blue.shp"] [File "dead_trees_vector_no_blue.shp"]
      ["Shape_Area"; "DOUBLE"];
    mkStmt 407 "arcpy.CalculateField_management"
      [File "dead_trees_vector_no_blue.shp"] [File "dead_trees_vector_no_blue.shp"]
      ["Shape_Area"; "!shape.area!"; "PYTHON"];
    mkStmt 412 "arcpy.analysis.Select"
      [File "dead_trees_vector_no_blue.shp"] [File "dead_trees_selected_no_blue.shp"]
      ["Shape_Area > 2"];
    mkStmt 414 "arcpy.management.CopyFeatures"
      [File "dead_trees_selected_no_blue.shp"]
      [File "dead_trees_selected_copy_no_blue.shp"] [];
    mkStmt 424 "arcpy.analysis.Buffer"
      [File "dead_trees_selected_copy_no_blue.shp"] [File "buffered_trees_no_blue.shp"]
      ["1 Meters"; "FULL"; "ROUND"];
    mkStmt 428 "arcpy.management.Dissolve"
      [File "buffered_trees_no_blue.shp"] [File "dissolved_buffer_no_blue.shp"]
      [EmptyString; EmptyString; "SINGLE_PART"];
    mkStmt 431 "arcpy.AddField_management"
      [File "dissolved_buffer_no_blue.shp"] [File "dissolved_buffer_no_blue.shp"]
      ["Shape_Area"; "DOUBLE"];
    mkStmt 435 "arcpy.CalculateField_management"
      [File "dissolved_buffer_no_blue.shp"] [File "dissolved_buffer_no_blue.shp"]
      ["Shape_Area"; "!shape.area!"; "PYTHON"];
    mkStmt 439 "arcpy.analysis.Select"
      [File "dissolved_buffer_no_blue.shp"] [File "trees_buffer_processed_no_blue.shp"]
      [dq ++ "Shape_Area" ++ dq ++ ">80"];
    mkStmt 443 "arcpy.management.CopyFeatures"
      [File "trees_buffer_processed_no_blue.shp"] [File "dead_trees_final_no_blue.shp"]
      [];
    mkStmt 452 "arcpy.management.CopyFeatures"
      [File "Molly_deadtrees.shp"] [File "Molly_points_clipped.shp"] [];
    mkStmt 457 "arcpy.analysis.SpatialJoin"
      [File "dead_trees_final_no_blue.shp"; File "Molly_points_clipped.shp"]
      [File "polygons_to_points_no_blue.shp"] [];
    mkStmt 462 "arcpy.analysis.SpatialJoin"
      [File "Molly_points_clipped.shp"; File "dead_trees_final_no_blue.shp"]
      [File "points_to_polygons_no_blue.shp"] [];
    mkStmt 472 "arcpy.Select_analysis"
      [File "polygons_to_points_no_blue.shp"]
      [File "selected_polygons_to_points_no_blue"]
      [dq ++ "Join_Count" ++ dq ++ " <> 0"];
    mkStmt 475 "arcpy.GetCount_management"
      [File "selected_polygons_to_points_no_blue"] [] [];
    mkStmt 476 "arcpy.GetCount_management"
      [File "polygons_to_points_no_blue.shp"] [] [];
    mkStmt 481 "arcpy.Select_analysis"
      [File "points_to_polygons_no_blue.shp"]
      [File "selected_points_to_polygons_no_blue"]
      [dq ++ "Join_Count" ++ dq ++ " <> 0"];
    mkStmt 484 "arcpy.GetCount_management"
      [File "selected_points_to_polygons_no_blue"] [] [];
    mkStmt 485 "arcpy.GetCount_management"
      [File "points_to_polygons_no_blue.shp"] [] [] ]%nat.

(** ** [zoom.py]: the same steps for every .JP2 file of a folder *)

Definition zoom_workspace : string :=
  "D:\Luba\chapter3\python_code_workflow\input_images".

(** [[file for file in all_files if file.endswith(".JP2")]] (line 15) *)
Definition jp2_files (all_files : list string) : list string :=
  filter (fun file => Pipeline.endswith file ".JP2") all_files.

(** The calls of one turn of the loop (lines 27-147).  The names with
    braces are written as the source has them: the strings of lines 66, 80,
    83, 107, 118 and 124 are not f-strings, so the braces and the text
    between them are part of the name, and the name is the same for every
    file. *)
Definition zoom_iteration (jp2_file : string) : list stmt :=
  let input_raster := Pipeline.ntpath_join zoom_workspace jp2_file in
  [ mkStmt 27 "arcpy.sa.ExtractByMask"
      [File input_raster; File "shrubs_and_forest.tif"]
      [Var "raster_clipped_forest"] [];
    mkStmt 31 "arcpy.sa.IsoCluster"
      [Var "raster_clipped_forest"] [File "output_signature.GSG"]
      ["number_classes=10"];
    mkStmt 34 "arcpy.sa.MLClassify"
      [Var "raster_clipped_forest"; File "output_signature.GSG"]
      [Var "classified_raster"] [];
    mkStmt 40 "arcpy.sa.Reclassify"
      [Var "classified_raster"] [Var "out_classified_raster"]
      ["Value"; remap_text];
    mkStmt 41 "save"
      [Var "out_classified_raster"] [File "dead_trees.tif"] [];
    mkStmt 45 "arcpy.management.CreateColorComposite"
      [File input_raster] [File "red_raster.tif"]
      ["Band IDs"; "B1"; "B1"; "B1"];
    mkStmt 49 "arcpy.ddd.Reclassify"
      [File "red_raster.tif"] [File "red_mask.tif"]
      ["Value"; "0 100 NODATA; 100 255 1"; "True"];
    mkStmt 51 "arcpy.sa.ExtractByMask"
      [File "dead_trees.tif"; File "red_mask.tif"]
      [Var "extracted_raster_by_red"] [];
    mkStmt 52 "save"
      [Var "extracted_raster_by_red"] [File "extracted_raster_by_red.tif"] [];
    mkStmt 55 "arcpy.management.CreateColorComposite"
      [File input_raster] [File "blue_raster.tif"]
      ["Band IDs"; "B3"; "B3"; "B3"];
    mkStmt 59 "arcpy.ddd.Reclassify"
      [File "blue_raster.tif"] [File "blue_mask.tif"]
      ["Value"; "29 150 NODATA; 150 250 1"; "True"];
    mkStmt 60 "arcpy.sa.ExtractByMask"
      [File "extracted_raster_by_red.tif"; File "blue_mask.tif"]
      [Var "extracted_raster_both_bands"] [];
    mkStmt 61 "save"
      [Var "extracted_raster_both_bands"]
      [File "extracted_raster_both_bands.tif"] [];
    mkStmt 64 "arcpy.sa.RegionGroup"
      [File "extracted_raster_both_bands.tif"] [Var "dead_trees_region"] [];
    mkStmt 66 "arcpy.conversion.RasterToPolygon"
      [Var "dead_trees_region"]
      [File "dead_trees_vector_{file_name_without_extension}.shp"]
      ["NO_SIMPLIFY"];
    mkStmt 69 "arcpy.AddField_management"
      [File "dead_trees_vector.shp"] [File "dead_trees_vector.shp"]
      ["Shape_Area"; "DOUBLE"];
    mkStmt 73 "arcpy.CalculateField_management"
      [File "dead_trees_vector.shp"] [File "dead_trees_vector.shp"]
      ["Shape_Area"; "!shape.area!"; "PYTHON"];
    mkStmt 78 "arcpy.analysis.Select"
      [File "dead_trees_vector.shp"] [File "dead_trees_selected.shp"]
      ["Shape_Area > 2"];
    mkStmt 80 "arcpy.management.CopyFeatures"
      [File "dead_trees_selected.shp"]
      [File "dead_trees_selected_copy_{file_name_without_extension}.shp"] [];
    mkStmt 89 "arcpy.analysis.Buffer"
      [File "dead_trees_selected_copy_{file_name_without_extension}.shp"]
      [File "buffered_trees.shp"]
      ["1 Meters"; "FULL"; "ROUND"];
    mkStmt 93 "arcpy.management.Dissolve"
      [File "buffered_trees.shp"] [File "dissolved_buffer.shp"]
      [EmptyString; EmptyString; "SINGLE_PART"];
    mkStmt 96 "arcpy.AddField_management"
      [File "dissolved_buffer.shp"] [File "dissolved_buffer.shp"]
      ["Shape_Area"; "DOUBLE"];
    mkStmt 100 "arcpy.CalculateField_management"
      [File "dissolved_buffer.shp"] [File "dissolved_buffer.shp"]
      ["Shape_Area"; "!shape.area!"; "PYTHON"];
    mkStmt 104 "arcpy.analysis.Select"
      [File "dissolved_buffer.shp"] [File "trees_buffer_processed.shp"]
      [dq ++ "Shape_Area" ++ dq ++ ">80"];
    mkStmt 108 "arcpy.management.CopyFeatures"
      [File "trees_buffer_processed.shp"]
      [File "dead_trees_final_{file_name_without_extension}.shp"] [];
    mkStmt 116 "arcpy.management.CopyFeatures"
      [File "Molly_deadtrees.shp"] [File "Molly_points_clipped.shp"] [];
    mkStmt 121 "arcpy.analysis.SpatialJoin"
      [File "dead_trees_final_{file_name_without_extension}.shp";
       File "Molly_points_clipped.shp"]
      [File "polygons_to_points.shp"] [];
    mkStmt 126 "arcpy.analysis.SpatialJoin"
      [File "Molly_points_clipped.shp";
       File "dead_trees_final_{file_name_without_extension}.shp"]
      [File "points_to_polygons.shp"] [];
    mkStmt 135 "arcpy.Select_analysis"
      [File "polygons_to_points.shp"] [File "selected_polygons_to_points"]
      [dq ++ "Join_Count" ++ dq ++ " <> 0"];
    mkStmt 138 "arcpy.GetCount_management"
      [File "selected_polygons_to_points"] [] [];
    mkStmt 139 "arcpy.GetCount_management"
      [File "polygons_to_points.shp"] [] [];
    mkStmt 143 "arcpy.Select_analysis"
      [File "points_to_polygons.shp"] [File "selected_points_to_polygons"]
      [dq ++ "Join_Count" ++ dq ++ " <> 0"];
    mkStmt 146 "arcpy.GetCount_management"
      [File "selected_points_to_polygons"] [] [];
    mkStmt 147 "arcpy.GetCount_management"
      [File "points_to_polygons.shp"] [] [] ]%nat.

(** The calls of the loop of line 18 over the files of the folder, in the
    order [os.listdir] gives them. *)
Definition zoom_script (all_files : list string) : list stmt :=
  flat_map zoom_iteration (jp2_files all_files).

(** No tool fails for a reason of its own. *)
Definition tools_work (s : stmt) : bool := false.

End Script.

(* ================================================================== *)
(** * Part III: properties of the evaluation engine                    *)
(* ================================================================== *)

Module EvaluationFacts.

Import Evaluation.
Local Open Scope Z_scope.

(** ** Division *)

Lemma int_truediv_ok (a b : Z) :
  b <> 0 -> int_truediv a b = Ok (inject_Z a / inject_Z b)%Q.
Proof.
  intros Hb. unfold int_truediv.
  destruct (Z.eqb_spec b 0) as [E | _]; [contradiction | reflexivity].
Qed.

Lemma float_truediv_ok (a b : Q) :
  ~ (b == 0)%Q -> float_truediv a b = Ok (a / b)%Q.
Proof.
  intros Hb. unfold float_truediv.
  destruct (Qeq_bool b 0) eqn:E; [| reflexivity].
  apply Qeq_bool_iff in E. contradiction.
Qed.

Lemma float_truediv_raise (a b : Q) :
  float_truediv a b = Raise ZeroDivisionError <-> (b == 0)%Q.
Proof.
  unfold float_truediv. destruct (Qeq_bool b 0) eqn:E.
  - apply Qeq_bool_iff in E. tauto.
  - split; [discriminate |]. intros H. apply Qeq_bool_iff in H. congruence.
Qed.

(** Every exception is a [ZeroDivisionError]; spelled out for rewriting. *)
Lemma exn_unique (e : exn) : e = ZeroDivisionError.
Proof. destruct e; reflexivity. Qed.

(** A quotient of two positive integers is positive. *)
Lemma ratio_pos (a b : Z) :
  0 < a -> 0 < b -> (0 < inject_Z a / inject_Z b)%Q.
Proof.
  intros Ha Hb. apply Qlt_shift_div_l.
  - change 0%Q with (inject_Z 0). rewrite <- Zlt_Qlt. exact Hb.
  - rewrite Qmult_0_l. change 0%Q with (inject_Z 0). rewrite <- Zlt_Qlt. exact Ha.
Qed.

Lemma ratio_zero (b : Z) : (inject_Z 0 / inject_Z b == 0)%Q.
Proof. unfold Qdiv. apply Qmult_0_l. Qed.

(** With non-negative counts and non-zero integer denominators, the third
    denominator [precision + recall] is zero exactly when [TP] is. *)
Lemma precision_plus_recall_zero (TP FP FN : Z) :
  0 <= TP -> 0 <= FP -> 0 <= FN -> TP + FP <> 0 -> TP + FN <> 0 ->
  (inject_Z TP / inject_Z (TP + FP) + inject_Z TP / inject_Z (TP + FN) == 0)%Q
  <-> TP = 0.
Proof.
  intros HTP HFP HFN H1 H2. split.
  - intros Hz. destruct (Z.eq_dec TP 0) as [E | N]; [exact E | exfalso].
    assert (Hp : (0 < inject_Z TP / inject_Z (TP + FP))%Q) by (apply ratio_pos; lia).
    assert (Hr : (0 < inject_Z TP / inject_Z (TP + FN))%Q) by (apply ratio_pos; lia).
    lra.
  - intros ->. rewrite !ratio_zero. reflexivity.
Qed.

(** ** The three formulas *)

(** What [computeMetrics] returns once the three denominators are non-zero. *)
Lemma computeMetrics_ok (TP FP FN : Z) :
  TP + FP <> 0 -> TP + FN <> 0 ->
  ~ (inject_Z TP / inject_Z (TP + FP) + inject_Z TP / inject_Z (TP + FN) == 0)%Q ->
  computeMetrics TP FP FN =
  Ok (mkMetrics (inject_Z TP / inject_Z (TP + FP))
                (inject_Z TP / inject_Z (TP + FN))
                (2 * (inject_Z TP / inject_Z (TP + FP) * (inject_Z TP / inject_Z (TP + FN)))
                 / (inject_Z TP / inject_Z (TP + FP) + inject_Z TP / inject_Z (TP + FN))))%Q.
Proof.
  intros H1 H2 H3. unfold computeMetrics.
  rewrite (int_truediv_ok TP H1). cbn [bind].
  rewrite (int_truediv_ok TP H2). cbn [bind].
  rewrite (float_truediv_ok _ H3). reflexivity.
Qed.



(** ** Division by zero *)

Lemma bind_raise {A B} (m : result A) (k : A -> result B) (e : exn) :
  bind m k = Raise e <->
  m = Raise e \/ exists a, m = Ok a /\ k a = Raise e.
Proof.
  destruct m as [a | e']; cbn [bind].
  - split.
    + intros H. right. exists a. split; [reflexivity | exact H].
    + intros [H | [a' [H1 H2]]]; [discriminate | congruence].
  - split.
    + intros H. left. congruence.
    + intros [H | [a' [H1 H2]]]; [congruence | discriminate].
Qed.

(** When [computeMetrics] raises, in terms of its three denominators. *)
Lemma computeMetrics_raise (TP FP FN : Z) :
  computeMetrics TP FP FN = Raise ZeroDivisionError <->
  TP + FP = 0 \/ TP + FN = 0 \/
  (TP + FP <> 0 /\ TP + FN <> 0 /\
   (inject_Z TP / inject_Z (TP + FP) + inject_Z TP / inject_Z (TP + FN) == 0)%Q).
Proof.
  unfold computeMetrics.
  destruct (Z.eq_dec (TP + FP) 0) as [E1 | N1].
  { unfold int_truediv at 1. rewrite E1. cbn. tauto. }
  rewrite (int_truediv_ok TP N1). cbn [bind].
  destruct (Z.eq_dec (TP + FN) 0) as [E2 | N2].
  { unfold int_truediv at 1. rewrite E2. cbn. tauto. }
  rewrite (int_truediv_ok TP N2). cbn [bind].
  rewrite bind_raise, float_truediv_raise. split.
  - intros [H | [a [_ H]]]; [| discriminate]. right. right. tauto.
  - intros [H | [H | [_ [_ H]]]]; try contradiction. left. exact H.
Qed.

(** For counts, which are non-negative, the exception is raised exactly when
    there is no true positive. *)
Lemma computeMetrics_raise_counts (TP FP FN : Z) :
  0 <= TP -> 0 <= FP -> 0 <= FN ->
  computeMetrics TP FP FN = Raise ZeroDivisionError <-> TP = 0.
Proof.
  intros HTP HFP HFN. rewrite computeMetrics_raise. split.
  - intros [H | [H | [H1 [H2 H3]]]]; try lia.
    apply (precision_plus_recall_zero HTP HFP HFN H1 H2). exact H3.
  - intros ->.
    destruct (Z.eq_dec (0 + FP) 0) as [E1 | N1]; [tauto |].
    destruct (Z.eq_dec (0 + FN) 0) as [E2 | N2]; [tauto |].
    right. right. split; [exact N1 |]. split; [exact N2 |].
    rewrite !ratio_zero. reflexivity.
Qed.

(** C2: [computeMetrics] raises [ZeroDivisionError] if and only if one of the
    denominators TP + FP, TP + FN, precision + recall is zero (so for TP = 0
    and FP = 0, where precision is undefined); the script has no handler, so
    the exception of either triple is the outcome of the whole evaluation,
    and no result value is produced in its place. *)
Theorem C2_division_by_zero_propagates :
  (forall TP FP FN : Z,
      computeMetrics TP FP FN = Raise ZeroDivisionError <->
      TP + FP = 0 \/ TP + FN = 0 \/
      (TP + FP <> 0 /\ TP + FN <> 0 /\
       (inject_Z TP / inject_Z (TP + FP) + inject_Z TP / inject_Z (TP + FN) == 0)%Q))
  /\ (forall FN : Z, computeMetrics 0 0 FN = Raise ZeroDivisionError)
  /\ (forall c : counts,
        metrics_of_counts c = Raise ZeroDivisionError <->
        computeMetrics (TP c) (FP c) (FN c) = Raise ZeroDivisionError \/
        computeMetrics (TP_2 c) (FP c) (FN c) = Raise ZeroDivisionError)
  /\ (forall (c : counts) (r : report),
        metrics_of_counts c = Ok r ->
        computeMetrics (TP c) (FP c) (FN c) = Ok (poly_view r) /\
        computeMetrics (TP_2 c) (FP c) (FN c) = Ok (point_view r)).
Proof.
  split; [exact computeMetrics_raise |].
  split; [intros FN; reflexivity |].
  split.
  - intros c. unfold metrics_of_counts. rewrite bind_raise. split.
    + intros [H | [m [H1 H2]]]; [left; exact H |].
      apply bind_raise in H2. destruct H2 as [H2 | [m2 [_ H2]]];
        [right; exact H2 | discriminate].
    + intros [H | H]; [left; exact H |].
      destruct (computeMetrics (TP c) (FP c) (FN c)) as [m | e] eqn:E.
      * right. exists m. split; [reflexivity |]. rewrite H. reflexivity.
      * left. rewrite (exn_unique e). reflexivity.
  - intros c r. unfold metrics_of_counts.
    destruct (computeMetrics (TP c) (FP c) (FN c)) as [m | e]; cbn [bind];
      [| discriminate].
    destruct (computeMetrics (TP_2 c) (FP c) (FN c)) as [m2 | e]; cbn [bind];
      [| discriminate].
    intros H. injection H as <-. split; reflexivity.
Qed.

(** [C2_division_by_zero_propagates] on the counts TP = 8, FP = 2, FN = 1,
    TP_2 = 9: no denominator is zero and both triples are returned. *)
Lemma C2_division_by_zero_propagates_witness :
  computeMetrics 8 2 1 =
    Ok {| precision := inject_Z 8 / inject_Z 10;
          recall := inject_Z 8 / inject_Z 9;
          f1_score := 2 * (inject_Z 8 / inject_Z 10 * (inject_Z 8 / inject_Z 9))
                      / (inject_Z 8 / inject_Z 10 + inject_Z 8 / inject_Z 9) |}%Q /\
  computeMetrics 9 2 1 =
    Ok {| precision := inject_Z 9 / inject_Z 11;
          recall := inject_Z 9 / inject_Z 10;
          f1_score := 2 * (inject_Z 9 / inject_Z 11 * (inject_Z 9 / inject_Z 10))
                      / (inject_Z 9 / inject_Z 11 + inject_Z 9 / inject_Z 10) |}%Q.
Proof.
  apply (proj2 (proj2 (proj2 C2_division_by_zero_propagates))
           {| TP := 8; All_polygons := 9; FN := 1;
              TP_2 := 9; All_points := 11; FP := 2 |}
           {| cnt := {| TP := 8; All_polygons := 9; FN := 1;
                        TP_2 := 9; All_points := 11; FP := 2 |};
              poly_view := _; point_view := _ |}).
  reflexivity.
Defined.

(** ** The scenario *)

(** The counts the script finds in the scenario. *)
Lemma scenario_counts :
  count_rows (SpatialJoin scenario_intersects scenario_polygons scenario_points)
             (SpatialJoin (fun g p => scenario_intersects p g)
                          scenario_points scenario_polygons)
  = {| TP := 2; All_polygons := 3; FN := 1;
       TP_2 := 2; All_points := 2; FP := 0 |}.
Proof. reflexivity. Qed.

(** C3 as stated fails: in the scenario the second triple, computed with
    [TP_2] in place of [TP] and the same [FN] = 1, has recall 2/3 and not 1. *)
Lemma C3_point_view_not_all_one :
  ~ (exists r : report,
        evaluation scenario_intersects scenario_polygons scenario_points = Ok r /\
        (precision (point_view r) == 1)%Q /\
        (recall (point_view r) == 1)%Q /\
        (f1_score (point_view r) == 1)%Q /\
        (precision (poly_view r) == 1)%Q /\
        (recall (poly_view r) == 2 # 3)%Q /\
        (Qabs (f1_score (poly_view r) - 0.80) < 0.005)%Q).
Proof.
  intros [r [Hr [_ [Hrec _]]]].
  vm_compute in Hr. injection Hr as <-.
  vm_compute in Hrec. discriminate Hrec.
Qed.

(** C3 (amended): in the scenario the counts are TP = 2, FN = 1,
    All_polygons = 3, TP_2 = 2, FP = 0, All_points = 2; the triple computed
    from TP is precision = 1, recall = 2/3, f1 = 0.8, and the triple computed
    from TP_2, which shares FN and FP with the first, is the same:
    precision = 1, recall = 2/3, f1 = 0.8. *)
Theorem C3_scenario_metrics :
  exists r : report,
    evaluation scenario_intersects scenario_polygons scenario_points = Ok r /\
    cnt r = {| TP := 2; All_polygons := 3; FN := 1;
               TP_2 := 2; All_points := 2; FP := 0 |} /\
    ((precision (poly_view r) == 1)%Q /\
     (recall (poly_view r) == 2 # 3)%Q /\
     (Qabs (recall (poly_view r) - 0.667) < 0.0005)%Q /\
     (f1_score (poly_view r) == 0.80)%Q) /\
    ((precision (point_view r) == 1)%Q /\
     (recall (point_view r) == 2 # 3)%Q /\
     (f1_score (point_view r) == 0.80)%Q).
Proof.
  eexists. split; [reflexivity |].
  cbn [cnt poly_view point_view precision recall f1_score].
  repeat split; reflexivity.
Qed.

(** ** The worked examples in binary64 *)

(** For TP = 8, FP = 2, FN = 1 the three floats are within 2^-53 of 0.8, of
    8/9 and of 16/19. *)
Lemma computeMetrics_b64_8_2_1 :
  exists precision recall f1_score : float,
    computeMetrics_b64 8 2 1 = Ok (precision, recall, f1_score) /\
    (Qabs (float_value precision - 0.8) < 1 # (2 ^ 53))%Q /\
    (Qabs (float_value recall - (8 # 9)) < 1 # (2 ^ 53))%Q /\
    (Qabs (float_value f1_score - (16 # 19)) < 1 # (2 ^ 53))%Q /\
    (Qabs (float_value f1_score - 0.842) < 0.0005)%Q.
Proof.
  do 3 eexists. split; [vm_compute; reflexivity |].
  repeat split; vm_compute; reflexivity.
Qed.

(** In the scenario both triples are, in binary64, exactly 1.0, a float
    within 2^-53 of 2/3 (so not 1.0), and a float within 2^-53 of 0.8. *)
Lemma computeMetrics_b64_scenario :
  exists recall f1_score : float,
    computeMetrics_b64 2 0 1 = Ok (float_of_int 1, recall, f1_score) /\
    (Qabs (float_value recall - (2 # 3)) < 1 # (2 ^ 53))%Q /\
    (Qabs (float_value f1_score - 0.8) < 1 # (2 ^ 53))%Q /\
    SFeqb recall (float_of_int 1) = false.
Proof.
  do 2 eexists. split; [vm_compute; reflexivity |].
  repeat split; vm_compute; reflexivity.
Qed.

(** In binary64 as over the rationals, the exception is raised exactly when
    one of the three denominators is zero. *)
Lemma computeMetrics_b64_raise (TP FP FN : Z) :
  computeMetrics_b64 TP FP FN = Raise ZeroDivisionError <->
  TP + FP = 0 \/ TP + FN = 0 \/
  (TP + FP <> 0 /\ TP + FN <> 0 /\
   SFeqb (SFadd 53 1024
            (SFdiv 53 1024 (float_of_int TP) (float_of_int (TP + FP)))
            (SFdiv 53 1024 (float_of_int TP) (float_of_int (TP + FN))))
         (S754_zero false) = true).
Proof.
  unfold computeMetrics_b64, int_truediv_b64, float_truediv_b64.
  destruct (Z.eqb_spec (TP + FP) 0) as [E1 | N1]; cbn [bind]; [tauto |].
  destruct (Z.eqb_spec (TP + FN) 0) as [E2 | N2]; cbn [bind]; [tauto |].
  destruct (SFeqb _ _) eqn:E3; cbn [bind].
  - tauto.
  - split; [discriminate |].
    intros [H | [H | (_ & _ & H)]]; [contradiction | contradiction | discriminate H].
Qed.

(** ** Counting matched rows *)

Section Counting.

Variable T : Type.

Lemma GetCount_nonneg (fc : list T) : 0 <= GetCount fc.
Proof. unfold GetCount. lia. Qed.

Lemma GetCount_filter_le (f : T -> bool) (fc : list T) :
  GetCount (filter f fc) <= GetCount fc.
Proof.
  unfold GetCount. apply inj_le. apply filter_length_le.
Qed.

(** The rows a selection keeps and the rows it drops make up the table. *)
Lemma GetCount_filter_split (f : T -> bool) (fc : list T) :
  GetCount fc - GetCount (filter f fc) = GetCount (filter (fun x => negb (f x)) fc).
Proof.
  unfold GetCount. pose proof (filter_length f fc) as H. lia.
Qed.

End Counting.

(** C6: for every joined feature set, [countMatched] returns as matched the
    number of rows whose Join_Count is not 0 and as total the number of rows,
    and matched <= total; so FN = All_polygons - TP and FP = All_points - TP_2
    are never negative. *)
Theorem C6_countMatched_le_total :
  (forall (T : Type) (joined : list (row T)),
      fst (countMatched joined) =
        Z.of_nat (List.length (filter (fun r => if Z.eq_dec (Join_Count r) 0
                                                then false else true) joined)) /\
      snd (countMatched joined) = Z.of_nat (List.length joined) /\
      0 <= fst (countMatched joined) <= snd (countMatched joined))
  /\
  (forall (P G : Type) (polygons_to_points : list (row P))
          (points_to_polygons : list (row G)),
      let c := count_rows polygons_to_points points_to_polygons in
      (TP c, All_polygons c) = countMatched polygons_to_points /\
      (TP_2 c, All_points c) = countMatched points_to_polygons /\
      FN c = All_polygons c - TP c /\ 0 <= FN c /\
      FP c = All_points c - TP_2 c /\ 0 <= FP c).
Proof.
  split.
  - intros T joined. unfold countMatched. cbn [fst snd].
    split; [| split; [reflexivity |]].
    + unfold GetCount, Select_Join_Count_ne_0. do 2 f_equal.
      apply filter_ext. intros r.
      destruct (Z.eq_dec (Join_Count r) 0) as [E | N].
      * rewrite E. reflexivity.
      * apply Z.eqb_neq in N. rewrite N. reflexivity.
    + split; [apply GetCount_nonneg | apply GetCount_filter_le].
  - intros P G p2p pt2p c. subst c. unfold count_rows, countMatched.
    cbn [TP All_polygons FN TP_2 All_points FP].
    pose proof (GetCount_filter_le (fun r : row P => negb (Join_Count r =? 0)) p2p).
    pose proof (GetCount_filter_le (fun r : row G => negb (Join_Count r =? 0)) pt2p).
    unfold Select_Join_Count_ne_0. repeat split; try reflexivity; lia.
Qed.

(** ** The two joins *)

Section Joins.

Variables T J : Type.
Variable intersects : T -> J -> bool.

Lemma SpatialJoin_length (A : list T) (B : list J) :
  List.length (SpatialJoin intersects A B) = List.length A.
Proof. unfold SpatialJoin. apply length_map. Qed.

Lemma SpatialJoin_features (A : list T) (B : list J) :
  map (@feature T) (SpatialJoin intersects A B) = A.
Proof.
  unfold SpatialJoin. rewrite map_map. cbn [feature]. apply map_id.
Qed.

Lemma SpatialJoin_Join_Count (A : list T) (B : list J) (r : row T) :
  In r (SpatialJoin intersects A B) ->
  Join_Count r = Z.of_nat (List.length (filter (intersects (feature r)) B)).
Proof.
  unfold SpatialJoin. rewrite in_map_iff. intros [t [<- _]]. reflexivity.
Qed.

(** A count of intersecting candidates is non-zero exactly when there is one. *)
Lemma matched_iff_existsb (t : T) (B : list J) :
  negb (Z.of_nat (List.length (filter (intersects t) B)) =? 0) =
  existsb (intersects t) B.
Proof.
  induction B as [| b B IH]; [reflexivity |].
  cbn [filter existsb]. destruct (intersects t b); cbn [orb].
  - cbn [List.length]. destruct (Z.eqb_spec (Z.of_nat (S (List.length (filter (intersects t) B)))) 0);
      [lia | reflexivity].
  - exact IH.
Qed.

(** The selected rows of a join are the rows of the matched target features. *)
Lemma matched_count (A : list T) (B : list J) :
  GetCount (Select_Join_Count_ne_0 (SpatialJoin intersects A B)) =
  GetCount (filter (fun t => existsb (intersects t) B) A).
Proof.
  unfold GetCount, Select_Join_Count_ne_0, SpatialJoin.
  rewrite filter_map_swap, length_map. cbn [Join_Count].
  do 2 f_equal. apply filter_ext. intros t. apply matched_iff_existsb.
Qed.

End Joins.

Lemma negb_existsb {A} (f : A -> bool) (l : list A) :
  negb (existsb f l) = forallb (fun a => negb (f a)) l.
Proof.
  induction l as [| a l IH]; [reflexivity |].
  cbn [existsb forallb]. rewrite negb_orb, IH. reflexivity.
Qed.

(** C7: FN is the number of detected polygons minus TP, where TP counts the
    polygons with at least one intersecting ground-truth point; FP is taken
    from the inverse join as All_points - TP_2 and is the number of
    ground-truth points that no detected polygon intersects. *)
Theorem C7_FN_FP_from_joins :
  forall (P G : Type) (intersects : P -> G -> bool)
         (dead_trees_final : list P) (Molly_points_clipped : list G),
    let c := count_rows
               (SpatialJoin intersects dead_trees_final Molly_points_clipped)
               (SpatialJoin (fun g p => intersects p g)
                            Molly_points_clipped dead_trees_final) in
    TP c = Z.of_nat (List.length
             (filter (fun p => existsb (intersects p) Molly_points_clipped)
                     dead_trees_final)) /\
    All_polygons c = Z.of_nat (List.length dead_trees_final) /\
    FN c = Z.of_nat (List.length dead_trees_final) - TP c /\
    TP_2 c = Z.of_nat (List.length
               (filter (fun g => existsb (fun p => intersects p g) dead_trees_final)
                       Molly_points_clipped)) /\
    All_points c = Z.of_nat (List.length Molly_points_clipped) /\
    FP c = All_points c - TP_2 c /\
    FP c = Z.of_nat (List.length
             (filter (fun g => forallb (fun p => negb (intersects p g)) dead_trees_final)
                     Molly_points_clipped)).
Proof.
  intros P G intersects polys pts c. subst c. unfold count_rows.
  cbn [TP All_polygons FN TP_2 All_points FP].
  rewrite !matched_count.
  assert (Hpoly : GetCount (SpatialJoin intersects polys pts) = Z.of_nat (List.length polys))
    by (unfold GetCount; rewrite SpatialJoin_length; reflexivity).
  assert (Hpts : GetCount (SpatialJoin (fun g p => intersects p g) pts polys)
                 = Z.of_nat (List.length pts))
    by (unfold GetCount; rewrite SpatialJoin_length; reflexivity).
  rewrite Hpoly, Hpts.
  repeat split; try reflexivity.
  change (Z.of_nat (List.length pts)) with (GetCount pts).
  rewrite GetCount_filter_split. unfold GetCount. do 2 f_equal.
  apply filter_ext. intros g. apply negb_existsb.
Qed.

(** C8: [SpatialJoin A B] has exactly one output row per target feature, in
    the order of [A], so its cardinality is that of [A]; the row of a target
    feature that intersects K candidate features has Join_Count = K, which is
    0 exactly when no candidate intersects it. *)
Theorem C8_SpatialJoin_one_row_per_target :
  forall (T J : Type) (intersects : T -> J -> bool) (A : list T) (B : list J),
    List.length (SpatialJoin intersects A B) = List.length A /\
    map (@feature T) (SpatialJoin intersects A B) = A /\
    (forall (i : nat) (t : T),
        nth_error A i = Some t ->
        nth_error (SpatialJoin intersects A B) i =
        Some {| feature := t;
                Join_Count := Z.of_nat (List.length (filter (intersects t) B)) |}) /\
    (forall r : row T,
        In r (SpatialJoin intersects A B) ->
        (Join_Count r = 0 <-> forall b, In b B -> intersects (feature r) b = false)).
Proof.
  intros T J intersects A B.
  split; [apply SpatialJoin_length |].
  split; [apply SpatialJoin_features |].
  split.
  - intros i t Hi. unfold SpatialJoin.
    apply (map_nth_error
             (fun t => {| feature := t;
                          Join_Count := Z.of_nat (List.length (filter (intersects t) B)) |})
             i A Hi).
  - intros r Hr. rewrite (@SpatialJoin_Join_Count _ _ intersects A B r Hr).
    pose proof (@matched_iff_existsb _ _ intersects (feature r) B) as Hm.
    pose proof (negb_existsb (intersects (feature r)) B) as Hn. split.
    + intros Hz. rewrite Hz in Hm. cbn in Hm. rewrite <- Hm in Hn. cbn in Hn.
      symmetry in Hn. rewrite forallb_forall in Hn. intros b Hb.
      apply negb_true_iff. apply Hn. exact Hb.
    + intros Hnone.
      assert (Hall : forallb (fun a => negb (intersects (feature r) a)) B = true).
      { apply forallb_forall. intros b Hb. rewrite (Hnone b Hb). reflexivity. }
      rewrite Hall in Hn. apply negb_true_iff in Hn. rewrite Hn in Hm.
      apply negb_false_iff in Hm. apply Z.eqb_eq in Hm. exact Hm.
Qed.

(** [C8_SpatialJoin_one_row_per_target] on the scenario: the row of
    polygon 1, which contains one point. *)
Lemma C8_SpatialJoin_one_row_per_target_witness :
  nth_error (SpatialJoin scenario_intersects scenario_polygons scenario_points) 1 =
  Some {| feature := 1%nat;
          Join_Count := Z.of_nat (List.length
                          (filter (scenario_intersects 1) scenario_points)) |}.
Proof.
  apply (proj1 (proj2 (proj2 (C8_SpatialJoin_one_row_per_target
                                scenario_intersects scenario_polygons
                                scenario_points)))
               1%nat 1%nat).
  reflexivity.
Defined.

End EvaluationFacts.

(* ================================================================== *)
(** * Part IV: properties of the detection pipeline                    *)
(* ================================================================== *)

Module PipelineFacts.

Import Pipeline.
Local Open Scope string_scope.
Local Open Scope py_scope.

(** Finds the member of a disjunction of equations that holds by
    computation. *)
Ltac find_disjunct :=
  solve [reflexivity | left; find_disjunct | right; find_disjunct].

(** ** Rules for triples *)

Section Rules.

Context {A B : Type}.
Variables (P : state -> Prop) (E : exn -> state -> Prop).

Lemma hoare_ret (a : A) (Q : A -> state -> Prop) :
  (forall st, P st -> Q a st) -> hoare P (ret a) Q E.
Proof. intros H st HP. cbn. apply H. exact HP. Qed.

Lemma hoare_bind (m : M A) (k : A -> M B)
    (R : A -> state -> Prop) (Q : B -> state -> Prop) :
  hoare P m R E ->
  (forall a, hoare (R a) (k a) Q E) ->
  hoare P (bind m k) Q E.
Proof.
  intros Hm Hk st HP. unfold bind. specialize (Hm st HP).
  destruct (m st) as [[a | e] st'].
  - apply Hk. exact Hm.
  - exact Hm.
Qed.

Lemma hoare_try_except (body : M A) (handler : exn -> M A)
    (Q : A -> state -> Prop) (E' : exn -> state -> Prop) :
  hoare P body Q E' ->
  (forall e, hoare (E' e) (handler e) Q E) ->
  hoare P (try_except body handler) Q E.
Proof.
  intros Hb Hh st HP. unfold try_except. specialize (Hb st HP).
  destruct (body st) as [[a | e] st'].
  - exact Hb.
  - apply Hh. exact Hb.
Qed.

End Rules.

(** ** The [finally] block *)

Lemma existsb_eqb_In (path : string) (l : list string) :
  existsb (String.eqb path) l = true <-> In path l.
Proof.
  rewrite existsb_exists. split.
  - intros [x [Hx E]]. apply String.eqb_eq in E. subst x. exact Hx.
  - intros H. exists path. split; [exact H | apply String.eqb_refl].
Qed.

Lemma In_removed (path q : string) (l : list string) :
  In q (filter (fun d => negb (d =? path)) l) <-> In q l /\ q <> path.
Proof.
  rewrite filter_In. split; intros [H1 H2]; split; try exact H1.
  - apply negb_true_iff in H2. apply String.eqb_neq in H2. exact H2.
  - apply negb_true_iff. apply String.eqb_neq. exact H2.
Qed.

Lemma swept_refl (l : list string) (st : state) :
  (forall path, In path l -> ~ In path (datasets st)) -> swept l st st.
Proof.
  intros Hl. unfold swept. repeat split; auto.
  exists []. rewrite app_nil_r. repeat split; auto.
  - intros path H1 H2. exfalso. exact (Hl path H1 H2).
  - intros path H1 H2. exfalso. exact (Hl path H1 H2).
  - intros path o [].
  - constructor.
Qed.

Lemma In_deleted_paths (path : string) (t : list event) :
  In path (deleted_paths t) <-> exists o, In (Delete path, o) t.
Proof.
  unfold deleted_paths. rewrite in_flat_map. split.
  - intros [[c o] [Hin Hc]]. cbn [fst] in Hc.
    destruct c; try contradiction. destruct Hc as [<- | []].
    exists o. exact Hin.
  - intros [o Hin]. exists (Delete path, o). split; [exact Hin |].
    left. reflexivity.
Qed.

Lemma swept_trans (a : string) (l : list string) (st st1 st2 : state) :
  ~ In a l -> swept [a] st st1 -> swept l st1 st2 -> swept (a :: l) st st2.
Proof.
  intros Hal
         (Hi1 & Hm1 & (post1 & Ht1 & Hc1 & Ha1 & Hf1 & Hd1 & Hn1) & Hsub1 & Hfr1)
         (Hi2 & Hm2 & (post2 & Ht2 & Hc2 & Ha2 & Hf2 & Hd2 & Hn2) & Hsub2 & Hfr2).
  unfold swept. split; [congruence |]. split; [congruence |]. split; [| split].
  - exists (post1 ++ post2)%list. split; [rewrite Ht2, Ht1, app_assoc; reflexivity |].
    split; [apply Forall_app; split; assumption |]. split; [| split; [| split]].
    + intros path Hin Hex. destruct (string_dec path a) as [-> | Hne].
      * destruct (Ha1 a (or_introl eq_refl) Hex) as [o Ho].
        exists o. apply in_or_app. left. exact Ho.
      * destruct Hin as [Heq | Hin]; [congruence |].
        assert (Hex1 : In path (datasets st1)).
        { apply Hfr1; [| exact Hex]. intros [H | []]. congruence. }
        destruct (Ha2 path Hin Hex1) as [o Ho].
        exists o. apply in_or_app. right. exact Ho.
    + intros path Hin Hex. destruct Hin as [<- | Hin].
      * destruct (Hf1 a (or_introl eq_refl) (Hsub2 a Hex)) as [e He].
        exists e. apply in_or_app. left. exact He.
      * destruct (Hf2 path Hin Hex) as [e He].
        exists e. apply in_or_app. right. exact He.
    + intros path o Hin. apply in_app_or in Hin. destruct Hin as [Hin | Hin].
      * destruct (Hd1 path o Hin) as [<- | []]. left. reflexivity.
      * right. exact (Hd2 path o Hin).
    + unfold deleted_paths. rewrite flat_map_app.
      apply NoDup_app; [exact Hn1 | exact Hn2 |].
      intros path H1 H2.
      apply In_deleted_paths in H1. destruct H1 as [o1 H1].
      apply In_deleted_paths in H2. destruct H2 as [o2 H2].
      destruct (Hd1 path o1 H1) as [<- | []].
      apply Hal. exact (Hd2 a o2 H2).
  - intros q Hq. apply Hsub1, Hsub2. exact Hq.
  - intros q Hq Hex. apply Hfr2.
    + intros H. apply Hq. right. exact H.
    + apply Hfr1; [| exact Hex]. intros [H | []]. apply Hq. left. exact H.
Qed.

Section Cleanup.

Variable w : world.

(** One turn of the loop of lines 341-346 never raises. *)
Lemma delete_intermediate_swept (path : string) (st : state) :
  exists st', delete_intermediate w path st = (Ok tt, st') /\ swept [path] st st'.
Proof.
  unfold delete_intermediate, try_except, bind, Exists.
  destruct (existsb (String.eqb path) (datasets st)) eqn:Hex.
  - unfold arcpy.
    destruct (fails w (List.length (trace st)) (Delete path)) as [e |] eqn:Hf.
    + (* the deletion raises: caught *)
      eexists. split; [reflexivity |]. unfold swept, ret. cbn.
      repeat split; auto.
      exists [(Delete path, Some e)]. repeat split.
      * constructor; [exact I | constructor].
      * intros q [<- | []] _. exists (Some e). left. reflexivity.
      * intros q [<- | []] _. exists e. left. reflexivity.
      * intros q o [Hq | []]. injection Hq as <- _. left. reflexivity.
      * cbn. constructor; [intros [] | constructor].
    + (* the deletion succeeds *)
      eexists. split; [reflexivity |]. unfold swept, removed. cbn.
      repeat split; auto.
      * exists [(Delete path, None)]. repeat split.
        -- constructor; [exact I | constructor].
        -- intros q [<- | []] _. exists None. left. reflexivity.
        -- intros q [<- | []] Hq. apply In_removed in Hq. destruct Hq as [_ Hq].
           congruence.
        -- intros q o [Hq | []]. injection Hq as <- _. left. reflexivity.
        -- cbn. constructor; [intros [] | constructor].
      * intros q Hq. apply In_removed in Hq. tauto.
      * intros q Hq Hin. apply In_removed. split; [exact Hin |].
        intros ->. apply Hq. left. reflexivity.
  - eexists. split; [reflexivity |]. apply swept_refl.
    intros q [<- | []] Hin. apply existsb_eqb_In in Hin. congruence.
Qed.

Lemma for_each_delete_swept (l : list string) (st : state) :
  NoDup l ->
  exists st', for_each l (delete_intermediate w) st = (Ok tt, st') /\ swept l st st'.
Proof.
  intros Hl. revert st. induction Hl as [| a l Hal Hl IH]; intros st.
  - exists st. split; [reflexivity |]. apply swept_refl. intros path [].
  - cbn [for_each]. unfold bind.
    destruct (delete_intermediate_swept a st) as (st1 & E1 & S1). rewrite E1.
    destruct (IH st1) as (st2 & E2 & S2). rewrite E2.
    exists st2. split; [reflexivity |]. exact (swept_trans Hal S1 S2).
Qed.

(** The [finally] block never raises; it sweeps the recorded intermediates
    and ends with the attempt to check the extension in. *)
Lemma cleanup_swept (st : state) :
  exists st', cleanup w st = (Ok tt, st') /\
              swept (intermediates st) st st' /\
              exists pre o, trace st' = (pre ++ [(CheckInExtension "Spatial", o)])%list.
Proof.
  unfold cleanup, bind.
  destruct (for_each_delete_swept (l := set (intermediates st)) st
              (NoDup_nodup string_dec (intermediates st)))
    as (st1 & E1 & (Hi & Hm & (post & Ht & Hc & Ha & Hf & Hd & Hn) & Hsub & Hfr)).
  rewrite E1. unfold try_except, arcpy.
  assert (Hset : forall q, In q (set (intermediates st)) <-> In q (intermediates st))
    by (intros q; apply nodup_In).
  destruct (fails w (List.length (trace st1)) (CheckInExtension "Spatial")) as [e |];
    (eexists; split; [reflexivity |]; split;
     [| eexists; eexists; cbn [trace]; reflexivity]);
    unfold swept; cbn [datasets intermediates messages trace ret fst snd];
    (split; [exact Hi |]; split; [exact Hm |]; split; [| split]).
  1, 4: (eexists (post ++ [_])%list; split; [rewrite Ht, app_assoc; reflexivity |];
         split; [apply Forall_app; split; [exact Hc | constructor; [exact I | constructor]] |];
         split; [| split; [| split]];
         [intros path Hin Hex; apply Hset in Hin;
          destruct (Ha path Hin Hex) as [o Ho]; exists o;
          apply in_or_app; left; exact Ho
         |intros path Hin Hex; apply Hset in Hin;
          destruct (Hf path Hin Hex) as [o Ho]; exists o;
          apply in_or_app; left; exact Ho
         |intros path o Hin; apply in_app_or in Hin;
          destruct Hin as [Hin | [Hin | []]];
          [apply Hset; exact (Hd path o Hin) | discriminate Hin]
         |unfold deleted_paths; rewrite flat_map_app; cbn;
          rewrite app_nil_r; exact Hn]).
  1, 3: exact Hsub.
  1, 2: (intros q Hq; apply Hfr; intros H; apply Hq; apply Hset; exact H).
Qed.

End Cleanup.

(** ** The checks before the [try] *)

(** The checks and the check-out touch neither the datasets, nor the list of
    intermediates, nor the messages, and make at most the check-out call. *)
Lemma validate_frame (w : world) (p : parameters) (st : state) :
  let st' := snd (validate w p st) in
  datasets st' = datasets st /\
  intermediates st' = intermediates st /\
  messages st' = messages st /\
  (trace st' = trace st \/
   exists o, trace st' = (trace st ++ [(CheckOutExtension "Spatial", o)])%list
             /\ (o = None <-> fst (validate w p st) = Ok tt)).
Proof.
  unfold validate, bind, Exists, raise, ret, arcpy.
  repeat match goal with
         | |- context [if ?b then _ else _] => destruct b; cbn
         | |- context [match mask_layer p with _ => _ end] =>
             destruct (mask_layer p); cbn
         | |- context [match fails ?a ?b ?c with _ => _ end] =>
             destruct (fails a b c) eqn:?; cbn
         end;
    repeat split; auto;
    right; eexists; (split; [reflexivity |]); split; congruence.
Qed.

(** ** Cleanup *)

(** C5 as stated fails: when the deletions fail, which the [finally] block
    lets pass, the intermediates stay in the workspace after a successful
    run. *)
Lemma C5_intermediates_remain_when_delete_fails :
  ~ (forall (w : world) (p : parameters) (existing : list string) (path : string),
        In path (artifact_paths w p) ->
        ~ In path (datasets (snd (run w p existing)))).
Proof.
  intros H.
  apply (H locked tile tile_existing "C:\work\classified.tif").
  - vm_compute. tauto.
  - vm_compute. tauto.
Qed.

(** The last intermediate, trees_buffer_processed, is never appended to
    [intermediates] (lines 319-323): it outlives a run in which every call,
    the deletions included, succeeds. *)
Lemma trees_buffer_processed_left_behind :
  fst (run calm tile tile_existing) = Ok tt /\
  In "C:\work\trees_buffer_processed.shp" (artifact_paths calm tile) /\
  In "C:\work\trees_buffer_processed.shp"
     (datasets (snd (run calm tile tile_existing))) /\
  ~ In "C:\work\trees_buffer_processed.shp"
       (intermediates (snd (run calm tile tile_existing))).
Proof.
  split; [reflexivity |]. split; [vm_compute; tauto |].
  split; [vm_compute; tauto |].
  vm_compute. intros H.
  repeat (destruct H as [H | H]; [discriminate H |]). exact H.
Qed.

(** ** Invariants of the body of the [try] *)

Lemma hoare_pure_pre {A} (phi : Prop) (I : state -> Prop) (m : M A)
    (Q : A -> state -> Prop) (E : exn -> state -> Prop) :
  (phi -> hoare I m Q E) -> hoare (fun st => phi /\ I st) m Q E.
Proof. intros H st [Hphi HI]. exact (H Hphi st HI). Qed.

(** An invariant [I] of the body, with [E] holding where the body raises:
    what [I] and [E] have to satisfy, and that the body then keeps [I]. *)
Section Invariant.

Variables (w : world) (p : parameters).
Variables (I : state -> Prop) (E : exn -> state -> Prop).

Hypothesis I_messages : forall st ms,
  I st -> I (mkState (datasets st) (intermediates st) ms (trace st)).
Hypothesis I_created : forall st path,
  I st -> I (mkState (path :: datasets st) (intermediates st) (messages st) (trace st)).
Hypothesis I_extend : forall st paths,
  incl paths (recorded_paths w p) ->
  I st -> I (mkState (datasets st) (intermediates st ++ paths) (messages st) (trace st)).
Hypothesis I_call : forall st c,
  stage_call p c -> I st ->
  match fails w (List.length (trace st)) c with
  | None => I (logged st c None)
  | Some e => E e (logged st c (Some e))
  end.
Hypothesis I_band : forall st e,
  I st -> fails w (List.length (trace st)) (Raster (band_path p)) = Some e ->
  I (logged st (Raster (band_path p)) (Some e)).

Lemma inv_ret {A} (a : A) : hoare I (ret a) (fun _ => I) E.
Proof. apply hoare_ret. auto. Qed.

Lemma inv_addMessage (s : string) : hoare I (addMessage s) (fun _ => I) E.
Proof. intros st H. cbn. apply I_messages. exact H. Qed.

Lemma inv_addWarningMessage (s : string) :
  hoare I (addWarningMessage s) (fun _ => I) E.
Proof. intros st H. cbn. apply I_messages. exact H. Qed.

Lemma inv_created (path : string) : hoare I (created path) (fun _ => I) E.
Proof. intros st H. cbn. apply I_created. exact H. Qed.

Lemma inv_extend (paths : list string) :
  incl paths (recorded_paths w p) -> hoare I (extend paths) (fun _ => I) E.
Proof. intros Hp st H. cbn. apply I_extend; assumption. Qed.

Lemma inv_append (path : string) :
  In path (recorded_paths w p) -> hoare I (append path) (fun _ => I) E.
Proof.
  intros Hp st H. cbn. apply I_extend; [| exact H].
  intros x [<- | []]. exact Hp.
Qed.

Lemma inv_arcpy (c : call) :
  stage_call p c -> hoare I (arcpy w c) (fun _ => I) E.
Proof.
  intros Hc st H. unfold arcpy. pose proof (@I_call st c Hc H) as Hcall.
  unfold logged in Hcall.
  destruct (fails w (List.length (trace st)) c); exact Hcall.
Qed.

Lemma inv_run_save (c : call) (path : string) :
  stage_call p c -> hoare I (run_save w c path) (fun _ => I) E.
Proof.
  intros Hc. unfold run_save.
  eapply hoare_bind; [apply inv_arcpy; exact Hc | intros _u].
  eapply hoare_bind; [apply inv_arcpy; exact Logic.I | intros _v].
  apply inv_created.
Qed.

Lemma inv_run_out (c : call) (out : string) :
  stage_call p c -> hoare I (run_out w c out) (fun _ => I) E.
Proof.
  intros Hc. unfold run_out.
  eapply hoare_bind; [apply inv_arcpy; exact Hc | intros _u].
  apply inv_created.
Qed.

(** [_tmp] keeps [I] and returns [tmp_path]. *)
Lemma inv_tmp (name : string) :
  hoare I (_tmp w (workspace p) name)
        (fun r st => r = tmp_path w (workspace p) name /\ I st) E.
Proof.
  unfold _tmp, tmp_path.
  eapply hoare_bind; [apply inv_arcpy; exact Logic.I | intros _u].
  destruct (workspaceType w (workspace p) =? "FileSystem");
    [destruct (endswith (lower name) ".shp") |];
    apply hoare_ret; auto.
Qed.

Lemma inv_tmp_shp (name : string) :
  hoare I (_tmp_shp w (workspace p) name)
        (fun r st => r = tmp_shp_path w (workspace p) name /\ I st) E.
Proof.
  unfold _tmp_shp, tmp_shp_path.
  eapply hoare_bind; [apply inv_tmp | intros r].
  apply hoare_pure_pre. intros ->. apply hoare_ret. auto.
Qed.

Lemma inv_ensure_Shape_Area (dataset : string) :
  hoare I (ensure_Shape_Area w dataset) (fun _ => I) E.
Proof.
  unfold ensure_Shape_Area.
  eapply hoare_bind; [apply inv_arcpy; exact Logic.I | intros _u].
  eapply hoare_bind; [| intros _v; apply inv_arcpy; exact Logic.I].
  destruct (existsb (String.eqb "Shape_Area") (field_names w dataset)).
  - apply inv_ret.
  - apply inv_arcpy. exact Logic.I.
Qed.

Lemma inv_step_1 : hoare I (step_1 w p) (fun _ => I) E.
Proof.
  unfold step_1.
  eapply hoare_bind; [apply inv_addMessage | intros _u].
  destruct (mask_given p) eqn:Hmask.
  - eapply hoare_bind; [apply inv_addMessage | intros _v].
    eapply hoare_bind; [apply inv_tmp | intros r].
    apply hoare_pure_pre. intros ->.
    eapply hoare_bind; [apply inv_run_save; exact Logic.I | intros _x].
    eapply hoare_bind; [| intros _y; apply inv_ret].
    apply inv_append. unfold recorded_paths. rewrite Hmask.
    left. reflexivity.
  - eapply hoare_bind; [apply inv_addWarningMessage | intros _v].
    apply inv_ret.
Qed.

Lemma inv_open_blue_band : hoare I (open_blue_band w p) (fun _ => I) E.
Proof.
  unfold open_blue_band.
  apply hoare_try_except with (E' := fun _ => I).
  - eapply hoare_bind with (R := fun _ => I); [| intros _u; apply hoare_ret; auto].
    intros st H. unfold arcpy.
    pose proof (@I_call st (Raster (band_path p)) Logic.I H) as Hok.
    pose proof (@I_band st) as Hband. unfold logged in Hok, Hband.
    destruct (fails w (List.length (trace st)) (Raster (band_path p))) as [e |].
    + apply (Hband e H). reflexivity.
    + exact Hok.
  - intros _e.
    eapply hoare_bind; [apply inv_arcpy; exact Logic.I | intros _u].
    eapply hoare_bind; [apply inv_addWarningMessage | intros _v].
    apply inv_ret.
Qed.

Ltac in_recorded :=
  unfold recorded_paths; rewrite !in_app_iff; cbn [map In]; find_disjunct.

Ltac body_step :=
  cbv beta;
  lazymatch goal with
  | |- hoare (fun st => _ /\ _) _ _ _ =>
      apply hoare_pure_pre; intros ->
  | |- hoare _ (bind (addMessage _) _) _ _ =>
      eapply hoare_bind; [apply inv_addMessage | intros ?]
  | |- hoare _ (bind (_tmp _ _ _) _) _ _ =>
      eapply hoare_bind; [apply inv_tmp | intros ?]
  | |- hoare _ (bind (_tmp_shp _ _ _) _) _ _ =>
      eapply hoare_bind; [apply inv_tmp_shp | intros ?]
  | |- hoare _ (bind (run_save _ _ _) _) _ _ =>
      eapply hoare_bind; [apply inv_run_save; cbn; auto | intros ?]
  | |- hoare _ (bind (run_out _ _ _) _) _ _ =>
      eapply hoare_bind; [apply inv_run_out; cbn; auto | intros ?]
  | |- hoare _ (bind (ensure_Shape_Area _ _) _) _ _ =>
      eapply hoare_bind; [apply inv_ensure_Shape_Area | intros ?]
  | |- hoare _ (bind (append _) _) _ _ =>
      eapply hoare_bind; [apply inv_append; in_recorded | intros ?]
  | |- hoare _ (bind (extend _) _) _ _ =>
      eapply hoare_bind;
      [apply inv_extend; intros ? [<- | [<- | []]]; in_recorded | intros ?]
  | |- hoare _ (bind (step_1 _ _) _) _ _ =>
      eapply hoare_bind; [apply inv_step_1 | intros ?]
  | |- hoare _ (bind (open_blue_band _ _) _) _ _ =>
      eapply hoare_bind; [apply inv_open_blue_band | intros ?]
  end.

(** The body of the [try] keeps [I] when it returns and ends in [E] when it
    raises. *)
Lemma inv_body : hoare I (body w p) (fun _ => I) E.
Proof.
  unfold body. repeat body_step. apply inv_addMessage.
Qed.

End Invariant.

(** ** A failing call ends the run *)

Section Abort.

Variables (w : world) (p : parameters).

Lemma Clean_logged_ok (st : state) (c : call) :
  Clean p st -> Clean p (logged st c None).
Proof.
  unfold Clean, logged. cbn [trace]. intros H.
  apply Forall_app. split; [exact H |].
  constructor; [left; reflexivity | constructor].
Qed.

Lemma Aborted_logged (st : state) (c : call) (e : exn) :
  Clean p st -> Aborted p e (logged st c (Some e)).
Proof.
  intros H. exists (trace st), c. split; [reflexivity | exact H].
Qed.

(** The body either returns with no call having ended the run, or raises
    the exception of its last call. *)
Lemma body_clean : hoare (Clean p) (body w p) (fun _ => Clean p) (Aborted p).
Proof.
  apply inv_body.
  - intros st ms H. exact H.
  - intros st path H. exact H.
  - intros st paths _ H. exact H.
  - intros st c _ H.
    destruct (fails w (List.length (trace st)) c) as [e |].
    + apply Aborted_logged. exact H.
    + apply Clean_logged_ok. exact H.
  - intros st e H _. unfold Clean, logged. cbn [trace].
    apply Forall_app. split; [exact H |].
    constructor; [right; reflexivity | constructor].
Qed.

(** With the two [except] clauses: the exception is written to the messages
    and raised again. *)
Lemma try_body_clean :
  hoare (Clean p) (try_except (body w p) handler)
        (fun _ => Clean p)
        (fun e st => Aborted p e st /\
                     exists ms, messages st = (ms ++ [ErrorMessage (error_report e)])%list).
Proof.
  eapply hoare_try_except; [apply body_clean |].
  intros e st H. unfold handler, bind, addErrorMessage, raise. cbn.
  split.
  - exact H.
  - exists (messages st). reflexivity.
Qed.

(** How the checks before the [try] end: with the check-out made, with the
    check-out raising, or with an [ExecuteError] before any call. *)
Lemma validate_cases (st : state) :
  validate w p st = (Ok tt, logged st (CheckOutExtension "Spatial") None) \/
  (exists e, validate w p st =
             (Raise e, logged st (CheckOutExtension "Spatial") (Some e))) \/
  (exists msg, validate w p st = (Raise (ExecuteError msg), st)).
Proof.
  unfold validate, bind, Exists, raise, ret, arcpy, logged.
  repeat match goal with
         | |- context [if ?b then _ else _] => destruct b; cbn
         | |- context [match mask_layer p with _ => _ end] =>
             destruct (mask_layer p); cbn
         | |- context [match fails ?a ?b ?c with _ => _ end] =>
             destruct (fails a b c) eqn:?; cbn
         end;
    first [ left; reflexivity
          | right; left; eexists; reflexivity
          | right; right; eexists; reflexivity ].
Qed.

(** A check that fails ends the run with an [ExecuteError] before any call
    is made. *)
Lemma validate_fails (st : state) :
  existsb (String.eqb (input_raster p)) (datasets st) = false \/
  (exists m, mask_layer p = Some m /\ truthy m = true /\
             existsb (String.eqb m) (datasets st) = false) \/
  existsb (String.eqb (workspace p)) (datasets st) = false \/
  CheckExtension w "Spatial" <> "Available" ->
  exists msg, validate w p st = (Raise (ExecuteError msg), st).
Proof.
  intros H. unfold validate, bind, Exists, raise, ret.
  destruct (existsb (String.eqb (input_raster p)) (datasets st)) eqn:E1; cbn;
    [| eexists; reflexivity].
  destruct H as [H | H]; [discriminate H |].
  destruct (mask_layer p) as [m |] eqn:Em; cbn.
  - destruct (truthy m) eqn:Et; cbn.
    + destruct (existsb (String.eqb m) (datasets st)) eqn:E2; cbn;
        [| eexists; reflexivity].
      destruct H as [(m' & Hm & _ & Hex) | H]; [congruence |].
      destruct (existsb (String.eqb (workspace p)) (datasets st)) eqn:E3; cbn;
        [| eexists; reflexivity].
      destruct H as [H | H]; [discriminate H |].
      destruct (String.eqb_spec (CheckExtension w "Spatial") "Available") as [E4 | N4];
        cbn; [contradiction | eexists; reflexivity].
    + destruct H as [(m' & Hm & Ht & _) | H]; [congruence |].
      destruct (existsb (String.eqb (workspace p)) (datasets st)) eqn:E3; cbn;
        [| eexists; reflexivity].
      destruct H as [H | H]; [discriminate H |].
      destruct (String.eqb_spec (CheckExtension w "Spatial") "Available") as [E4 | N4];
        cbn; [contradiction | eexists; reflexivity].
  - destruct H as [(m' & Hm & _) | H]; [discriminate Hm |].
    destruct (existsb (String.eqb (workspace p)) (datasets st)) eqn:E3; cbn;
      [| eexists; reflexivity].
    destruct H as [H | H]; [discriminate H |].
    destruct (String.eqb_spec (CheckExtension w "Spatial") "Available") as [E4 | N4];
      cbn; [contradiction | eexists; reflexivity].
Qed.

(** The shape of the trace of a run: calls that did not end the run, then
    possibly the call whose exception ended it, then the cleanup. *)
Lemma run_shape (existing : list string) :
  exists pre post,
    Forall (quiet p) pre /\ Forall cleanup_event post /\
    ((fst (run w p existing) = Ok tt /\
      trace (snd (run w p existing)) = (pre ++ post)%list) \/
     (exists c e,
         fst (run w p existing) = Raise e /\
         trace (snd (run w p existing)) = (pre ++ (c, Some e) :: post)%list /\
         (c = CheckOutExtension "Spatial" \/
          exists ms, messages (snd (run w p existing)) =
                     (ms ++ [ErrorMessage (error_report e)])%list)) \/
     (exists msg,
         fst (run w p existing) = Raise (ExecuteError msg) /\
         snd (run w p existing) = init_state existing)).
Proof.
  unfold run, execute, bind.
  destruct (validate_cases (init_state existing)) as [Ev | [[e Ev] | [msg Ev]]];
    rewrite Ev.
  - unfold try_finally.
    pose proof (@try_body_clean
                  (logged (init_state existing) (CheckOutExtension "Spatial") None))
      as Hb.
    assert (Hc : Clean p (logged (init_state existing)
                                 (CheckOutExtension "Spatial") None)).
    { unfold Clean. cbn. constructor; [left; reflexivity | constructor]. }
    specialize (Hb Hc).
    destruct (try_except (body w p) handler
                (logged (init_state existing) (CheckOutExtension "Spatial") None))
      as [[[] | e] st1].
    + destruct (cleanup_swept w st1)
        as (st2 & E & (_ & _ & (post & Ht & Hpost & _ & _ & _ & _) & _ & _) & _).
      rewrite E. cbn [fst snd].
      exists (trace st1), post. split; [exact Hb |]. split; [exact Hpost |].
      left. split; [reflexivity | exact Ht].
    + destruct Hb as [(pre & c & Htr & Hpre) [ms Hms]].
      destruct (cleanup_swept w st1)
        as (st2 & E & (_ & Hm & (post & Ht & Hpost & _ & _ & _ & _) & _ & _) & _).
      rewrite E. cbn [fst snd].
      exists pre, post. split; [exact Hpre |]. split; [exact Hpost |].
      right. left. exists c, e. split; [reflexivity |]. split.
      * rewrite Ht, Htr, <- app_assoc. reflexivity.
      * right. exists ms. rewrite Hm. exact Hms.
  - cbn [fst snd]. exists [], []. split; [constructor |]. split; [constructor |].
    right. left. exists (CheckOutExtension "Spatial"), e.
    split; [reflexivity |]. split; [reflexivity | left; reflexivity].
  - cbn [fst snd]. exists [], []. split; [constructor |]. split; [constructor |].
    right. right. exists msg. split; reflexivity.
Qed.

End Abort.

(** ** Created intermediates are recorded *)

Section Recorded.

Variables (w : world) (p : parameters).

Lemma tracked_creates (c : call) (a : string) :
  In (c, a) (tracked_creations w p) -> creates c = Some a.
Proof.
  unfold tracked_creations. rewrite in_app_iff. cbn [map In].
  intros [H | H];
    repeat (destruct H as [H | H]; [injection H as <- <-; reflexivity |]);
    contradiction.
Qed.

Lemma rec_weaken (done : list string) (st : state) :
  tracked_recorded w p done st -> tracked_recorded w p [] st.
Proof. intros [H _]. split; [exact H | intros x []]. Qed.

(** A call that raises, or whose tracked intermediates are recorded
    already. *)
Lemma rec_logged (done : list string) (st : state) (c : call) (o : option exn) :
  (o = None -> forall a, In (c, a) (tracked_creations w p) -> In a done) ->
  tracked_recorded w p done st -> tracked_recorded w p done (logged st c o).
Proof.
  intros Hc [H Hdone]. split; [| exact Hdone].
  intros c' a Ha Hin. unfold logged in Hin. cbn [trace intermediates] in *.
  apply in_app_or in Hin. destruct Hin as [Hin | [Hin | []]].
  - exact (H c' a Ha Hin).
  - injection Hin as -> ->. apply Hdone. exact (Hc eq_refl a Ha).
Qed.

(** A call that returns, followed by the recording of [l]. *)
Lemma rec_logged_recorded (done : list string) (st : state) (c : call)
    (l : list string) :
  (forall a, In (c, a) (tracked_creations w p) -> In a (done ++ l)) ->
  tracked_recorded w p done st ->
  tracked_recorded w p (done ++ l) (recorded l (logged st c None)).
Proof.
  intros Hc [H Hdone]. unfold recorded, logged. cbn [trace intermediates].
  assert (Hall : incl (done ++ l) (intermediates st ++ l)).
  { apply incl_app; [apply incl_appl; exact Hdone | apply incl_appr; apply incl_refl]. }
  split; [| exact Hall].
  intros c' a Ha Hin. apply in_app_or in Hin. destruct Hin as [Hin | [Hin | []]].
  - apply in_or_app. left. exact (H c' a Ha Hin).
  - injection Hin as ->. apply Hall. exact (Hc a Ha).
Qed.

Lemma rec_arcpy (done : list string) (c : call) :
  (forall a, In (c, a) (tracked_creations w p) -> In a done) ->
  hoare (tracked_recorded w p done) (arcpy w c)
        (fun _ => tracked_recorded w p done) (fun _ => tracked_recorded w p []).
Proof.
  intros Hc st H. unfold arcpy.
  destruct (fails w (List.length (trace st)) c) as [e |].
  - apply rec_weaken with (done := done).
    apply rec_logged; [discriminate | exact H].
  - apply rec_logged; [intros _; exact Hc | exact H].
Qed.

Lemma rec_make (done : list string) (c : call) (l : list string) :
  (forall a, In (c, a) (tracked_creations w p) -> In a (done ++ l)) ->
  hoare (tracked_recorded w p done) (arcpy w c)
        (fun _ st => tracked_recorded w p (done ++ l) (recorded l st))
        (fun _ => tracked_recorded w p []).
Proof.
  intros Hc st H. unfold arcpy.
  destruct (fails w (List.length (trace st)) c) as [e |].
  - apply rec_weaken with (done := done).
    apply rec_logged; [discriminate | exact H].
  - exact (@rec_logged_recorded done st c l Hc H).
Qed.

Lemma rec_run_save (done : list string) (tool : call) (a : string) :
  (forall x, In (tool, x) (tracked_creations w p) -> In x done) ->
  hoare (tracked_recorded w p done) (run_save w tool a)
        (fun _ st => tracked_recorded w p (done ++ [a]) (recorded [a] st))
        (fun _ => tracked_recorded w p []).
Proof.
  intros Hc. unfold run_save.
  eapply hoare_bind; [apply rec_arcpy; exact Hc | intros _u].
  eapply hoare_bind; [apply (@rec_make done (save a) [a]) | intros _v].
  - intros x Hx. apply tracked_creates in Hx. injection Hx as <-.
    apply in_or_app. right. left. reflexivity.
  - intros st H. exact H.
Qed.

Lemma rec_run_out_make (done : list string) (c : call) (out : string)
    (l : list string) :
  (forall a, In (c, a) (tracked_creations w p) -> In a (done ++ l)) ->
  hoare (tracked_recorded w p done) (run_out w c out)
        (fun _ st => tracked_recorded w p (done ++ l) (recorded l st))
        (fun _ => tracked_recorded w p []).
Proof.
  intros Hc. unfold run_out.
  eapply hoare_bind; [apply (@rec_make done c l Hc) | intros _u].
  intros st H. exact H.
Qed.

Lemma rec_run_out (done : list string) (c : call) (out : string) :
  (forall a, In (c, a) (tracked_creations w p) -> In a done) ->
  hoare (tracked_recorded w p done) (run_out w c out)
        (fun _ => tracked_recorded w p done) (fun _ => tracked_recorded w p []).
Proof.
  intros Hc. unfold run_out.
  eapply hoare_bind; [apply rec_arcpy; exact Hc | intros _u].
  intros st H. exact H.
Qed.

Lemma rec_extend (done l : list string) :
  hoare (fun st => tracked_recorded w p done (recorded l st)) (extend l)
        (fun _ => tracked_recorded w p done) (fun _ => tracked_recorded w p []).
Proof. intros st H. exact H. Qed.

Lemma rec_append (done : list string) (a : string) :
  hoare (fun st => tracked_recorded w p done (recorded [a] st)) (append a)
        (fun _ => tracked_recorded w p done) (fun _ => tracked_recorded w p []).
Proof. intros st H. exact H. Qed.

Lemma rec_append_more (done : list string) (a : string) :
  hoare (tracked_recorded w p done) (append a)
        (fun _ => tracked_recorded w p done) (fun _ => tracked_recorded w p []).
Proof.
  intros st [H Hdone]. cbn. split.
  - intros c x Hx Hin. cbn [trace intermediates] in *.
    apply in_or_app. left. exact (H c x Hx Hin).
  - cbn [intermediates]. apply incl_appl. exact Hdone.
Qed.

Lemma rec_addMessage (done : list string) (s : string) :
  hoare (tracked_recorded w p done) (addMessage s)
        (fun _ => tracked_recorded w p done) (fun _ => tracked_recorded w p []).
Proof. intros st H. exact H. Qed.

Lemma rec_addWarningMessage (done : list string) (s : string) :
  hoare (tracked_recorded w p done) (addWarningMessage s)
        (fun _ => tracked_recorded w p done) (fun _ => tracked_recorded w p []).
Proof. intros st H. exact H. Qed.

(** Solves [forall a, In (c, a) (tracked_creations w p) -> In a l] for a
    call [c] of the body: the tracked creations with another call are
    none of its, and for the others [a] is found in [l]. *)
Ltac tracked_side :=
  let a := fresh "a" in
  let Ha := fresh "Ha" in
  intros a Ha; unfold tracked_creations in Ha;
  rewrite in_app_iff in Ha; cbn [map In] in Ha;
  repeat rewrite in_app_iff; cbn [In];
  repeat match goal with
         | H : _ \/ _ |- _ => destruct H as [H | H]
         | H : False |- _ => contradiction H
         | H : (_, _) = (_, _) |- _ =>
             first [ discriminate H
                   | injection H; intros; subst; find_disjunct ]
         end.

Lemma rec_tmp (done : list string) (name : string) :
  hoare (tracked_recorded w p done) (_tmp w (workspace p) name)
        (fun r st => r = tmp_path w (workspace p) name /\
                     tracked_recorded w p done st)
        (fun _ => tracked_recorded w p []).
Proof.
  unfold _tmp, tmp_path.
  eapply hoare_bind; [apply rec_arcpy; tracked_side | intros _u].
  destruct (workspaceType w (workspace p) =? "FileSystem");
    [destruct (endswith (lower name) ".shp") |];
    apply hoare_ret; auto.
Qed.

Lemma rec_tmp_shp (done : list string) (name : string) :
  hoare (tracked_recorded w p done) (_tmp_shp w (workspace p) name)
        (fun r st => r = tmp_shp_path w (workspace p) name /\
                     tracked_recorded w p done st)
        (fun _ => tracked_recorded w p []).
Proof.
  unfold _tmp_shp, tmp_shp_path.
  eapply hoare_bind; [apply rec_tmp | intros r].
  apply hoare_pure_pre. intros ->. apply hoare_ret. auto.
Qed.

Lemma rec_ensure_Shape_Area (done : list string) (dataset : string) :
  hoare (tracked_recorded w p done) (ensure_Shape_Area w dataset)
        (fun _ => tracked_recorded w p done) (fun _ => tracked_recorded w p []).
Proof.
  unfold ensure_Shape_Area.
  eapply hoare_bind; [apply rec_arcpy; tracked_side | intros _u].
  eapply hoare_bind; [| intros _v; apply rec_arcpy; tracked_side].
  destruct (existsb (String.eqb "Shape_Area") (field_names w dataset)).
  - apply hoare_ret. auto.
  - apply rec_arcpy. tracked_side.
Qed.

Lemma rec_step_1 :
  hoare (tracked_recorded w p []) (step_1 w p)
        (fun _ => tracked_recorded w p []) (fun _ => tracked_recorded w p []).
Proof.
  unfold step_1.
  eapply hoare_bind; [apply rec_addMessage | intros _u].
  destruct (mask_given p).
  - eapply hoare_bind; [apply rec_addMessage | intros _v].
    eapply hoare_bind; [apply rec_tmp | intros r].
    apply hoare_pure_pre. intros ->.
    eapply hoare_bind; [apply rec_run_save; tracked_side | intros _x].
    eapply hoare_bind; [apply rec_append | intros _y].
    apply hoare_ret. intros st H. exact (rec_weaken H).
  - eapply hoare_bind; [apply rec_addWarningMessage | intros _v].
    apply hoare_ret. auto.
Qed.

Lemma rec_open_blue_band (done : list string) :
  hoare (tracked_recorded w p done) (open_blue_band w p)
        (fun _ => tracked_recorded w p done) (fun _ => tracked_recorded w p []).
Proof.
  unfold open_blue_band.
  apply hoare_try_except with (E' := fun _ => tracked_recorded w p done).
  - eapply hoare_bind with (R := fun _ => tracked_recorded w p done);
      [| intros _u; apply hoare_ret; auto].
    intros st H. unfold arcpy.
    destruct (fails w (List.length (trace st)) (Raster (band_path p)));
      (apply rec_logged; [intros _; tracked_side | exact H]).
  - intros _e.
    eapply hoare_bind; [apply rec_arcpy; tracked_side | intros _u].
    eapply hoare_bind; [apply rec_addWarningMessage | intros _v].
    apply hoare_ret. auto.
Qed.

Ltac record_step :=
  cbv beta;
  lazymatch goal with
  | |- hoare (fun st => tracked_recorded _ _ _ (recorded _ st))
             (bind (append _) _) _ _ =>
      eapply hoare_bind; [apply rec_append | intros ?]
  | |- hoare (fun st => tracked_recorded _ _ _ (recorded _ st))
             (bind (extend _) _) _ _ =>
      eapply hoare_bind; [apply rec_extend | intros ?]
  | |- hoare (fun st => _ = _ /\ _) _ _ _ =>
      apply hoare_pure_pre; intros ->
  | |- hoare _ (bind (addMessage _) _) _ _ =>
      eapply hoare_bind; [apply rec_addMessage | intros ?]
  | |- hoare _ (bind (_tmp _ _ _) _) _ _ =>
      eapply hoare_bind; [apply rec_tmp | intros ?]
  | |- hoare _ (bind (_tmp_shp _ _ _) _) _ _ =>
      eapply hoare_bind; [apply rec_tmp_shp | intros ?]
  | |- hoare _ (bind (run_save _ _ _) _) _ _ =>
      eapply hoare_bind; [apply rec_run_save; tracked_side | intros ?]
  | |- hoare _ (bind (run_out _ (Select ?v ?s _) ?s) (fun _ => bind (extend _) _))
             _ _ =>
      eapply hoare_bind;
      [apply (@rec_run_out_make _ _ s [v; s]); tracked_side | intros ?]
  | |- hoare _ (bind (run_out _ (Buffer _ ?b _) ?b) _) _ _ =>
      eapply hoare_bind;
      [apply (@rec_run_out_make _ _ b [b]); tracked_side | intros ?]
  | |- hoare _ (bind (run_out _ _ _) _) _ _ =>
      eapply hoare_bind; [apply rec_run_out; tracked_side | intros ?]
  | |- hoare _ (bind (ensure_Shape_Area _ _) _) _ _ =>
      eapply hoare_bind; [apply rec_ensure_Shape_Area | intros ?]
  | |- hoare _ (bind (append _) _) _ _ =>
      eapply hoare_bind; [apply rec_append_more | intros ?]
  | |- hoare _ (bind (step_1 _ _) _) _ _ =>
      eapply hoare_bind; [apply rec_step_1 | intros ?]
  | |- hoare _ (bind (open_blue_band _ _) _) _ _ =>
      eapply hoare_bind; [apply rec_open_blue_band | intros ?]
  end.

(** The body records every tracked intermediate it creates, in the
    statement after the one that creates it. *)
Lemma rec_body :
  hoare (tracked_recorded w p []) (body w p)
        (fun _ => tracked_recorded w p []) (fun _ => tracked_recorded w p []).
Proof.
  unfold body. repeat record_step.
  intros st H. exact (rec_weaken H).
Qed.

(** A tracked intermediate that its call of the run has created is gone
    after the run, unless its deletion has been attempted and has failed. *)
Lemma run_tracked (existing : list string) (c : call) (a : string) :
  In (c, a) (tracked_creations w p) ->
  In (c, None) (trace (snd (run w p existing))) ->
  In a (datasets (snd (run w p existing))) ->
  exists e, In (Delete a, Some e) (trace (snd (run w p existing))).
Proof.
  intros Ha.
  assert (H0 : tracked_recorded w p [] (init_state existing)).
  { split; [intros c' a' _ [] | intros x []]. }
  unfold run, execute, bind.
  destruct (validate_cases w p (init_state existing)) as [Ev | [[e Ev] | [msg Ev]]];
    rewrite Ev.
  - unfold try_finally.
    assert (Hbody : hoare (tracked_recorded w p []) (try_except (body w p) handler)
                          (fun _ => tracked_recorded w p [])
                          (fun _ => tracked_recorded w p [])).
    { eapply hoare_try_except; [apply rec_body |].
      intros e st H. exact H. }
    specialize (Hbody (logged (init_state existing) (CheckOutExtension "Spatial") None)).
    assert (H1 : tracked_recorded w p []
                   (logged (init_state existing) (CheckOutExtension "Spatial") None)).
    { apply rec_logged; [| exact H0]. intros _. tracked_side. }
    specialize (Hbody H1).
    destruct (try_except (body w p) handler
                (logged (init_state existing) (CheckOutExtension "Spatial") None))
      as [r st1].
    assert (Hrec : tracked_recorded w p [] st1) by (destruct r; exact Hbody).
    destruct (cleanup_swept w st1)
      as (st2 & E & (_ & _ & (post & Ht & Hpost & _ & Hf & _ & _) & _ & _) & _).
    rewrite E. cbn [snd]. rewrite Ht. intros Hin Hex.
    apply in_app_or in Hin. destruct Hin as [Hin | Hin].
    + destruct (Hf a (proj1 Hrec c a Ha Hin) Hex) as [e He].
      exists e. apply in_or_app. right. exact He.
    + exfalso. rewrite Forall_forall in Hpost. specialize (Hpost _ Hin).
      unfold cleanup_event in Hpost. cbn [fst] in Hpost.
      apply tracked_creates in Ha.
      destruct c; try contradiction; discriminate Ha.
  - cbn. intros [H | []]. discriminate H.
  - cbn. intros [].
Qed.

End Recorded.

(** C5 (amended): the [finally] block never raises, whatever fails in it,
    so the outcome of a run is that of the checks and the stages; it runs on
    every way out of the [try] block, that is, whenever the checks before
    the [try] have passed; it goes through the distinct paths recorded in
    [intermediates] and attempts the deletion of each one that exists; after
    the run a recorded path still exists only if its deletion was attempted
    and failed; and the nine rasters, dead_trees_selected and buffered_trees
    are recorded as soon as they are created, so that one of them that the
    run has created is gone after the run unless its deletion was attempted
    and failed. *)
Theorem C5_cleanup_best_effort :
  forall (w : world) (p : parameters) (existing : list string),
    (forall st : state,
        exists st', cleanup w st = (Ok tt, st') /\
                    swept (intermediates st) st st') /\
    fst (run w p existing) =
      fst ((validate w p ;; try_except (body w p) handler)
             (init_state existing)) /\
    (forall st0 : state,
        validate w p (init_state existing) = (Ok tt, st0) ->
        exists pre o,
          trace (snd (run w p existing)) =
          (pre ++ [(CheckInExtension "Spatial", o)])%list) /\
    (forall path : string,
        In path (intermediates (snd (run w p existing))) ->
        In path (datasets (snd (run w p existing))) ->
        exists e, In (Delete path, Some e) (trace (snd (run w p existing)))) /\
    (forall (c : call) (a : string),
        In (c, a) (tracked_creations w p) ->
        In (c, None) (trace (snd (run w p existing))) ->
        In a (datasets (snd (run w p existing))) ->
        exists e, In (Delete a, Some e) (trace (snd (run w p existing)))).
Proof.
  intros w p existing. split.
  { intros st. destruct (cleanup_swept w st) as (st' & E & S & _).
    exists st'. split; assumption. }
  assert (Hmade :
            forall (c : call) (a : string),
              In (c, a) (tracked_creations w p) ->
              In (c, None) (trace (snd (run w p existing))) ->
              In a (datasets (snd (run w p existing))) ->
              exists e, In (Delete a, Some e) (trace (snd (run w p existing))))
    by (intros c a; apply run_tracked).
  revert Hmade.
  pose proof (validate_frame w p (init_state existing)) as Hv.
  unfold run, execute, bind, try_finally.
  destruct (validate w p (init_state existing)) as [[[] | e] st0] eqn:Ev.
  - destruct (try_except (body w p) handler st0) as [r st1].
    destruct (cleanup_swept w st1)
      as (st2 & E & (Hi & _ & (post & Ht & _ & _ & Hf & _ & _) & _ & _) & Hlast).
    rewrite E. cbn [fst snd]. intros Hmade.
    split; [reflexivity |]. split; [| split; [| exact Hmade]].
    + intros _ _. exact Hlast.
    + intros path Hin Hex. rewrite Hi in Hin.
      destruct (Hf path Hin Hex) as [x Hx]. exists x.
      rewrite Ht. apply in_or_app. right. exact Hx.
  - cbn [fst snd] in *. intros Hmade.
    split; [reflexivity |]. split; [| split; [| exact Hmade]].
    + intros st0' H. discriminate H.
    + destruct Hv as (_ & Hi & _). cbn in Hi. rewrite Hi. intros path [].
Qed.

(** [C5_cleanup_best_effort] on a run in which everything succeeds, which
    ends with the check-in, and on a run in which the deletions fail, where
    the classified raster is left. *)
Lemma C5_cleanup_best_effort_witness :
  (exists pre o,
      trace (snd (run calm tile tile_existing)) =
      (pre ++ [(CheckInExtension "Spatial", o)])%list) /\
  (exists e,
      In (Delete "C:\work\classified.tif", Some e)
         (trace (snd (run locked tile tile_existing)))).
Proof.
  split.
  - apply (proj1 (proj2 (proj2 (C5_cleanup_best_effort calm tile tile_existing)))
             (snd (validate calm tile (init_state tile_existing)))).
    vm_compute. reflexivity.
  - apply (proj2 (proj2 (proj2 (proj2
             (C5_cleanup_best_effort locked tile tile_existing))))
             (save "C:\work\classified.tif") "C:\work\classified.tif").
    + vm_compute. find_disjunct.
    + vm_compute. find_disjunct.
    + vm_compute. find_disjunct.
Defined.


(** Lines 247-254 when opening the band by its path raises: the whole raster
    is opened next; if that succeeds it is returned and a warning has been
    written, and if it raises, that exception goes on. *)
Lemma open_blue_band_fallback (w : world) (p : parameters) (st : state) (e : exn) :
  fails w (List.length (trace st)) (Raster (band_path p)) = Some e ->
  match fails w (S (List.length (trace st))) (Raster (input_raster p)) with
  | None =>
      exists st' s,
        open_blue_band w p st = (Ok (input_raster p), st') /\
        trace st' = (trace st ++ [(Raster (band_path p), Some e);
                                  (Raster (input_raster p), None)])%list /\
        messages st' = (messages st ++ [WarningMessage s])%list
  | Some e' =>
      exists st', open_blue_band w p st = (Raise e', st')
  end.
Proof.
  intros Hband. unfold open_blue_band, try_except, bind, arcpy.
  rewrite Hband. cbn [trace datasets intermediates messages].
  rewrite length_app. cbn [List.length]. rewrite Nat.add_1_r.
  destruct (fails w (S (List.length (trace st))) (Raster (input_raster p))) as [e' |].
  - eexists. reflexivity.
  - eexists. eexists. cbn. split; [reflexivity |].
    split; [rewrite <- app_assoc; reflexivity | reflexivity].
Qed.

(** C9 as stated fails: when opening the band by its path raises, the
    exception is caught, the whole raster is opened in its place, and the
    run goes on to its end. *)
Lemma C9_band_failure_does_not_abort :
  ~ (forall (w : world) (p : parameters) (existing : list string)
            (c : call) (e : exn),
        In (c, Some e) (trace (snd (run w p existing))) ->
        ~ is_cleanup_call c ->
        fst (run w p existing) = Raise e).
Proof.
  intros H.
  specialize (H single_band tile tile_existing
                (Raster "C:\data\tile6.tif/Band_3")
                (Exception "RuntimeError: ERROR 000732")).
  assert (Hrun : fst (run single_band tile tile_existing) = Ok tt)
    by (vm_compute; reflexivity).
  rewrite Hrun in H. discriminate H.
  - vm_compute. find_disjunct.
  - intros [].
Qed.

(** C9 (amended): a check that fails before the [try] ends the run with an
    [ExecuteError] before any call is made; and when a call other than the
    opening of the band by its path raises outside the cleanup, the run
    raises that same exception, no call before it had failed (the band
    apart), only cleanup calls follow it, and, unless it is the check-out
    made before the [try], the error is written to the messages before it
    is raised again; when it is the opening of the band by its path that
    raises, the whole raster is opened in its place and, if that succeeds,
    a warning is written and the stage goes on. *)
Theorem C9_failure_aborts_except_band_fallback :
  forall (w : world) (p : parameters) (existing : list string),
    (existsb (String.eqb (input_raster p)) existing = false \/
     (exists m, mask_layer p = Some m /\ truthy m = true /\
                existsb (String.eqb m) existing = false) \/
     existsb (String.eqb (workspace p)) existing = false \/
     CheckExtension w "Spatial" <> "Available" ->
     exists msg,
       run w p existing = (Raise (ExecuteError msg), init_state existing)) /\
    (forall (c : call) (e : exn),
        In (c, Some e) (trace (snd (run w p existing))) ->
        ~ is_cleanup_call c ->
        c <> Raster (band_path p) ->
        fst (run w p existing) = Raise e /\
        (exists pre post,
            trace (snd (run w p existing)) = (pre ++ (c, Some e) :: post)%list /\
            Forall (fun ev => snd ev = None \/ fst ev = Raster (band_path p)) pre /\
            Forall (fun ev => is_cleanup_call (fst ev)) post) /\
        (c <> CheckOutExtension "Spatial" ->
         exists ms, messages (snd (run w p existing)) =
                    (ms ++ [ErrorMessage (error_report e)])%list)) /\
    (forall (st : state) (e : exn),
        fails w (List.length (trace st)) (Raster (band_path p)) = Some e ->
        match fails w (S (List.length (trace st))) (Raster (input_raster p)) with
        | None =>
            exists st' s,
              open_blue_band w p st = (Ok (input_raster p), st') /\
              trace st' = (trace st ++ [(Raster (band_path p), Some e);
                                        (Raster (input_raster p), None)])%list /\
              messages st' = (messages st ++ [WarningMessage s])%list
        | Some e' =>
            exists st', open_blue_band w p st = (Raise e', st')
        end).
Proof.
  intros w p existing. split; [| split].
  3: exact (@open_blue_band_fallback w p).
  - intros H. destruct (@validate_fails w p (init_state existing) H) as [msg Ev].
    exists msg. unfold run, execute, bind. rewrite Ev. reflexivity.
  - intros c e Hin Hstage Hband.
    destruct (run_shape w p existing)
      as (pre & post & Hpre & Hpost & [[_ Ht] | [(c' & e' & Hr & Ht & Hmsg) | (msg & _ & Hst)]]).
    + exfalso. rewrite Ht in Hin. apply in_app_or in Hin. destruct Hin as [Hin | Hin].
      * rewrite Forall_forall in Hpre. destruct (Hpre _ Hin) as [Hq | Hq];
          cbn in Hq; [discriminate Hq | contradiction].
      * rewrite Forall_forall in Hpost. exact (Hstage (Hpost _ Hin)).
    + assert (Heq : (c, Some e) = (c', Some e')).
      { rewrite Ht in Hin. apply in_app_or in Hin.
        destruct Hin as [Hin | [Hin | Hin]].
        - exfalso. rewrite Forall_forall in Hpre.
          destruct (Hpre _ Hin) as [Hq | Hq];
            cbn in Hq; [discriminate Hq | contradiction].
        - symmetry. exact Hin.
        - exfalso. rewrite Forall_forall in Hpost. exact (Hstage (Hpost _ Hin)). }
      injection Heq as <- <-.
      split; [exact Hr |]. split.
      * exists pre, post. split; [exact Ht |]. split; [exact Hpre | exact Hpost].
      * intros Hco. destruct Hmsg as [Hmsg | Hmsg]; [contradiction | exact Hmsg].
    + exfalso. rewrite Hst in Hin. exact Hin.
Qed.

(** [C9_failure_aborts_except_band_fallback] on a run in which [Expand]
    fails. *)
Lemma C9_failure_aborts_except_band_fallback_witness :
  fst (run expand_fails tile tile_existing) =
  Raise (ExecuteError "ERROR 010067: Error in executing grid expression.").
Proof.
  apply (proj1 (proj2 (C9_failure_aborts_except_band_fallback
                         expand_fails tile tile_existing))
               (Expand "C:\work\filtered.tif" 1 [1%Z])
               (ExecuteError "ERROR 010067: Error in executing grid expression.")).
  - vm_compute. find_disjunct.
  - intros [].
  - discriminate.
Defined.

(** ** The calls of a run *)

(** Every call of a run is a call of the body, the check-out, or a call of
    the cleanup. *)
Lemma run_calls (w : world) (p : parameters) (existing : list string) :
  Forall (fun ev => stage_call p (fst ev) \/
                    fst ev = CheckOutExtension "Spatial" \/
                    is_cleanup_call (fst ev))
         (trace (snd (run w p existing))).
Proof.
  pose (J := fun st : state =>
               Forall (fun ev => stage_call p (fst ev) \/
                                 fst ev = CheckOutExtension "Spatial" \/
                                 is_cleanup_call (fst ev)) (trace st)).
  assert (Hbody : hoare J (try_except (body w p) handler)
                        (fun _ => J) (fun _ => J)).
  { eapply hoare_try_except with (E' := fun _ => J).
    - apply inv_body.
      + intros st ms H. exact H.
      + intros st path H. exact H.
      + intros st paths _ H. exact H.
      + intros st c Hc H.
        assert (Hlog : forall o, J (logged st c o)).
        { intros o. unfold J, logged. cbn [trace]. apply Forall_app.
          split; [exact H |]. constructor; [left; exact Hc | constructor]. }
        destruct (fails w (List.length (trace st)) c); apply Hlog.
      + intros st e H _. unfold J, logged. cbn [trace]. apply Forall_app.
        split; [exact H |]. constructor; [left; exact Logic.I | constructor].
    - intros e st H. unfold handler, bind, addErrorMessage, raise. cbn. exact H. }
  unfold run, execute, bind.
  destruct (validate_cases w p (init_state existing)) as [Ev | [[e Ev] | [msg Ev]]];
    rewrite Ev.
  - unfold try_finally.
    assert (H0 : J (logged (init_state existing) (CheckOutExtension "Spatial") None)).
    { unfold J. cbn. constructor; [right; left; reflexivity | constructor]. }
    specialize (Hbody _ H0).
    destruct (try_except (body w p) handler
                (logged (init_state existing) (CheckOutExtension "Spatial") None))
      as [r st1].
    assert (H1 : J st1) by (destruct r; exact Hbody).
    destruct (cleanup_swept w st1)
      as (st2 & E & (_ & _ & (post & Ht & Hpost & _ & _ & _ & _) & _ & _) & _).
    rewrite E. cbn [snd]. rewrite Ht. apply Forall_app. split; [exact H1 |].
    eapply Forall_impl; [| exact Hpost]. intros ev Hev. right. right. exact Hev.
  - cbn. constructor; [right; left; reflexivity | constructor].
  - cbn. constructor.
Qed.

(** What the table of lines 235-240 does to the value of a cell. *)
Lemma remap_class_10 (v : Z) : reclassify_cell remap v = Value 1 <-> v = 10%Z.
Proof.
  unfold reclassify_cell, remap. cbn [find fst].
  repeat match goal with
         | |- context [(?k =? v)%Z] => destruct (Z.eqb_spec k v); [subst v |]
         end;
    split; intros H; try discriminate H; try reflexivity; try lia.
  injection H as H. congruence.
Qed.

Lemma remap_classes_1_to_9 (v : Z) :
  (1 <= v <= 9)%Z -> reclassify_cell remap v = NoData.
Proof.
  intros Hv.
  assert (Hcases : (v = 1 \/ v = 2 \/ v = 3 \/ v = 4 \/ v = 5 \/ v = 6 \/
                    v = 7 \/ v = 8 \/ v = 9)%Z) by lia.
  repeat (destruct Hcases as [-> | Hcases]; [reflexivity |]).
  subst v. reflexivity.
Qed.

(** C4 as stated fails: with five classes asked for, the table passed to
    [Reclassify] still sends class 5 to NoData and not to 1. *)
Lemma C4_class_5_of_5_is_dropped :
  ~ (forall (w : world) (p : parameters) (existing : list string)
            (in_raster field : string) (table : RemapValue) (o : option exn),
        In (Reclassify in_raster field table, o) (trace (snd (run w p existing))) ->
        reclassify_cell table (number_classes p) = Value 1).
Proof.
  intros H.
  specialize (H calm tile_5_classes tile_existing
                "C:\work\classified.tif" "Value" remap None).
  assert (Hcell : reclassify_cell remap (number_classes tile_5_classes) = NoData)
    by reflexivity.
  rewrite Hcell in H. discriminate H.
  vm_compute. find_disjunct.
Qed.

(** C4 (amended): whatever number of classes is asked for, the
    classification is run with that number, but the table passed to
    [Reclassify] is always the one of lines 235-240: it sends class 10 to 1
    and classes 1 to 9 to NoData; so the class [number_classes] is the one
    collapsed to 1 exactly when [number_classes] is 10. *)
Theorem C4_dead_class_is_class_10 :
  forall (w : world) (p : parameters) (existing : list string),
    (forall (in_raster : string) (n min_class_size sample_interval : Z)
            (o : option exn),
        In (IsoClusterUnsupervisedClassification in_raster n min_class_size
                                                 sample_interval, o)
           (trace (snd (run w p existing))) ->
        n = number_classes p) /\
    (forall (in_raster field : string) (table : RemapValue) (o : option exn),
        In (Reclassify in_raster field table, o) (trace (snd (run w p existing))) ->
        table = remap /\
        (forall v : Z, reclassify_cell table v = Value 1 <-> v = 10%Z) /\
        (forall v : Z, (1 <= v <= 9)%Z -> reclassify_cell table v = NoData) /\
        (reclassify_cell table (number_classes p) = Value 1 <->
         number_classes p = 10%Z)).
Proof.
  intros w p existing.
  pose proof (run_calls w p existing) as Hcalls. rewrite Forall_forall in Hcalls.
  split.
  - intros in_raster n mcs si o Hin.
    destruct (Hcalls _ Hin) as [H | [H | H]]; cbn in H;
      [exact H | discriminate H | contradiction].
  - intros in_raster field table o Hin.
    assert (Ht : table = remap).
    { destruct (Hcalls _ Hin) as [H | [H | H]]; cbn in H;
        [exact H | discriminate H | contradiction]. }
    subst table. split; [reflexivity |].
    split; [exact remap_class_10 |].
    split; [exact remap_classes_1_to_9 | apply remap_class_10].
Qed.

(** [C4_dead_class_is_class_10] on a run with five classes asked for. *)
Lemma C4_dead_class_is_class_10_witness :
  remap = remap /\
  (forall v : Z, reclassify_cell remap v = Value 1 <-> v = 10%Z) /\
  (forall v : Z, (1 <= v <= 9)%Z -> reclassify_cell remap v = NoData) /\
  (reclassify_cell remap (number_classes tile_5_classes) = Value 1 <->
   number_classes tile_5_classes = 10%Z).
Proof.
  apply (proj2 (C4_dead_class_is_class_10 calm tile_5_classes tile_existing)
               "C:\work\classified.tif" "Value" remap None).
  vm_compute. find_disjunct.
Defined.

(** ** What a run records and deletes *)

(** Only the temporary paths are recorded in [intermediates], only they are
    ever deleted, and a dataset at any other path that existed before the
    run exists after it. *)
Lemma run_recorded (w : world) (p : parameters) (existing : list string) :
  incl (intermediates (snd (run w p existing))) (recorded_paths w p) /\
  (forall path o,
      In (Delete path, o) (trace (snd (run w p existing))) ->
      In path (recorded_paths w p)) /\
  (forall x,
      ~ In x (recorded_paths w p) -> In x existing ->
      In x (datasets (snd (run w p existing)))).
Proof.
  pose (K := fun st : state =>
               incl (intermediates st) (recorded_paths w p) /\
               (forall x, In x existing -> In x (datasets st)) /\
               Forall (fun ev => stage_call p (fst ev) \/
                                 fst ev = CheckOutExtension "Spatial") (trace st)).
  assert (Hlog : forall st c o,
             stage_call p c \/ c = CheckOutExtension "Spatial" ->
             K st -> K (logged st c o)).
  { intros st c o Hc (H1 & H2 & H3). unfold K, logged. cbn.
    split; [exact H1 |]. split; [exact H2 |].
    apply Forall_app. split; [exact H3 |]. constructor; [exact Hc | constructor]. }
  assert (Hbody : hoare K (try_except (body w p) handler)
                        (fun _ => K) (fun _ => K)).
  { eapply hoare_try_except with (E' := fun _ => K).
    - apply inv_body.
      + intros st ms H. exact H.
      + intros st path (H1 & H2 & H3). unfold K. cbn.
        split; [exact H1 |]. split; [| exact H3].
        intros x Hx. right. apply H2. exact Hx.
      + intros st paths Hp (H1 & H2 & H3). unfold K. cbn.
        split; [| split; assumption].
        apply incl_app; assumption.
      + intros st c Hc H.
        destruct (fails w (List.length (trace st)) c); apply Hlog; auto.
      + intros st e H _. apply Hlog; [left; exact Logic.I | exact H].
    - intros e st H. unfold handler, bind, addErrorMessage, raise. cbn. exact H. }
  assert (H0 : K (init_state existing)).
  { unfold K. cbn. split; [intros x [] |]. split; [auto | constructor]. }
  assert (Hend : forall st, K st ->
             incl (intermediates st) (recorded_paths w p) /\
             (forall path o, In (Delete path, o) (trace st) ->
                             In path (recorded_paths w p)) /\
             (forall x, ~ In x (recorded_paths w p) -> In x existing ->
                        In x (datasets st))).
  { intros st (H1 & H2 & H3). split; [exact H1 |]. split.
    - intros path o Hin. rewrite Forall_forall in H3.
      destruct (H3 _ Hin) as [H | H]; cbn in H; [contradiction | discriminate H].
    - intros x _ Hx. apply H2. exact Hx. }
  unfold run, execute, bind.
  destruct (validate_cases w p (init_state existing)) as [Ev | [[e Ev] | [msg Ev]]];
    rewrite Ev.
  - unfold try_finally.
    specialize (Hbody _ (Hlog _ (CheckOutExtension "Spatial") None
                              (or_intror eq_refl) H0)).
    destruct (try_except (body w p) handler
                (logged (init_state existing) (CheckOutExtension "Spatial") None))
      as [r st1].
    assert (H1 : K st1) by (destruct r; exact Hbody).
    destruct (Hend st1 H1) as (Hrec & Hdel & Hkeep).
    destruct (cleanup_swept w st1)
      as (st2 & E & (Hi & _ & (post & Ht & _ & _ & _ & Hd & _) & _ & Hfr) & _).
    rewrite E. cbn [snd]. split; [rewrite Hi; exact Hrec |]. split.
    + intros path o Hin. rewrite Ht in Hin. apply in_app_or in Hin.
      destruct Hin as [Hin | Hin].
      * exact (Hdel path o Hin).
      * apply Hrec. exact (Hd path o Hin).
    + intros x Hx Hex. apply Hfr.
      * intros Hin. apply Hx. apply Hrec. exact Hin.
      * apply Hkeep; assumption.
  - apply Hend. apply Hlog; [right; reflexivity | exact H0].
  - apply Hend. exact H0.
Qed.

(** As long as the input raster is not at one of the temporary paths, it is
    never recorded as an intermediate, never deleted, and still there after
    the run. *)
Lemma input_raster_kept (w : world) (p : parameters) (existing : list string) :
  ~ In (input_raster p) (recorded_paths w p) ->
  ~ In (input_raster p) (intermediates (snd (run w p existing))) /\
  (forall o, ~ In (Delete (input_raster p), o) (trace (snd (run w p existing)))) /\
  (In (input_raster p) existing ->
   In (input_raster p) (datasets (snd (run w p existing)))).
Proof.
  intros Hfree. destruct (run_recorded w p existing) as (Hrec & Hdel & Hkeep).
  split; [| split].
  - intros Hin. apply Hfree. apply Hrec. exact Hin.
  - intros o Hin. apply Hfree. exact (Hdel _ o Hin).
  - intros Hex. apply Hkeep; assumption.
Qed.

(** C10: the evaluation of [execute] on an input raster that lies in the
    workspace under the name classified.tif, without a forest mask and with
    every call succeeding.  The path step 2 saves the classified raster to
    is the path of the input raster; it is appended to [intermediates], and
    the cleanup deletes it: after the run, which ends normally, the input
    raster is gone. *)
Theorem C10_input_deleted_on_name_clash :
  mask_given clash = false /\
  In (input_raster clash) clash_existing /\
  tmp_path calm (workspace clash) "classified" = input_raster clash /\
  fst (run calm clash clash_existing) = Ok tt /\
  In (input_raster clash) (intermediates (snd (run calm clash clash_existing))) /\
  In (Delete (input_raster clash), None)
     (trace (snd (run calm clash clash_existing))) /\
  ~ In (input_raster clash) (datasets (snd (run calm clash clash_existing))).
Proof.
  split; [reflexivity |].
  split; [left; reflexivity |].
  split; [reflexivity |].
  split; [vm_compute; reflexivity |].
  split; [vm_compute; find_disjunct |].
  split; [vm_compute; find_disjunct |].
  vm_compute. intros H.
  repeat (destruct H as [H | H]; [discriminate H |]). exact H.
Qed.

End PipelineFacts.

(* ================================================================== *)
(** * Part V: further properties of the evaluation engine              *)
(* ================================================================== *)

Module EvaluationExtras.

Import Evaluation.
Import EvaluationFacts.
Local Open Scope Z_scope.

(** ** The metrics of counts *)

(** [computeMetrics_raise_counts] with no true positive among three
    polygons. *)
Lemma computeMetrics_raise_counts_witness :
  computeMetrics 0 3 2 = Raise ZeroDivisionError.
Proof.
  apply (proj2 (@computeMetrics_raise_counts 0 3 2
                  ltac:(lia) ltac:(lia) ltac:(lia))).
  reflexivity.
Defined.

(** The floats of lines 163-169 are rounded: for TP = 4, FP = 1, FN = 1
    precision and recall are both the float nearest to 0.8, and the
    F1-score is the float above it, so that in binary64 the F1-score need
    not lie between recall and precision. *)
Lemma f1_score_b64_above_precision :
  exists precision f1_score : float,
    computeMetrics_b64 4 1 1 = Ok (precision, precision, f1_score) /\
    (float_value precision < float_value f1_score)%Q.
Proof.
  do 2 eexists. split; vm_compute; reflexivity.
Qed.

(** ** The evaluation of two feature sets *)

Lemma metrics_of_counts_raise (c : counts) :
  metrics_of_counts c = Raise ZeroDivisionError <->
  computeMetrics (TP c) (FP c) (FN c) = Raise ZeroDivisionError \/
  computeMetrics (TP_2 c) (FP c) (FN c) = Raise ZeroDivisionError.
Proof.
  unfold metrics_of_counts.
  destruct (computeMetrics (TP c) (FP c) (FN c)) as [m | e]; cbn [bind].
  - destruct (computeMetrics (TP_2 c) (FP c) (FN c)) as [m2 | e2]; cbn [bind].
    + split; [discriminate | intros [H | H]; discriminate H].
    + rewrite (exn_unique e2). tauto.
  - rewrite (exn_unique e). tauto.
Qed.

Lemma GetCount_zero {T} (l : list T) : GetCount l = 0 <-> l = [].
Proof.
  unfold GetCount. destruct l as [| x l]; cbn [List.length].
  - tauto.
  - split; [lia | discriminate].
Qed.

Lemma filter_nil_iff {T} (f : T -> bool) (l : list T) :
  filter f l = [] <-> forall x, In x l -> f x = false.
Proof.
  induction l as [| a l IH]; cbn [filter].
  - split; [intros _ x [] | reflexivity].
  - destruct (f a) eqn:Ea.
    + split; [discriminate |]. intros H.
      rewrite (H a (or_introl eq_refl)) in Ea. discriminate Ea.
    + rewrite IH. split.
      * intros H x [<- | Hx]; [exact Ea | exact (H x Hx)].
      * intros H x Hx. apply H. right. exact Hx.
Qed.

Lemma existsb_false_iff {T} (f : T -> bool) (l : list T) :
  existsb f l = false <-> forall x, In x l -> f x = false.
Proof.
  induction l as [| a l IH]; cbn [existsb].
  - split; [intros _ x [] | reflexivity].
  - rewrite orb_false_iff, IH. split.
    + intros [Ha H] x [<- | Hx]; [exact Ha | exact (H x Hx)].
    + intros H. split; [apply H; left; reflexivity |].
      intros x Hx. apply H. right. exact Hx.
Qed.

Section TwoSets.

Variables P G : Type.
Variable intersects : P -> G -> bool.
Variables (polygons : list P) (points : list G).

(** The counts of the evaluation, in terms of the two feature sets. *)
Lemma evaluation_counts :
  evaluation intersects polygons points =
  metrics_of_counts
    {| TP := GetCount (filter (fun p => existsb (intersects p) points) polygons);
       All_polygons := GetCount polygons;
       FN := GetCount polygons
             - GetCount (filter (fun p => existsb (intersects p) points) polygons);
       TP_2 := GetCount (filter (fun g => existsb (fun p => intersects p g) polygons)
                                points);
       All_points := GetCount points;
       FP := GetCount points
             - GetCount (filter (fun g => existsb (fun p => intersects p g) polygons)
                                points) |}.
Proof.
  unfold evaluation, evaluate_joined, count_rows.
  rewrite !matched_count.
  assert (H1 : GetCount (SpatialJoin intersects polygons points) = GetCount polygons)
    by (unfold GetCount; rewrite SpatialJoin_length; reflexivity).
  assert (H2 : GetCount (SpatialJoin (fun g p => intersects p g) points polygons)
               = GetCount points)
    by (unfold GetCount; rewrite SpatialJoin_length; reflexivity).
  rewrite H1, H2. reflexivity.
Qed.

Lemma no_matched_polygon :
  GetCount (filter (fun p => existsb (intersects p) points) polygons) = 0 <->
  forall p g, In p polygons -> In g points -> intersects p g = false.
Proof.
  rewrite GetCount_zero, filter_nil_iff. split.
  - intros H p g Hp Hg. specialize (H p Hp).
    rewrite existsb_false_iff in H. exact (H g Hg).
  - intros H p Hp. apply existsb_false_iff. intros g Hg. exact (H p g Hp Hg).
Qed.

Lemma no_matched_point :
  GetCount (filter (fun g => existsb (fun p => intersects p g) polygons) points) = 0 <->
  forall p g, In p polygons -> In g points -> intersects p g = false.
Proof.
  rewrite GetCount_zero, filter_nil_iff. split.
  - intros H p g Hp Hg. specialize (H g Hg).
    rewrite existsb_false_iff in H. exact (H p Hp).
  - intros H g Hg. apply existsb_false_iff. intros p Hp. exact (H p g Hp Hg).
Qed.

(** The evaluation ends in a ZeroDivisionError exactly when no detected
    polygon intersects any ground-truth point, so in particular when either
    feature set is empty; in every other case it returns its report. *)
Theorem evaluation_raises_iff_no_match :
  (evaluation intersects polygons points = Raise ZeroDivisionError <->
   forall p g, In p polygons -> In g points -> intersects p g = false) /\
  ((exists r, evaluation intersects polygons points = Ok r) <->
   exists p g, In p polygons /\ In g points /\ intersects p g = true).
Proof.
  assert (Hraise : evaluation intersects polygons points = Raise ZeroDivisionError <->
                   forall p g, In p polygons -> In g points -> intersects p g = false).
  { rewrite evaluation_counts, metrics_of_counts_raise.
    cbn [TP TP_2 FP FN].
    pose proof (GetCount_filter_le (fun p => existsb (intersects p) points) polygons).
    pose proof (GetCount_filter_le
                  (fun g => existsb (fun p => intersects p g) polygons) points).
    pose proof (GetCount_nonneg
                  (filter (fun p => existsb (intersects p) points) polygons)).
    pose proof (GetCount_nonneg
                  (filter (fun g => existsb (fun p => intersects p g) polygons) points)).
    rewrite !computeMetrics_raise_counts by lia.
    rewrite no_matched_polygon, no_matched_point. tauto. }
  split; [exact Hraise |].
  split.
  - intros [r Hr].
    destruct (existsb (fun p => existsb (intersects p) points) polygons) eqn:Hex.
    + apply existsb_exists in Hex. destruct Hex as [p [Hp Hex]].
      apply existsb_exists in Hex. destruct Hex as [g [Hg Hpg]].
      exists p, g. auto.
    + exfalso. rewrite existsb_false_iff in Hex.
      assert (Hnone : forall p g, In p polygons -> In g points ->
                                  intersects p g = false).
      { intros p g Hp Hg. specialize (Hex p Hp).
        rewrite existsb_false_iff in Hex. exact (Hex g Hg). }
      apply Hraise in Hnone. rewrite Hr in Hnone. discriminate Hnone.
  - intros [p [g [Hp [Hg Hpg]]]].
    destruct (evaluation intersects polygons points) as [r | e] eqn:Hev.
    + exists r. reflexivity.
    + exfalso. rewrite (exn_unique e) in Hraise.
      rewrite (proj1 Hraise eq_refl p g Hp Hg) in Hpg. discriminate Hpg.
Qed.

End TwoSets.

(** [evaluation_raises_iff_no_match] on the polygons of the scenario and no
    ground-truth point at all. *)
Lemma evaluation_raises_iff_no_match_witness :
  evaluation scenario_intersects scenario_polygons [] = Raise ZeroDivisionError.
Proof.
  apply (proj2 (proj1 (@evaluation_raises_iff_no_match
                         nat nat scenario_intersects scenario_polygons []))).
  intros p g _ [].
Defined.

(** What the script calls recall is the share of the detected polygons that
    contain a ground-truth point, and what it calls precision with inverted
    spatial join is the share of the ground-truth points that lie in a
    detected polygon: FN and FP are the complements of TP and TP_2 in their
    own tables. *)
Theorem evaluate_joined_shares {P G : Type}
    (polygons_to_points : list (row P)) (points_to_polygons : list (row G))
    (r : report) :
  evaluate_joined polygons_to_points points_to_polygons = Ok r ->
  cnt r = count_rows polygons_to_points points_to_polygons /\
  (recall (poly_view r) ==
   inject_Z (TP (cnt r)) / inject_Z (All_polygons (cnt r)))%Q /\
  (precision (point_view r) ==
   inject_Z (TP_2 (cnt r)) / inject_Z (All_points (cnt r)))%Q /\
  0 < TP (cnt r) <= All_polygons (cnt r) /\
  0 < TP_2 (cnt r) <= All_points (cnt r).
Proof.
  unfold evaluate_joined, metrics_of_counts.
  set (c := count_rows polygons_to_points points_to_polygons).
  intros Hr.
  assert (Hc : 0 <= TP c <= All_polygons c /\ 0 <= TP_2 c <= All_points c /\
               FN c = All_polygons c - TP c /\ FP c = All_points c - TP_2 c).
  { subst c. unfold count_rows. cbn [TP All_polygons FN TP_2 All_points FP].
    unfold Select_Join_Count_ne_0.
    pose proof (GetCount_filter_le (fun x : row P => negb (Join_Count x =? 0))
                                   polygons_to_points).
    pose proof (GetCount_filter_le (fun x : row G => negb (Join_Count x =? 0))
                                   points_to_polygons).
    pose proof (GetCount_nonneg (filter (fun x : row P => negb (Join_Count x =? 0))
                                        polygons_to_points)).
    pose proof (GetCount_nonneg (filter (fun x : row G => negb (Join_Count x =? 0))
                                        points_to_polygons)).
    repeat split; lia. }
  destruct Hc as (HTP & HTP2 & HFN & HFP).
  destruct (computeMetrics (TP c) (FP c) (FN c)) as [m | e] eqn:E1;
    cbn [bind] in Hr; [| discriminate Hr].
  destruct (computeMetrics (TP_2 c) (FP c) (FN c)) as [m2 | e] eqn:E2;
    cbn [bind] in Hr; [| discriminate Hr].
  injection Hr as <-. cbn [cnt poly_view point_view].
  assert (N1 : TP c <> 0).
  { intros H0. assert (Hx : computeMetrics (TP c) (FP c) (FN c) = Raise ZeroDivisionError)
      by (apply computeMetrics_raise_counts; lia).
    congruence. }
  assert (N2 : TP_2 c <> 0).
  { intros H0. assert (Hx : computeMetrics (TP_2 c) (FP c) (FN c) = Raise ZeroDivisionError)
      by (apply computeMetrics_raise_counts; lia).
    congruence. }
  split; [reflexivity |].
  assert (Hden : forall a b d,
             0 < a -> 0 <= b -> 0 <= d ->
             ~ (inject_Z a / inject_Z (a + b) + inject_Z a / inject_Z (a + d) == 0)%Q).
  { intros a b d Ha Hb Hd Hz.
    apply precision_plus_recall_zero in Hz; lia. }
  rewrite computeMetrics_ok in E1 by (try lia; apply Hden; lia).
  rewrite computeMetrics_ok in E2 by (try lia; apply Hden; lia).
  injection E1 as <-. injection E2 as <-. cbn [precision recall].
  split; [| split; [| split; lia]].
  - subst c. unfold count_rows. cbn [TP All_polygons].
    match goal with
    | |- (_ / inject_Z ?x == _ / inject_Z ?y)%Q => replace x with y by lia
    end.
    reflexivity.
  - subst c. unfold count_rows. cbn [TP_2 All_points].
    match goal with
    | |- (_ / inject_Z ?x == _ / inject_Z ?y)%Q => replace x with y by lia
    end.
    reflexivity.
Qed.

(** [evaluate_joined_shares] on the two joins of the scenario. *)
Lemma evaluate_joined_shares_witness :
  exists r,
    (recall (poly_view r) ==
     inject_Z (TP (cnt r)) / inject_Z (All_polygons (cnt r)))%Q /\
    (precision (point_view r) ==
     inject_Z (TP_2 (cnt r)) / inject_Z (All_points (cnt r)))%Q.
Proof.
  destruct (evaluate_joined
              (SpatialJoin scenario_intersects scenario_polygons scenario_points)
              (SpatialJoin (fun g p => scenario_intersects p g)
                           scenario_points scenario_polygons)) as [r | e] eqn:E.
  - exists r.
    destruct (evaluate_joined_shares _ _ E) as (_ & H1 & H2 & _).
    split; assumption.
  - vm_compute in E. discriminate E.
Defined.

(** ** The order of the features *)

Lemma all_unmatched {T} (joined : list (row T)) :
  GetCount (Select_Join_Count_ne_0 joined) = 0 <->
  forall r, In r joined -> Join_Count r = 0.
Proof.
  rewrite GetCount_zero. unfold Select_Join_Count_ne_0. rewrite filter_nil_iff.
  split; intros H r Hr; specialize (H r Hr).
  - apply negb_false_iff in H. apply Z.eqb_eq. exact H.
  - apply negb_false_iff. apply Z.eqb_eq. exact H.
Qed.

(** Lines 137-185 end in a ZeroDivisionError exactly when one of the two
    joined tables has no row with a Join_Count other than 0 (an empty table
    included), whatever the other counts are. *)
Theorem evaluate_joined_raises_iff {P G : Type}
    (polygons_to_points : list (row P)) (points_to_polygons : list (row G)) :
  evaluate_joined polygons_to_points points_to_polygons = Raise ZeroDivisionError <->
  (forall r, In r polygons_to_points -> Join_Count r = 0) \/
  (forall r, In r points_to_polygons -> Join_Count r = 0).
Proof.
  unfold evaluate_joined. rewrite metrics_of_counts_raise.
  unfold count_rows. cbn [TP TP_2 FP FN].
  pose proof (GetCount_nonneg (Select_Join_Count_ne_0 polygons_to_points)).
  pose proof (GetCount_nonneg (Select_Join_Count_ne_0 points_to_polygons)).
  pose proof (GetCount_filter_le (fun r => negb (Join_Count r =? 0))
                                 polygons_to_points).
  pose proof (GetCount_filter_le (fun r => negb (Join_Count r =? 0))
                                 points_to_polygons).
  fold (Select_Join_Count_ne_0 polygons_to_points) in *.
  fold (Select_Join_Count_ne_0 points_to_polygons) in *.
  rewrite !computeMetrics_raise_counts by lia.
  rewrite !all_unmatched. reflexivity.
Qed.


Lemma filter_length_Permutation {T} (f : T -> bool) (l l' : list T) :
  Permutation l l' -> List.length (filter f l) = List.length (filter f l').
Proof.
  intros H. induction H as [| x l l' H IH | x y l | l l' l'' H1 IH1 H2 IH2];
    cbn [filter].
  - reflexivity.
  - destruct (f x); cbn [List.length]; congruence.
  - destruct (f x), (f y); reflexivity.
  - congruence.
Qed.

Lemma existsb_Permutation {T} (f : T -> bool) (l l' : list T) :
  Permutation l l' -> existsb f l = existsb f l'.
Proof.
  intros H. induction H as [| x l l' H IH | x y l | l l' l'' H1 IH1 H2 IH2];
    cbn [existsb].
  - reflexivity.
  - rewrite IH. reflexivity.
  - destruct (f x), (f y); reflexivity.
  - congruence.
Qed.

(** The result of the evaluation does not depend on the order in which the
    detected polygons and the ground-truth points are stored. *)
Theorem evaluation_Permutation {P G : Type} (intersects : P -> G -> bool)
    (polygons polygons' : list P) (points points' : list G) :
  Permutation polygons polygons' ->
  Permutation points points' ->
  evaluation intersects polygons' points' = evaluation intersects polygons points.
Proof.
  intros Hp Hg. rewrite !evaluation_counts. f_equal.
  assert (H1 : GetCount (filter (fun p => existsb (intersects p) points') polygons')
               = GetCount (filter (fun p => existsb (intersects p) points) polygons)).
  { unfold GetCount. f_equal.
    rewrite <- (filter_length_Permutation _ Hp).
    f_equal. apply filter_ext. intros p. symmetry.
    apply existsb_Permutation. exact Hg. }
  assert (H2 : GetCount (filter (fun g => existsb (fun p => intersects p g) polygons')
                                points')
               = GetCount (filter (fun g => existsb (fun p => intersects p g) polygons)
                                  points)).
  { unfold GetCount. f_equal.
    rewrite <- (filter_length_Permutation _ Hg).
    f_equal. apply filter_ext. intros g. symmetry.
    apply existsb_Permutation. exact Hp. }
  assert (H3 : GetCount polygons' = GetCount polygons)
    by (unfold GetCount; rewrite (Permutation_length Hp); reflexivity).
  assert (H4 : GetCount points' = GetCount points)
    by (unfold GetCount; rewrite (Permutation_length Hg); reflexivity).
  rewrite H1, H2, H3, H4. reflexivity.
Qed.

(** [evaluation_Permutation] on the scenario with its polygons and points
    stored in another order. *)
Lemma evaluation_Permutation_witness :
  evaluation scenario_intersects [2; 0; 1]%nat [1; 0]%nat =
  evaluation scenario_intersects [0; 1; 2]%nat [0; 1]%nat.
Proof.
  apply evaluation_Permutation.
  - apply Permutation_sym. apply (Permutation_cons_append [0; 1]%nat 2%nat).
  - apply perm_swap.
Defined.

(** ** The two joins count the same pairs *)

Lemma sum_Join_Count_SpatialJoin {T J : Type} (rel : T -> J -> bool)
    (A : list T) (B : list J) :
  sum_Join_Count (SpatialJoin rel A B) =
  Z.of_nat (List.length (filter (fun tb => rel (fst tb) (snd tb)) (list_prod A B))).
Proof.
  induction A as [| a A IH]; [reflexivity |].
  cbn [SpatialJoin map sum_Join_Count fold_right Join_Count list_prod].
  fold (SpatialJoin rel A B). fold (sum_Join_Count (SpatialJoin rel A B)).
  rewrite IH, filter_app, length_app, Nat2Z.inj_add. f_equal.
  rewrite filter_map_swap, length_map. reflexivity.
Qed.

Lemma pairs_cons_r {T J : Type} (f : J * T -> bool) (a : T) (A : list T)
    (B : list J) :
  List.length (filter f (list_prod B (a :: A))) =
  (List.length (filter (fun b => f (b, a)) B)
   + List.length (filter f (list_prod B A)))%nat.
Proof.
  induction B as [| b B IH]; [reflexivity |].
  cbn [list_prod map]. cbn [app filter].
  rewrite !filter_app, !length_app.
  destruct (f (b, a)); cbn [List.length]; rewrite ?length_app, IH; lia.
Qed.

Lemma pairs_swap {T J : Type} (rel : T -> J -> bool) (A : list T) (B : list J) :
  List.length (filter (fun bt => rel (snd bt) (fst bt)) (list_prod B A)) =
  List.length (filter (fun tb => rel (fst tb) (snd tb)) (list_prod A B)).
Proof.
  induction A as [| a A IH].
  - induction B as [| b B IHB]; [reflexivity | exact IHB].
  - rewrite pairs_cons_r, IH. cbn [list_prod fst snd].
    rewrite filter_app, length_app, filter_map_swap, length_map.
    reflexivity.
Qed.

Lemma matched_le_sum_Join_Count {T} (joined : list (row T)) :
  Forall (fun r => 0 <= Join_Count r) joined ->
  GetCount (Select_Join_Count_ne_0 joined) <= sum_Join_Count joined.
Proof.
  unfold GetCount, Select_Join_Count_ne_0.
  induction 1 as [| r joined Hr _ IH]; [reflexivity |].
  cbn [filter sum_Join_Count fold_right].
  fold (sum_Join_Count joined).
  destruct (Z.eqb_spec (Join_Count r) 0) as [E | N]; cbn [negb List.length]; lia.
Qed.

Lemma SpatialJoin_Join_Count_nonneg {T J : Type} (rel : T -> J -> bool)
    (A : list T) (B : list J) :
  Forall (fun r => 0 <= Join_Count r) (SpatialJoin rel A B).
Proof.
  unfold SpatialJoin. apply Forall_map. apply Forall_forall.
  intros t _. cbn [Join_Count]. lia.
Qed.

(** The Join_Count columns of the two joins have the same sum: each counts
    the pairs of a detected polygon and a ground-truth point that intersect;
    and no table has more matched rows than there are such pairs. *)
Theorem joins_count_the_same_pairs {P G : Type} (intersects : P -> G -> bool)
    (polygons : list P) (points : list G) :
  sum_Join_Count (SpatialJoin intersects polygons points) =
  sum_Join_Count (SpatialJoin (fun g p => intersects p g) points polygons) /\
  sum_Join_Count (SpatialJoin intersects polygons points) =
  Z.of_nat (List.length (filter (fun pg => intersects (fst pg) (snd pg))
                                (list_prod polygons points))) /\
  (let c := count_rows (SpatialJoin intersects polygons points)
                       (SpatialJoin (fun g p => intersects p g) points polygons) in
   TP c <= sum_Join_Count (SpatialJoin intersects polygons points) /\
   TP_2 c <= sum_Join_Count (SpatialJoin intersects polygons points)).
Proof.
  assert (Hsame : sum_Join_Count (SpatialJoin intersects polygons points) =
                  sum_Join_Count (SpatialJoin (fun g p => intersects p g)
                                              points polygons)).
  { rewrite !sum_Join_Count_SpatialJoin. f_equal. symmetry.
    apply (pairs_swap intersects polygons points). }
  split; [exact Hsame |].
  split; [apply sum_Join_Count_SpatialJoin |].
  cbn [count_rows TP TP_2]. split.
  - apply matched_le_sum_Join_Count. apply SpatialJoin_Join_Count_nonneg.
  - rewrite Hsame.
    apply matched_le_sum_Join_Count. apply SpatialJoin_Join_Count_nonneg.
Qed.

End EvaluationExtras.

(* ================================================================== *)
(** * Part VI: further properties of the detection pipeline            *)
(* ================================================================== *)

Module PipelineExtras.

Import Pipeline.
Import PipelineFacts.
Local Open Scope string_scope.
Local Open Scope py_scope.

(** ** Invariants of the body that follow the values *)

(** As in [Invariant], but the body is followed with the paths and rasters
    it computes: [I] need only be kept by the calls of [body_calls] and by
    messages that are not error lines, and by the call of line 258 only
    when it thresholds the raster that lines 247-254 have opened. *)
Section Tracking.

Variables (w : world) (p : parameters).
Variables (I : state -> Prop) (E : exn -> state -> Prop).

Hypothesis T_message : forall st m,
  info m ->
  I st -> I (mkState (datasets st) (intermediates st) (messages st ++ [m]) (trace st)).
Hypothesis T_created : forall st path,
  I st -> I (mkState (path :: datasets st) (intermediates st) (messages st) (trace st)).
Hypothesis T_extend : forall st paths,
  incl paths (recorded_paths w p) ->
  I st -> I (mkState (datasets st) (intermediates st ++ paths) (messages st) (trace st)).
Hypothesis T_call : forall st c,
  In c (body_calls w p) -> ~ is_threshold c -> I st ->
  match fails w (List.length (trace st)) c with
  | None => I (logged st c None)
  | Some e => E e (logged st c (Some e))
  end.
Hypothesis T_threshold : forall st raster,
  blue_band_opened p raster (trace st) -> I st ->
  match fails w (List.length (trace st)) (Con_GreaterThanEqual raster 150 1) with
  | None => I (logged st (Con_GreaterThanEqual raster 150 1) None)
  | Some e => E e (logged st (Con_GreaterThanEqual raster 150 1) (Some e))
  end.
Hypothesis T_band : forall st e,
  I st -> fails w (List.length (trace st)) (Raster (band_path p)) = Some e ->
  I (logged st (Raster (band_path p)) (Some e)).

Ltac in_body_calls :=
  unfold body_calls; rewrite in_app_iff; cbn [In]; right; find_disjunct.

Lemma trk_ret {A} (a : A) : hoare I (ret a) (fun _ => I) E.
Proof. apply hoare_ret. auto. Qed.

Lemma trk_addMessage (s : string) : hoare I (addMessage s) (fun _ => I) E.
Proof. intros st H. cbn. apply T_message; [exact Logic.I | exact H]. Qed.

Lemma trk_addWarningMessage (s : string) :
  hoare I (addWarningMessage s) (fun _ => I) E.
Proof. intros st H. cbn. apply T_message; [exact Logic.I | exact H]. Qed.

Lemma trk_created (path : string) : hoare I (created path) (fun _ => I) E.
Proof. intros st H. cbn. apply T_created. exact H. Qed.

Lemma trk_extend (paths : list string) :
  incl paths (recorded_paths w p) -> hoare I (extend paths) (fun _ => I) E.
Proof. intros Hp st H. cbn. apply T_extend; assumption. Qed.

Lemma trk_append (path : string) :
  In path (recorded_paths w p) -> hoare I (append path) (fun _ => I) E.
Proof.
  intros Hp st H. cbn. apply T_extend; [| exact H].
  intros x [<- | []]. exact Hp.
Qed.

Lemma trk_arcpy (c : call) :
  In c (body_calls w p) -> ~ is_threshold c ->
  hoare I (arcpy w c) (fun _ => I) E.
Proof.
  intros Hc Hn st H. unfold arcpy. pose proof (@T_call st c Hc Hn H) as Hcall.
  unfold logged in Hcall.
  destruct (fails w (List.length (trace st)) c); exact Hcall.
Qed.

Lemma trk_run_save (c : call) (name : string) :
  In c (body_calls w p) -> ~ is_threshold c ->
  In (save (tmp_path w (workspace p) name)) (body_calls w p) ->
  hoare I (run_save w c (tmp_path w (workspace p) name)) (fun _ => I) E.
Proof.
  intros Hc Hn Hs. unfold run_save.
  eapply hoare_bind; [apply trk_arcpy; assumption | intros _u].
  eapply hoare_bind; [apply trk_arcpy; [exact Hs | exact (fun H => H)] | intros _v].
  apply trk_created.
Qed.

Lemma trk_run_out (c : call) (out : string) :
  In c (body_calls w p) -> ~ is_threshold c ->
  hoare I (run_out w c out) (fun _ => I) E.
Proof.
  intros Hc Hn. unfold run_out.
  eapply hoare_bind; [apply trk_arcpy; assumption | intros _u].
  apply trk_created.
Qed.

Lemma trk_tmp (name : string) :
  hoare I (_tmp w (workspace p) name)
        (fun r st => r = tmp_path w (workspace p) name /\ I st) E.
Proof.
  unfold _tmp, tmp_path.
  eapply hoare_bind;
    [apply trk_arcpy; [in_body_calls | exact (fun H => H)] | intros _u].
  destruct (workspaceType w (workspace p) =? "FileSystem");
    [destruct (endswith (lower name) ".shp") |];
    apply hoare_ret; auto.
Qed.

Lemma trk_tmp_shp (name : string) :
  hoare I (_tmp_shp w (workspace p) name)
        (fun r st => r = tmp_shp_path w (workspace p) name /\ I st) E.
Proof.
  unfold _tmp_shp, tmp_shp_path.
  eapply hoare_bind; [apply trk_tmp | intros r].
  apply hoare_pure_pre. intros ->. apply hoare_ret. auto.
Qed.

Lemma trk_ensure_Shape_Area (dataset : string) :
  In (ListFields dataset) (body_calls w p) ->
  In (AddField dataset "Shape_Area" "DOUBLE") (body_calls w p) ->
  In (CalculateField dataset "Shape_Area" "!shape.area!") (body_calls w p) ->
  hoare I (ensure_Shape_Area w dataset) (fun _ => I) E.
Proof.
  intros H1 H2 H3. unfold ensure_Shape_Area.
  eapply hoare_bind;
    [apply trk_arcpy; [exact H1 | exact (fun H => H)] | intros _u].
  eapply hoare_bind;
    [| intros _v; apply trk_arcpy; [exact H3 | exact (fun H => H)]].
  destruct (existsb (String.eqb "Shape_Area") (field_names w dataset)).
  - apply trk_ret.
  - apply trk_arcpy; [exact H2 | exact (fun H => H)].
Qed.

(** Step 1 returns the raster to classify. *)
Lemma trk_step_1 :
  hoare I (step_1 w p) (fun r st => r = aerial_image_path w p /\ I st) E.
Proof.
  unfold step_1, aerial_image_path.
  eapply hoare_bind; [apply trk_addMessage | intros _u].
  destruct (mask_given p) eqn:Hmask.
  - eapply hoare_bind; [apply trk_addMessage | intros _v].
    eapply hoare_bind; [apply trk_tmp | intros r].
    apply hoare_pure_pre. intros ->.
    eapply hoare_bind; [apply trk_run_save | intros _x].
    + unfold body_calls. rewrite Hmask. left. reflexivity.
    + exact (fun H => H).
    + in_body_calls.
    + eapply hoare_bind with (R := fun _ => I);
        [| intros _y; apply hoare_ret; auto].
      apply trk_append. unfold recorded_paths. rewrite Hmask.
      left. reflexivity.
  - eapply hoare_bind; [apply trk_addWarningMessage | intros _v].
    apply hoare_ret. auto.
Qed.

Lemma blue_band_opened_app (raster : string) (t t' : list event) :
  blue_band_opened p raster t -> blue_band_opened p raster (t ++ t')%list.
Proof.
  intros [[H1 H2] | (H1 & [e H2] & H3)]; [left | right].
  - split; [exact H1 | apply in_or_app; left; exact H2].
  - split; [exact H1 |]. split.
    + exists e. apply in_or_app. left. exact H2.
    + apply in_or_app. left. exact H3.
Qed.

(** Lines 247-254 return the band they have opened, or the whole raster
    opened in its place. *)
Lemma trk_open_blue_band :
  hoare I (open_blue_band w p)
        (fun r st => blue_band_opened p r (trace st) /\ I st) E.
Proof.
  assert (Hband : In (Raster (band_path p)) (body_calls w p)) by in_body_calls.
  assert (Hwhole : In (Raster (input_raster p)) (body_calls w p)) by in_body_calls.
  intros st H. unfold open_blue_band, try_except, bind, arcpy.
  pose proof (@T_call st (Raster (band_path p)) Hband (fun H => H) H) as Hok.
  pose proof (@T_band st) as Hfail. unfold logged in Hok, Hfail.
  destruct (fails w (List.length (trace st)) (Raster (band_path p))) as [e |].
  - specialize (Hfail e H eq_refl).
    pose proof (@T_call _ (Raster (input_raster p)) Hwhole (fun H => H) Hfail)
      as Hnext.
    unfold logged in Hnext. cbn [trace datasets intermediates messages] in Hnext |- *.
    destruct (fails w (List.length (trace st ++ [(Raster (band_path p), Some e)]))
                    (Raster (input_raster p))) as [e' |].
    + exact Hnext.
    + cbn. split.
      * right. split; [reflexivity |]. split.
        -- exists e. apply in_or_app. left. apply in_or_app. right.
           left. reflexivity.
        -- apply in_or_app. right. left. reflexivity.
      * exact (@T_message _ (WarningMessage _) Logic.I Hnext).
  - cbn. split; [| exact Hok].
    left. split; [reflexivity |]. apply in_or_app. right. left. reflexivity.
Qed.

(** [_tmp] between the opening and the thresholding. *)
Lemma trk_tmp_opened (raster name : string) :
  hoare (fun st => blue_band_opened p raster (trace st) /\ I st)
        (_tmp w (workspace p) name)
        (fun r st => r = tmp_path w (workspace p) name /\
                     (blue_band_opened p raster (trace st) /\ I st)) E.
Proof.
  assert (Hd : In (Describe (workspace p)) (body_calls w p)) by in_body_calls.
  intros st [Hopen H]. unfold _tmp, tmp_path, bind, arcpy.
  pose proof (@T_call st (Describe (workspace p)) Hd (fun H => H) H) as Hok.
  unfold logged in Hok.
  destruct (fails w (List.length (trace st)) (Describe (workspace p))) as [e |];
    [exact Hok |].
  destruct (workspaceType w (workspace p) =? "FileSystem");
    [destruct (endswith (lower name) ".shp") |];
    cbn; (split; [reflexivity |]); (split; [| exact Hok]);
    apply blue_band_opened_app; exact Hopen.
Qed.

(** Line 258. *)
Lemma trk_run_save_threshold (raster name : string) :
  In (save (tmp_path w (workspace p) name)) (body_calls w p) ->
  hoare (fun st => blue_band_opened p raster (trace st) /\ I st)
        (run_save w (Con_GreaterThanEqual raster 150 1)
                  (tmp_path w (workspace p) name))
        (fun _ => I) E.
Proof.
  intros Hs. unfold run_save.
  eapply hoare_bind with (R := fun _ => I).
  - intros st [Hopen H]. unfold arcpy.
    pose proof (@T_threshold st raster Hopen H) as Hcall. unfold logged in Hcall.
    destruct (fails w (List.length (trace st)) (Con_GreaterThanEqual raster 150 1));
      exact Hcall.
  - intros _u.
    eapply hoare_bind;
      [apply trk_arcpy; [exact Hs | exact (fun H => H)] | intros _v].
    apply trk_created.
Qed.

Ltac in_recorded_paths :=
  unfold recorded_paths; rewrite !in_app_iff; cbn [map In]; find_disjunct.

Ltac track_step :=
  cbv beta;
  lazymatch goal with
  | |- hoare (fun st => blue_band_opened _ _ _ /\ _) (bind (_tmp _ _ _) _) _ _ =>
      eapply hoare_bind; [apply trk_tmp_opened | intros ?]
  | |- hoare (fun st => blue_band_opened _ _ _ /\ _) (bind (run_save _ _ _) _) _ _ =>
      eapply hoare_bind; [apply trk_run_save_threshold; in_body_calls | intros ?]
  | |- hoare (fun st => _ = _ /\ _) _ _ _ =>
      apply hoare_pure_pre; intros ->
  | |- hoare _ (bind (addMessage _) _) _ _ =>
      eapply hoare_bind; [apply trk_addMessage | intros ?]
  | |- hoare _ (bind (_tmp _ _ _) _) _ _ =>
      eapply hoare_bind; [apply trk_tmp | intros ?]
  | |- hoare _ (bind (_tmp_shp _ _ _) _) _ _ =>
      eapply hoare_bind; [apply trk_tmp_shp | intros ?]
  | |- hoare _ (bind (run_save _ _ _) _) _ _ =>
      eapply hoare_bind;
      [apply trk_run_save; [in_body_calls | exact (fun H => H) | in_body_calls]
      | intros ?]
  | |- hoare _ (bind (run_out _ _ _) _) _ _ =>
      eapply hoare_bind;
      [apply trk_run_out; [in_body_calls | exact (fun H => H)] | intros ?]
  | |- hoare _ (bind (ensure_Shape_Area _ _) _) _ _ =>
      eapply hoare_bind;
      [apply trk_ensure_Shape_Area; in_body_calls | intros ?]
  | |- hoare _ (bind (append _) _) _ _ =>
      eapply hoare_bind; [apply trk_append; in_recorded_paths | intros ?]
  | |- hoare _ (bind (extend _) _) _ _ =>
      eapply hoare_bind;
      [apply trk_extend; intros ? [<- | [<- | []]]; in_recorded_paths | intros ?]
  | |- hoare _ (bind (step_1 _ _) _) _ _ =>
      eapply hoare_bind; [apply trk_step_1 | intros ?]
  | |- hoare _ (bind (open_blue_band _ _) _) _ _ =>
      eapply hoare_bind; [apply trk_open_blue_band | intros ?]
  end.

(** The body keeps [I] when it returns and ends in [E] when it raises. *)
Lemma trk_body : hoare I (body w p) (fun _ => I) E.
Proof.
  unfold body. repeat track_step; apply trk_addMessage.
Qed.

(** So does the body with the two [except] clauses, when the error line
    leads from [E] to [E]. *)
Lemma trk_try_body :
  (forall e st, E e st ->
     E e (mkState (datasets st) (intermediates st)
                  (messages st ++ [ErrorMessage (error_report e)]) (trace st))) ->
  hoare I (try_except (body w p) handler) (fun _ => I) E.
Proof.
  intros HE. eapply hoare_try_except; [apply trk_body |].
  intros e st H. unfold handler, bind, addErrorMessage, raise. cbn.
  apply HE. exact H.
Qed.

End Tracking.

(** ** The structure of a run *)

(** The loop of lines 341-346 only makes [Delete] calls. *)
Lemma for_each_delete_events (w : world) (l : list string) (st : state) :
  exists dels,
    trace (snd (for_each l (delete_intermediate w) st)) = (trace st ++ dels)%list /\
    Forall (fun ev => is_delete (fst ev)) dels.
Proof.
  revert st. induction l as [| a l IH]; intros st.
  - exists []. cbn. rewrite app_nil_r. split; [reflexivity | constructor].
  - cbn [for_each]. unfold bind.
    assert (Hone : exists st1 d1,
               delete_intermediate w a st = (Ok tt, st1) /\
               trace st1 = (trace st ++ d1)%list /\
               Forall (fun ev => is_delete (fst ev)) d1).
    { unfold delete_intermediate, try_except, bind, Exists, arcpy, removed, ret.
      destruct (existsb (String.eqb a) (datasets st)).
      - destruct (fails w (List.length (trace st)) (Delete a)) as [e |];
          eexists; eexists; (split; [reflexivity |]); cbn [trace];
          (split; [reflexivity |]); constructor; try exact Logic.I; constructor.
      - exists st, []. rewrite app_nil_r.
        split; [reflexivity |]. split; [reflexivity | constructor]. }
    destruct Hone as (st1 & d1 & E1 & Ht1 & Hd1). rewrite E1.
    destruct (IH st1) as (d2 & Ht2 & Hd2).
    exists (d1 ++ d2)%list. split.
    + rewrite Ht2, Ht1, app_assoc. reflexivity.
    + apply Forall_app. split; assumption.
Qed.

(** What the [finally] block adds to the trace: deletions of recorded paths,
    none twice, then the check-in. *)
Lemma cleanup_trace (w : world) (st : state) :
  exists st' dels o,
    cleanup w st = (Ok tt, st') /\
    trace st' = (trace st ++ dels ++ [(CheckInExtension "Spatial", o)])%list /\
    Forall (fun ev => exists path,
                fst ev = Delete path /\ In path (intermediates st)) dels /\
    NoDup (deleted_paths dels) /\
    messages st' = messages st /\
    intermediates st' = intermediates st.
Proof.
  destruct (cleanup_swept w st)
    as (st' & E & (Hi & Hm & (post & Ht & _ & _ & _ & Hd & Hn) & _ & _) & _).
  exists st'.
  assert (Hpost : exists dels o,
             post = (dels ++ [(CheckInExtension "Spatial", o)])%list /\
             Forall (fun ev => is_delete (fst ev)) dels).
  { revert E Ht. unfold cleanup, bind.
    destruct (for_each_delete_events w (set (intermediates st)) st)
      as (dels & Htd & Hdels).
    destruct (for_each (set (intermediates st)) (delete_intermediate w) st)
      as [[[] | e] st1] eqn:Eloop.
    - cbn [snd] in Htd. unfold try_except, arcpy, ret.
      destruct (fails w (List.length (trace st1)) (CheckInExtension "Spatial"))
        as [e |]; intros E Ht; injection E as <-; cbn [trace] in Ht;
        rewrite Htd, <- app_assoc in Ht; apply app_inv_head in Ht;
        eexists; eexists; (split; [symmetry; exact Ht | exact Hdels]).
    - intros E. discriminate E. }
  destruct Hpost as (dels & o & -> & Hdels).
  exists dels, o. split; [exact E |]. split; [exact Ht |].
  split; [| split; [| split; assumption]].
  - apply Forall_forall. intros [c oc] Hin.
    rewrite Forall_forall in Hdels. specialize (Hdels _ Hin). cbn [fst] in *.
    destruct c; try contradiction. eexists. split; [reflexivity |].
    apply (Hd _ oc). apply in_or_app. left. exact Hin.
  - unfold deleted_paths in *. rewrite flat_map_app in Hn. cbn in Hn.
    rewrite app_nil_r in Hn. exact Hn.
Qed.

(** A call of the body is none of the calls made outside it. *)
Lemma body_call_inside (w : world) (p : parameters) (c : call) :
  In c (body_calls w p) ->
  (forall ext, c <> CheckOutExtension ext) /\
  (forall ext, c <> CheckInExtension ext) /\
  (forall path, c <> Delete path).
Proof.
  unfold body_calls. rewrite in_app_iff. cbn [In].
  intros [H | H].
  - destruct (mask_given p); [| contradiction].
    destruct H as [<- | []]. repeat split; discriminate.
  - repeat (destruct H as [<- | H]; [repeat split; discriminate |]).
    contradiction.
Qed.

Lemma mask_given_Some (p : parameters) :
  mask_given p = true -> exists m, mask_layer p = Some m.
Proof.
  unfold mask_given. destruct (mask_layer p) as [m |]; [| discriminate].
  intros _. exists m. reflexivity.
Qed.

(** The calls of the body are made with the arguments that [wired] names. *)
Lemma body_calls_wired (w : world) (p : parameters) (c : call) :
  In c (body_calls w p) -> wired w p c.
Proof.
  unfold body_calls. rewrite in_app_iff. cbn [In].
  intros [H | H].
  - destruct (mask_given p) eqn:Hmask; [| contradiction].
    destruct H as [<- | []]. cbn. left.
    destruct (mask_given_Some p Hmask) as [m Hm]. rewrite Hm. auto.
  - repeat (destruct H as [<- | H]; [cbn; auto 10 |]).
    contradiction.
Qed.

(** The three ways a run can go: a check fails before any call; the
    check-out raises; or the body is entered, and then the trace is the
    check-out, calls of the body, deletions of recorded paths and the
    check-in, and the messages hold an error line exactly when the run
    raises, as their last line. *)
Lemma run_structure (w : world) (p : parameters) (existing : list string) :
  (exists msg, run w p existing = (Raise (ExecuteError msg), init_state existing)) \/
  (exists e, run w p existing =
             (Raise e, logged (init_state existing)
                              (CheckOutExtension "Spatial") (Some e))) \/
  (exists r st stage dels o,
      run w p existing = (r, st) /\
      trace st = ((CheckOutExtension "Spatial", None)
                  :: stage ++ dels ++ [(CheckInExtension "Spatial", o)])%list /\
      Forall (fun ev => In (fst ev) (body_calls w p)) stage /\
      Forall (fun ev => exists path,
                  fst ev = Delete path /\ In path (recorded_paths w p)) dels /\
      NoDup (deleted_paths dels) /\
      match r with
      | Ok _ => Forall info (messages st)
      | Raise e =>
          exists ms, messages st = (ms ++ [ErrorMessage (error_report e)])%list /\
                     Forall info ms
      end).
Proof.
  pose (J := fun st : state =>
               (exists t, trace st = (CheckOutExtension "Spatial", None) :: t /\
                          Forall (fun ev => In (fst ev) (body_calls w p)) t) /\
               incl (intermediates st) (recorded_paths w p) /\
               Forall info (messages st)).
  assert (Hlog : forall st c o, In c (body_calls w p) -> J st -> J (logged st c o)).
  { intros st c o Hc ((t & Ht & Hall) & H2 & H3). unfold J, logged. cbn.
    split; [| split; assumption].
    exists (t ++ [(c, o)])%list. split; [rewrite Ht; reflexivity |].
    apply Forall_app. split; [exact Hall |]. constructor; [exact Hc | constructor]. }
  assert (Hbody : hoare J (body w p) (fun _ => J) (fun _ => J)).
  { apply trk_body.
    - intros st m Hm (H1 & H2 & H3). unfold J. cbn.
      split; [exact H1 |]. split; [exact H2 |].
      apply Forall_app. split; [exact H3 |]. constructor; [exact Hm | constructor].
    - intros st path H. exact H.
    - intros st paths Hp (H1 & H2 & H3). unfold J. cbn.
      split; [exact H1 |]. split; [| exact H3]. apply incl_app; assumption.
    - intros st c Hc _ H.
      destruct (fails w (List.length (trace st)) c); apply Hlog; assumption.
    - intros st raster Hopen H.
      assert (Hc : In (Con_GreaterThanEqual raster 150 1) (body_calls w p)).
      { unfold body_calls. rewrite in_app_iff. cbn [In]. right.
        destruct Hopen as [[-> _] | [-> _]]; find_disjunct. }
      destruct (fails w (List.length (trace st)) (Con_GreaterThanEqual raster 150 1));
        apply Hlog; assumption.
    - intros st e H _. apply Hlog; [| exact H].
      unfold body_calls. rewrite in_app_iff. cbn [In]. right. find_disjunct. }
  unfold run, execute, bind.
  destruct (validate_cases w p (init_state existing)) as [Ev | [[e Ev] | [msg Ev]]];
    rewrite Ev.
  - right. right. unfold try_finally, try_except.
    assert (H0 : J (logged (init_state existing) (CheckOutExtension "Spatial") None)).
    { unfold J. cbn. split; [| split; [intros x [] | constructor]].
      exists []. split; [reflexivity | constructor]. }
    specialize (Hbody _ H0).
    destruct (body w p (logged (init_state existing)
                               (CheckOutExtension "Spatial") None))
      as [[[] | e] st1].
    + destruct Hbody as ((t & Ht & Hall) & Hrec & Hinfo).
      destruct (cleanup_trace w st1)
        as (st2 & dels & o & E & Htr & Hdels & Hn & Hm & _).
      rewrite E. exists (Ok tt), st2, t, dels, o.
      split; [reflexivity |]. split; [rewrite Htr, Ht; reflexivity |].
      split; [exact Hall |]. split; [| split; [exact Hn | rewrite Hm; exact Hinfo]].
      eapply Forall_impl; [| exact Hdels].
      intros ev (path & Hp1 & Hp2). exists path. split; [exact Hp1 |].
      apply Hrec. exact Hp2.
    + destruct Hbody as ((t & Ht & Hall) & Hrec & Hinfo).
      unfold handler, bind, addErrorMessage, raise.
      match goal with
      | |- context [cleanup w ?s] =>
          destruct (cleanup_trace w s)
            as (st2 & dels & o & E & Htr & Hdels & Hn & Hm & _)
      end.
      rewrite E. exists (Raise e), st2, t, dels, o.
      cbn [trace messages intermediates] in *.
      split; [reflexivity |]. split; [rewrite Htr, Ht; reflexivity |].
      split; [exact Hall |]. split; [| split; [exact Hn |]].
      * eapply Forall_impl; [| exact Hdels].
        intros ev (path & Hp1 & Hp2). exists path. split; [exact Hp1 |].
        apply Hrec. exact Hp2.
      * exists (messages st1). split; [exact Hm | exact Hinfo].
  - right. left. exists e. reflexivity.
  - left. exists msg. reflexivity.
Qed.

(** ** What is thresholded *)

Lemma snoc_split {A} (l pre post : list A) (a b : A) :
  (l ++ [a])%list = (pre ++ b :: post)%list ->
  (post = [] /\ l = pre /\ a = b) \/
  (exists post', post = (post' ++ [a])%list /\ l = (pre ++ b :: post')%list).
Proof.
  induction post as [| x post _] using rev_ind; intros H.
  - left. apply app_inj_tail in H. destruct H as [H1 H2]. auto.
  - right. exists post.
    rewrite app_comm_cons, app_assoc in H. apply app_inj_tail in H.
    destruct H as [H1 H2]. subst x. split; [reflexivity | exact H1].
Qed.

Lemma thresholds_snoc (p : parameters) (t : list event) (c : call) (o : option exn) :
  thresholds_follow_opening p t ->
  (forall raster threshold value,
      c = Con_GreaterThanEqual raster threshold value ->
      blue_band_opened p raster t /\ threshold = 150%Z /\ value = 1%Z) ->
  thresholds_follow_opening p (t ++ [(c, o)]).
Proof.
  intros Ht Hc before raster threshold value o' after Heq.
  apply snoc_split in Heq.
  destruct Heq as [(_ & -> & Hev) | (after' & _ & Hsplit)].
  - injection Hev as -> _. apply (Hc raster threshold value). reflexivity.
  - exact (Ht _ _ _ _ _ _ Hsplit).
Qed.

Lemma thresholds_app (p : parameters) (t l : list event) :
  thresholds_follow_opening p t ->
  Forall (fun ev => ~ is_threshold (fst ev)) l ->
  thresholds_follow_opening p (t ++ l).
Proof.
  intros Ht Hl. revert t Ht. induction Hl as [| [c o] l Hc Hl IH]; intros t Ht.
  - rewrite app_nil_r. exact Ht.
  - change ((c, o) :: l) with ([(c, o)] ++ l)%list. rewrite app_assoc.
    apply IH. apply thresholds_snoc; [exact Ht |].
    intros raster threshold value ->. contradiction Hc. exact Logic.I.
Qed.

(** In every run, each call of line 258 thresholds the raster that lines
    247-254 have opened before it. *)
Lemma run_thresholds (w : world) (p : parameters) (existing : list string) :
  thresholds_follow_opening p (trace (snd (run w p existing))).
Proof.
  pose (K := fun st : state => thresholds_follow_opening p (trace st)).
  assert (Hlog : forall st c o, ~ is_threshold c -> K st -> K (logged st c o)).
  { intros st c o Hc H. unfold K, logged. cbn [trace].
    apply thresholds_snoc; [exact H |].
    intros raster threshold value ->. contradiction Hc. exact Logic.I. }
  assert (Hbody : hoare K (try_except (body w p) handler)
                        (fun _ => K) (fun _ => K)).
  { apply trk_try_body.
    - intros st m _ H. exact H.
    - intros st path H. exact H.
    - intros st paths _ H. exact H.
    - intros st c _ Hc H.
      destruct (fails w (List.length (trace st)) c); apply Hlog; assumption.
    - intros st raster Hopen H.
      assert (Hnext : forall o,
                 K (logged st (Con_GreaterThanEqual raster 150 1) o)).
      { intros o. unfold K, logged. cbn [trace].
        apply thresholds_snoc; [exact H |].
        intros r th v Heq. injection Heq as <- <- <-. auto. }
      destruct (fails w (List.length (trace st)) (Con_GreaterThanEqual raster 150 1));
        apply Hnext.
    - intros st e H _. apply Hlog; [exact (fun H => H) | exact H].
    - intros e st H. exact H. }
  assert (H0 : K (init_state existing)).
  { intros before raster threshold value o after Heq.
    destruct before; discriminate Heq. }
  unfold run, execute, bind.
  destruct (validate_cases w p (init_state existing)) as [Ev | [[e Ev] | [msg Ev]]];
    rewrite Ev.
  - unfold try_finally.
    specialize (Hbody _ (Hlog _ (CheckOutExtension "Spatial") None
                              (fun H => H) H0)).
    destruct (try_except (body w p) handler
                (logged (init_state existing) (CheckOutExtension "Spatial") None))
      as [r st1].
    assert (H1 : K st1) by (destruct r; exact Hbody).
    destruct (cleanup_swept w st1)
      as (st2 & E & (_ & _ & (post & Ht & Hpost & _ & _ & _ & _) & _ & _) & _).
    rewrite E. cbn [snd]. rewrite Ht. apply thresholds_app; [exact H1 |].
    eapply Forall_impl; [| exact Hpost].
    intros [c o] Hev. cbn [fst]. unfold cleanup_event in Hev. cbn [fst] in Hev.
    destruct c; try contradiction; exact (fun H => H).
  - cbn [snd]. apply Hlog; [exact (fun H => H) | exact H0].
  - cbn [snd]. exact H0.
Qed.

(** The parameters reach the tools as [wired] says, in every run and
    whatever fails: the mask extraction reads the input raster and the
    forest mask; the classification reads the masked raster when a forest
    mask is given (a mask of white space is none) and the input raster
    otherwise, with [number_classes] classes; the first selection uses
    [min_area], the buffer [buffer_distance], the second selection
    [min_buffer_area]; the result is copied to [output_features]; only
    recorded paths are deleted.  And the threshold of 150 is applied to the
    raster that has been opened before: to the band where the band has been
    opened by its path, to the whole raster where that opening has raised
    and the whole raster has been opened in its place. *)
Theorem run_wired (w : world) (p : parameters) (existing : list string) :
  (forall (c : call) (o : option exn),
      In (c, o) (trace (snd (run w p existing))) -> wired w p c) /\
  (forall (before : list event) (raster : string) (threshold value : Z)
          (o : option exn) (after : list event),
      trace (snd (run w p existing)) =
      (before ++ (Con_GreaterThanEqual raster threshold value, o) :: after)%list ->
      blue_band_opened p raster before).
Proof.
  split.
  - intros c o.
    destruct (run_structure w p existing)
      as [[msg E] | [[e E] | (r & st & stage & dels & o' & E & Ht & Hs & Hd & _)]];
      rewrite E; cbn [snd].
    + intros [].
    + cbn. intros [H | []]. injection H as <- _. exact Logic.I.
    + rewrite Ht. cbn [In]. intros [H | H].
      * injection H as <- _. exact Logic.I.
      * apply in_app_or in H. destruct H as [H | H].
        -- rewrite Forall_forall in Hs. apply body_calls_wired. exact (Hs _ H).
        -- apply in_app_or in H. destruct H as [H | [H | []]].
           ++ rewrite Forall_forall in Hd. destruct (Hd _ H) as (path & Hc & Hp).
              cbn [fst] in Hc. subst c. exact Hp.
           ++ injection H as <- _. exact Logic.I.
  - intros before raster threshold value o after Heq.
    exact (proj1 (run_thresholds w p existing _ _ _ _ _ _ Heq)).
Qed.

(** [run_wired] on three runs: with a forest mask, the raster that is
    classified is the masked copy; with a mask that is a no-break space,
    it is the input raster; and where the band cannot be opened by its
    path, the raster that is thresholded is the input raster, opened after
    the failure. *)
Lemma run_wired_witness :
  wired calm masked_tile
        (IsoClusterUnsupervisedClassification "C:\work\aerial_image.tif" 10 1000 10) /\
  wired calm blank_mask_tile
        (IsoClusterUnsupervisedClassification "C:\data\tile6.tif" 10 1000 10) /\
  blue_band_opened tile "C:\data\tile6.tif"
    (firstn 10 (trace (snd (run single_band tile tile_existing)))).
Proof.
  split; [| split].
  - apply (proj1 (run_wired calm masked_tile masked_tile_existing) _ None).
    vm_compute. find_disjunct.
  - apply (proj1 (run_wired calm blank_mask_tile blank_mask_tile_existing) _ None).
    vm_compute. find_disjunct.
  - apply (proj2 (run_wired single_band tile tile_existing)
             _ _ 150%Z 1%Z None
             (skipn 11 (trace (snd (run single_band tile tile_existing))))).
    vm_compute. reflexivity.
Defined.

(** The Spatial Analyst extension is checked in exactly when it was checked
    out, once, as the last call of the run: a run makes no call at all, or
    only a check-out that raises, or a check-out that succeeds, then calls
    that are neither check-out nor check-in, then one check-in. *)
Theorem run_license (w : world) (p : parameters) (existing : list string) :
  trace (snd (run w p existing)) = [] \/
  (exists e, trace (snd (run w p existing)) =
             [(CheckOutExtension "Spatial", Some e)] /\
             fst (run w p existing) = Raise e) \/
  (exists middle o,
      trace (snd (run w p existing)) =
      ((CheckOutExtension "Spatial", None)
       :: middle ++ [(CheckInExtension "Spatial", o)])%list /\
      Forall (fun ev => forall ext, fst ev <> CheckOutExtension ext /\
                                    fst ev <> CheckInExtension ext) middle).
Proof.
  destruct (run_structure w p existing)
    as [[msg E] | [[e E] | (r & st & stage & dels & o & E & Ht & Hs & Hd & _)]];
    rewrite E; cbn [fst snd].
  - left. reflexivity.
  - right. left. exists e. split; reflexivity.
  - right. right. exists (stage ++ dels)%list, o. split.
    + rewrite Ht, <- app_assoc. reflexivity.
    + apply Forall_app. split.
      * eapply Forall_impl; [| exact Hs]. intros ev Hev ext.
        destruct (body_call_inside w p _ Hev) as (H1 & H2 & _).
        split; [apply H1 | apply H2].
      * eapply Forall_impl; [| exact Hd]. intros ev (path & Hc & _) ext.
        rewrite Hc. split; discriminate.
Qed.

(** An error line is written exactly when the run raises inside the [try]
    block, and then once, as the last message: a run that ends normally
    writes none, and a run that raises has either written nothing at all (a
    check before the [try] failed) or ends its messages with the one error
    line, which reports the exception raised. *)
Theorem run_error_line (w : world) (p : parameters) (existing : list string) :
  (fst (run w p existing) = Ok tt ->
   Forall info (messages (snd (run w p existing)))) /\
  (forall e, fst (run w p existing) = Raise e ->
     messages (snd (run w p existing)) = [] \/
     exists ms,
       messages (snd (run w p existing)) =
       (ms ++ [ErrorMessage (error_report e)])%list /\
       Forall info ms).
Proof.
  destruct (run_structure w p existing)
    as [[msg E] | [[e E] | (r & st & stage & dels & o & E & _ & _ & _ & _ & Hm)]];
    rewrite E; cbn [fst snd].
  - split; [discriminate |]. intros e _. left. reflexivity.
  - split; [discriminate |]. intros e' _. left. reflexivity.
  - destruct r as [[] | e].
    + split; [intros _; exact Hm | discriminate].
    + split; [discriminate |]. intros e' He. injection He as <-.
      right. exact Hm.
Qed.

(** [run_error_line] on a run that ends normally and on one in which
    [Expand] fails. *)
Lemma run_error_line_witness :
  Forall info (messages (snd (run calm tile tile_existing))) /\
  (messages (snd (run expand_fails tile tile_existing)) = [] \/
   exists ms,
     messages (snd (run expand_fails tile tile_existing)) =
     (ms ++ [ErrorMessage
               (error_report
                  (ExecuteError "ERROR 010067: Error in executing grid expression."))])%list /\
     Forall info ms).
Proof.
  split.
  - apply (proj1 (run_error_line calm tile tile_existing)). reflexivity.
  - apply (proj2 (run_error_line expand_fails tile tile_existing)).
    vm_compute. reflexivity.
Defined.

(** ** What a successful run leaves behind *)

Lemma hoare_True {A} (P : state -> Prop) (m : M A) :
  hoare P m (fun _ _ => True) (fun _ _ => True).
Proof. intros st _. destruct (m st) as [[a | e] st']; exact Logic.I. Qed.

Section Outputs.

Variables (w : world) (p : parameters).

Lemma tmp_shp_value (name : string) (P : state -> Prop) :
  hoare P (_tmp_shp w (workspace p) name)
        (fun r _ => r = tmp_shp_path w (workspace p) name) (fun _ _ => True).
Proof.
  intros st _. unfold _tmp_shp, _tmp, tmp_shp_path, tmp_path, bind, arcpy, ret.
  destruct (fails w (List.length (trace st)) (Describe (workspace p)));
    [exact Logic.I |].
  destruct (workspaceType w (workspace p) =? "FileSystem");
    [destruct (endswith (lower name) ".shp") |]; reflexivity.
Qed.

Lemma hoare_pure {A} (phi : Prop) (m : M A)
    (Q : A -> state -> Prop) (E : exn -> state -> Prop) :
  (phi -> hoare (fun _ => True) m Q E) -> hoare (fun _ => phi) m Q E.
Proof. intros H st Hphi. exact (H Hphi st Logic.I). Qed.

Lemma run_out_creates (c : call) (out : string) (P : state -> Prop) :
  hoare P (run_out w c out)
        (fun _ st => In out (datasets st)) (fun _ _ => True).
Proof.
  intros st _. unfold run_out, bind, arcpy, created.
  destruct (fails w (List.length (trace st)) c); [exact Logic.I |].
  cbn. left. reflexivity.
Qed.

Lemma run_out_keeps (c : call) (out x : string) :
  hoare (fun st => In x (datasets st)) (run_out w c out)
        (fun _ st => In x (datasets st) /\ In out (datasets st))
        (fun _ _ => True).
Proof.
  intros st H. unfold run_out, bind, arcpy, created.
  destruct (fails w (List.length (trace st)) c); [exact Logic.I |].
  cbn. split; [right; exact H | left; reflexivity].
Qed.

Lemma addMessage_datasets (s : string) (D : list string -> Prop) :
  hoare (fun st => D (datasets st)) (addMessage s)
        (fun _ st => D (datasets st)) (fun _ _ => True).
Proof. intros st H. exact H. Qed.

(** When the body returns, the last selection and the output are there. *)
Lemma body_outputs :
  hoare (fun _ => True) (body w p)
        (fun _ st =>
           In (tmp_shp_path w (workspace p) "trees_buffer_processed") (datasets st) /\
           In (output_features p) (datasets st))
        (fun _ _ => True).
Proof.
  unfold body.
  repeat lazymatch goal with
         | |- hoare _ (bind (_tmp_shp _ _ "trees_buffer_processed") _) _ _ => fail
         | |- hoare _ (bind _ _) _ _ =>
             eapply hoare_bind with (R := fun _ _ => True);
             [apply hoare_True | intros ?; cbv beta]
         end.
  eapply hoare_bind; [apply tmp_shp_value | intros r; cbv beta].
  apply hoare_pure. intros ->.
  eapply hoare_bind; [apply run_out_creates | intros ?; cbv beta].
  eapply hoare_bind; [apply run_out_keeps | intros ?; cbv beta].
  pose (D := fun ds : list string =>
               In (tmp_shp_path w (workspace p) "trees_buffer_processed") ds /\
               In (output_features p) ds).
  repeat (eapply hoare_bind; [apply (addMessage_datasets _ D) | intros ?; cbv beta]).
  apply (addMessage_datasets _ D).
Qed.

End Outputs.

Lemma run_outputs (w : world) (p : parameters) (existing : list string) :
  fst (run w p existing) = Ok tt ->
  forall x,
    x = tmp_shp_path w (workspace p) "trees_buffer_processed" \/
    x = output_features p ->
    ~ In x (recorded_paths w p) ->
    In x (datasets (snd (run w p existing))).
Proof.
  pose proof (run_recorded w p existing) as (Hrec & _ & _). revert Hrec.
  unfold run, execute, bind.
  destruct (validate_cases w p (init_state existing)) as [Ev | [[e Ev] | [msg Ev]]];
    rewrite Ev; cbn [fst snd]; try (intros _ H; discriminate H).
  unfold try_finally, try_except.
  pose proof (@body_outputs w p
                (logged (init_state existing) (CheckOutExtension "Spatial") None)
                Logic.I) as Hout.
  destruct (body w p (logged (init_state existing)
                             (CheckOutExtension "Spatial") None))
    as [[[] | e] st1].
  - destruct (cleanup_swept w st1) as (st2 & E & (Hi & _ & _ & _ & Hfr) & _).
    rewrite E. cbn [fst snd]. intros Hrec _ x Hx Hfree.
    apply Hfr.
    + intros Hin. apply Hfree. apply Hrec. rewrite Hi. exact Hin.
    + destruct Hout as [H1 H2]. destruct Hx as [-> | ->]; assumption.
  - unfold handler, bind, addErrorMessage, raise.
    match goal with
    | |- context [cleanup w ?s] =>
        destruct (cleanup_swept w s) as (st2 & E & _)
    end.
    rewrite E. cbn [fst]. intros _ H. discriminate H.
Qed.

(** After a run that ends normally the last temporary feature class,
    trees_buffer_processed, is still in the workspace: it is written by the
    second selection but never recorded for the cleanup. *)
Theorem run_leaves_trees_buffer_processed
    (w : world) (p : parameters) (existing : list string) :
  fst (run w p existing) = Ok tt ->
  ~ In (tmp_shp_path w (workspace p) "trees_buffer_processed")
       (recorded_paths w p) ->
  In (tmp_shp_path w (workspace p) "trees_buffer_processed")
     (datasets (snd (run w p existing))).
Proof.
  intros Hok Hfree. apply (run_outputs w p existing Hok); [left; reflexivity | exact Hfree].
Qed.

(** [run_leaves_trees_buffer_processed] on a run with a forest mask in which
    everything succeeds. *)
Lemma run_leaves_trees_buffer_processed_witness :
  In (tmp_shp_path calm (workspace masked_tile) "trees_buffer_processed")
     (datasets (snd (run calm masked_tile masked_tile_existing))).
Proof.
  apply run_leaves_trees_buffer_processed.
  - vm_compute. reflexivity.
  - vm_compute. intros H.
    repeat (destruct H as [H | H]; [discriminate H |]). exact H.
Defined.

(** [input_raster_kept] on a run in which the deletions fail. *)
Lemma input_raster_kept_witness :
  ~ In (input_raster tile) (intermediates (snd (run locked tile tile_existing))) /\
  (forall o, ~ In (Delete (input_raster tile), o)
                  (trace (snd (run locked tile tile_existing)))) /\
  (In (input_raster tile) tile_existing ->
   In (input_raster tile) (datasets (snd (run locked tile tile_existing)))).
Proof.
  apply input_raster_kept.
  vm_compute. intros H.
  repeat (destruct H as [H | H]; [discriminate H |]). exact H.
Defined.

(** ** Where a run writes *)

Lemma recorded_are_artifacts (w : world) (p : parameters) (x : string) :
  In x (recorded_paths w p) -> In x (artifact_paths w p).
Proof.
  unfold recorded_paths, artifact_paths. rewrite !in_app_iff. cbn [map In].
  intros [H | [H | H]].
  - destruct (mask_given p); [| contradiction].
    destruct H as [<- | []]. left. left. reflexivity.
  - repeat (destruct H as [<- | H]; [left; find_disjunct |]). contradiction.
  - repeat (destruct H as [<- | H]; [right; find_disjunct |]). contradiction.
Qed.

(** The calls of the body write to the temporary paths and to the output. *)
Lemma body_calls_targets (w : world) (p : parameters) (c : call) (path : string) :
  In c (body_calls w p) -> In path (targets c) ->
  In path (artifact_paths w p) \/ path = output_features p.
Proof.
  unfold body_calls, artifact_paths. rewrite !in_app_iff. cbn [map In].
  intros [H | H].
  - destruct (mask_given p); [| contradiction].
    destruct H as [<- | []]. intros [].
  - repeat (destruct H as [<- | H];
            [cbn [targets creates In]; intros Hp;
             first [ contradiction
                   | destruct Hp as [<- | []];
                     first [ right; reflexivity
                           | left; left; find_disjunct
                           | left; right; find_disjunct ] ] |]).
    contradiction.
Qed.

(** Whatever happens in a run, a path that it passes to a call that writes,
    changes or deletes a dataset is one of its fourteen temporary paths or
    the output path, and a path that it passes to [Delete] is one that it
    has recorded in [intermediates]. *)
Theorem run_writes_only_its_own_paths
    (w : world) (p : parameters) (existing : list string)
    (c : call) (o : option exn) (path : string) :
  In (c, o) (trace (snd (run w p existing))) ->
  In path (targets c) ->
  (In path (artifact_paths w p) \/ path = output_features p) /\
  (is_delete c -> In path (recorded_paths w p)).
Proof.
  destruct (run_structure w p existing)
    as [[msg E] | [[e E] | (r & st & stage & dels & o' & E & Ht & Hs & Hd & _)]];
    rewrite E; cbn [snd].
  - intros [].
  - cbn. intros [H | []]. injection H as <- _. intros [].
  - rewrite Ht. cbn [In]. intros [H | H].
    + injection H as <- _. intros [].
    + apply in_app_or in H. destruct H as [H | H].
      * rewrite Forall_forall in Hs. specialize (Hs _ H). cbn [fst] in Hs.
        intros Hp. split; [exact (body_calls_targets w p c path Hs Hp) |].
        intros Hdel. destruct (body_call_inside w p c Hs) as (_ & _ & Hno).
        destruct c; try contradiction. exfalso. exact (Hno _ eq_refl).
      * apply in_app_or in H. destruct H as [H | [H | []]].
        -- rewrite Forall_forall in Hd. destruct (Hd _ H) as (q & Hc & Hq).
           cbn [fst] in Hc. subst c. cbn [targets]. intros [<- | []].
           split; [left; apply recorded_are_artifacts; exact Hq |].
           intros _. exact Hq.
        -- injection H as <- _. intros [].
Qed.

(** [run_writes_only_its_own_paths] on the copy to the output and on a
    deletion, in a run in which everything succeeds. *)
Lemma run_writes_only_its_own_paths_witness :
  ((In "C:\out\dead_trees_final.shp" (artifact_paths calm tile) \/
    "C:\out\dead_trees_final.shp" = output_features tile) /\
   (is_delete (CopyFeatures "C:\work\trees_buffer_processed.shp"
                            "C:\out\dead_trees_final.shp") ->
    In "C:\out\dead_trees_final.shp" (recorded_paths calm tile))) /\
  In "C:\work\classified.tif" (recorded_paths calm tile).
Proof.
  split.
  - apply (@run_writes_only_its_own_paths calm tile tile_existing _ None).
    + vm_compute. find_disjunct.
    + left. reflexivity.
  - apply (@run_writes_only_its_own_paths calm tile tile_existing
             (Delete "C:\work\classified.tif") None).
    + vm_compute. find_disjunct.
    + left. reflexivity.
    + exact Logic.I.
Defined.

(** ** How a run that ends normally ends *)

Section LastCall.

Variables (w : world) (p : parameters).

Lemma run_out_last (c : call) (out : string) (P : state -> Prop) :
  hoare P (run_out w c out)
        (fun _ st => exists t, trace st = (t ++ [(c, None)])%list)
        (fun _ _ => True).
Proof.
  intros st _. unfold run_out, bind, arcpy, created.
  destruct (fails w (List.length (trace st)) c); [exact Logic.I |].
  cbn. exists (trace st). reflexivity.
Qed.

Lemma addMessage_trace (s : string) (T : list event -> Prop) :
  hoare (fun st => T (trace st)) (addMessage s)
        (fun _ st => T (trace st)) (fun _ _ => True).
Proof. intros st H. exact H. Qed.

(** When the body returns, its last call was the copy to the output. *)
Lemma body_ends_with_copy :
  hoare (fun _ => True) (body w p)
        (fun _ st =>
           exists t,
             trace st =
             (t ++ [(CopyFeatures
                       (tmp_shp_path w (workspace p) "trees_buffer_processed")
                       (output_features p), None)])%list)
        (fun _ _ => True).
Proof.
  unfold body.
  repeat lazymatch goal with
         | |- hoare _ (bind (_tmp_shp _ _ "trees_buffer_processed") _) _ _ => fail
         | |- hoare _ (bind _ _) _ _ =>
             eapply hoare_bind with (R := fun _ _ => True);
             [apply hoare_True | intros ?; cbv beta]
         end.
  eapply hoare_bind; [apply tmp_shp_value | intros r; cbv beta].
  apply hoare_pure. intros ->.
  eapply hoare_bind with (R := fun _ _ => True);
    [apply hoare_True | intros ?; cbv beta].
  eapply hoare_bind; [apply run_out_last | intros ?; cbv beta].
  pose (T := fun t0 : list event =>
               exists t,
                 t0 = (t ++ [(CopyFeatures
                                (tmp_shp_path w (workspace p) "trees_buffer_processed")
                                (output_features p), None)])%list).
  repeat (eapply hoare_bind; [apply (addMessage_trace _ T) | intros ?; cbv beta]).
  apply (addMessage_trace _ T).
Qed.

End LastCall.

(** A run ends normally only after the result has been copied from
    trees_buffer_processed to the output path, as the last call of the
    stages: after that call the run only attempts deletions of recorded
    temporary paths and checks the extension in. *)
Theorem run_ends_with_the_copy (w : world) (p : parameters) (existing : list string) :
  fst (run w p existing) = Ok tt ->
  exists stage dels o,
    trace (snd (run w p existing)) =
    (stage
     ++ (CopyFeatures (tmp_shp_path w (workspace p) "trees_buffer_processed")
                      (output_features p), None)
     :: dels ++ [(CheckInExtension "Spatial", o)])%list /\
    Forall (fun ev => exists path,
                fst ev = Delete path /\ In path (recorded_paths w p)) dels.
Proof.
  pose proof (run_recorded w p existing) as (Hrec & _ & _). revert Hrec.
  unfold run, execute, bind.
  destruct (validate_cases w p (init_state existing)) as [Ev | [[e Ev] | [msg Ev]]];
    rewrite Ev; cbn [fst snd]; try (intros _ H; discriminate H).
  unfold try_finally, try_except.
  pose proof (@body_ends_with_copy w p
                (logged (init_state existing) (CheckOutExtension "Spatial") None)
                Logic.I) as Hlast.
  destruct (body w p (logged (init_state existing)
                             (CheckOutExtension "Spatial") None))
    as [[[] | e] st1].
  - destruct Hlast as [t Ht].
    destruct (cleanup_trace w st1)
      as (st2 & dels & o & E & Htr & Hdels & _ & _ & Hi).
    rewrite E. cbn [fst snd]. intros Hrec _.
    exists t, dels, o. split.
    + rewrite Htr, Ht, <- app_assoc. reflexivity.
    + eapply Forall_impl; [| exact Hdels].
      intros ev (path & Hc & Hin). exists path. split; [exact Hc |].
      apply Hrec. rewrite Hi. exact Hin.
  - unfold handler, bind, addErrorMessage, raise.
    match goal with
    | |- context [cleanup w ?s] =>
        destruct (cleanup_swept w s) as (st2 & E & _)
    end.
    rewrite E. cbn [fst]. intros _ H. discriminate H.
Qed.

(** [run_ends_with_the_copy] on a run in which everything succeeds. *)
Lemma run_ends_with_the_copy_witness :
  exists stage dels o,
    trace (snd (run calm tile tile_existing)) =
    (stage
     ++ (CopyFeatures (tmp_shp_path calm (workspace tile) "trees_buffer_processed")
                      (output_features tile), None)
     :: dels ++ [(CheckInExtension "Spatial", o)])%list /\
    Forall (fun ev => exists path,
                fst ev = Delete path /\ In path (recorded_paths calm tile)) dels.
Proof.
  apply run_ends_with_the_copy. vm_compute. reflexivity.
Defined.

End PipelineExtras.

(* ================================================================== *)
(** * Part VII: what the stand-alone scripts read and write            *)
(* ================================================================== *)

Module ScriptFacts.

Import Script.
Local Open Scope string_scope.

Lemma name_eqb_eq (a b : name) : name_eqb a b = true <-> a = b.
Proof.
  destruct a as [x | x], b as [y | y]; cbn [name_eqb];
    try (split; [discriminate | intros H; discriminate H]).
  - rewrite String.eqb_eq. split; [intros -> | intros H; injection H as ->]; reflexivity.
  - rewrite String.eqb_eq. split; [intros -> | intros H; injection H as ->]; reflexivity.
Qed.

Lemma present_In (env : list name) (n : name) :
  present env n = true <-> In n env.
Proof.
  unfold present. rewrite existsb_exists. split.
  - intros [x [Hx E]]. apply name_eqb_eq in E. subst x. exact Hx.
  - intros H. exists n. split; [exact H | apply name_eqb_eq; reflexivity].
Qed.

Lemma present_app (a b : list name) (n : name) :
  present (a ++ b) n = present a n || present b n.
Proof. unfold present. apply existsb_app. Qed.

Lemma first_missing_None (s : stmt) (env : list name) :
  first_missing s env = None <-> forall n, In n (reads s) -> present env n = true.
Proof.
  unfold first_missing. induction (reads s) as [| r l IH]; cbn [find].
  - split; [intros _ n [] | reflexivity].
  - destruct (present env r) eqn:Hr; cbn [negb].
    + rewrite IH. split.
      * intros H n [<- | Hn]; [exact Hr | exact (H n Hn)].
      * intros H n Hn. apply H. right. exact Hn.
    + split; [discriminate |]. intros H.
      rewrite (H r (or_introl eq_refl)) in Hr. discriminate Hr.
Qed.

Lemma distinct_In (l : list name) (n : name) : In n (distinct l) <-> In n l.
Proof.
  induction l as [| a l IH]; cbn [distinct]; [tauto |].
  destruct (present l a) eqn:Ha.
  - rewrite IH. split; [intros H; right; exact H |].
    intros [<- | H]; [apply present_In; exact Ha | exact H].
  - cbn [In]. rewrite IH. tauto.
Qed.

Section Runs.

Variable tool_fails : stmt -> bool.

(** What is there after a script that ran to its end: what it wrote and
    what was there before. *)
Lemma completed_env (script : list stmt) (env : list name) :
  fst (run_script tool_fails script env) = Completed ->
  forall n, present (snd (run_script tool_fails script env)) n =
            present (all_writes script) n || present env n.
Proof.
  revert env. induction script as [| s rest IH]; intros env; cbn [run_script].
  - intros _ n. reflexivity.
  - destruct (first_missing s env); [discriminate |].
    destruct (tool_fails s); [discriminate |].
    intros H n. rewrite (IH _ H). unfold all_writes. cbn [flat_map].
    rewrite !present_app. fold (all_writes rest).
    destruct (present (writes s) n), (present (all_writes rest) n); reflexivity.
Qed.

(** A script that runs to its end found every name it reads without having
    written it. *)
Lemma completed_free (script : list stmt) (written env env0 : list name) :
  (forall n, present env n = present written n || present env0 n) ->
  fst (run_script tool_fails script env) = Completed ->
  forall n, In n (free_reads_from written script) -> present env0 n = true.
Proof.
  revert written env. induction script as [| s rest IH]; intros written env Hinv;
    cbn [run_script free_reads_from].
  - intros _ n [].
  - destruct (first_missing s env) eqn:Hm; [discriminate |].
    destruct (tool_fails s); [discriminate |].
    intros H n Hn. apply in_app_or in Hn. destruct Hn as [Hn | Hn].
    + apply filter_In in Hn. destruct Hn as [Hr Hw].
      apply negb_true_iff in Hw.
      pose proof (proj1 (first_missing_None s env) Hm n Hr) as Hp.
      rewrite Hinv, Hw in Hp. exact Hp.
    + apply (IH (writes s ++ written)%list (writes s ++ env)%list); [| exact H | exact Hn].
      intros m. rewrite !present_app, Hinv.
      destruct (present (writes s) m); reflexivity.
Qed.

(** With every tool working, a script runs to its end as soon as the names
    it reads without having written them are there. *)
Lemma free_completed (script : list stmt) (written env env0 : list name) :
  (forall s, In s script -> tool_fails s = false) ->
  (forall n, present env n = present written n || present env0 n) ->
  (forall n, In n (free_reads_from written script) -> present env0 n = true) ->
  fst (run_script tool_fails script env) = Completed.
Proof.
  revert written env. induction script as [| s rest IH];
    intros written env Hwork Hinv Hfree; cbn [run_script].
  - reflexivity.
  - cbn [free_reads_from] in Hfree.
    assert (Hm : first_missing s env = None).
    { apply first_missing_None. intros n Hn. rewrite Hinv.
      destruct (present written n) eqn:Hw; [reflexivity |].
      apply Hfree. apply in_or_app. left. apply filter_In.
      split; [exact Hn | rewrite Hw; reflexivity]. }
    rewrite Hm, (Hwork s (or_introl eq_refl)).
    apply (IH (writes s ++ written)%list).
    + intros s' Hs'. apply Hwork. right. exact Hs'.
    + intros m. rewrite !present_app, Hinv.
      destruct (present (writes s) m); reflexivity.
    + intros n Hn. apply Hfree. apply in_or_app. right. exact Hn.
Qed.

(** A script runs through its first part before its second. *)
Lemma run_script_app (a b : list stmt) (env : list name) :
  run_script tool_fails (a ++ b)%list env =
  match run_script tool_fails a env with
  | (Completed, env') => run_script tool_fails b env'
  | r => r
  end.
Proof.
  revert env. induction a as [| s a IH]; intros env; cbn [app run_script].
  - reflexivity.
  - destruct (first_missing s env); [reflexivity |].
    destruct (tool_fails s); [reflexivity |]. apply IH.
Qed.

(** A script runs to its end only if what it reads and never wrote was
    there from the start; with every tool working, that is also enough. *)
Lemma completed_iff_free_reads (script : list stmt) (env0 : list name) :
  (fst (run_script tool_fails script env0) = Completed ->
   forall n, In n (free_reads script) -> In n env0) /\
  ((forall s, In s script -> tool_fails s = false) ->
   (forall n, In n (free_reads script) -> In n env0) ->
   fst (run_script tool_fails script env0) = Completed).
Proof.
  split.
  - intros H n Hn. apply present_In.
    apply (@completed_free script [] env0 env0); [| exact H |].
    + intros m. reflexivity.
    + apply distinct_In. exact Hn.
  - intros Hwork Hfree.
    apply (@free_completed script [] env0 env0 Hwork).
    + intros m. reflexivity.
    + intros n Hn. apply present_In. apply Hfree. apply distinct_In. exact Hn.
Qed.

(** A script that runs to its end ran through each of its parts. *)
Lemma completed_app (a b : list stmt) (env : list name) :
  fst (run_script tool_fails (a ++ b)%list env) = Completed ->
  fst (run_script tool_fails a env) = Completed.
Proof.
  rewrite run_script_app.
  destruct (run_script tool_fails a env) as [[| l n | l] env']; cbn [fst];
    [reflexivity | discriminate | discriminate].
Qed.

(** A script that stops in its first part stops there whatever follows. *)
Lemma stopped_app (a b : list stmt) (env : list name) :
  fst (run_script tool_fails a env) <> Completed ->
  run_script tool_fails (a ++ b)%list env = run_script tool_fails a env.
Proof.
  rewrite run_script_app.
  destruct (run_script tool_fails a env) as [[| l n | l] env']; cbn [fst];
    [intros H; contradiction H; reflexivity | reflexivity | reflexivity].
Qed.

(** A script that reaches a call whose first input was neither there at the
    start nor written on the way stops at that call. *)
Lemma stops_for_want_of (pre : list stmt) (s : stmt) (suf : list stmt)
    (env0 : list name) (n : name) :
  (forall s', In s' pre -> tool_fails s' = false) ->
  (forall m, In m (free_reads_from [] pre) -> In m env0) ->
  hd_error (reads s) = Some n ->
  present (all_writes pre) n = false ->
  ~ In n env0 ->
  fst (run_script tool_fails (pre ++ s :: suf)%list env0) =
  MissingInput (line s) n.
Proof.
  intros Hwork Hfree Hhd Hw Hnone.
  assert (Hpre : fst (run_script tool_fails pre env0) = Completed).
  { apply (@free_completed pre [] env0 env0 Hwork).
    - intros m. reflexivity.
    - intros m Hm. apply present_In. exact (Hfree m Hm). }
  pose proof (completed_env pre env0 Hpre n) as Henv.
  rewrite run_script_app.
  destruct (run_script tool_fails pre env0) as [o env'].
  cbn [fst snd] in Hpre, Henv. subst o.
  assert (H0 : present env0 n = false).
  { destruct (present env0 n) eqn:Hp; [| reflexivity].
    apply present_In in Hp. contradiction. }
  rewrite Hw, H0 in Henv. cbn [orb] in Henv.
  cbn [run_script]. unfold first_missing.
  destruct (reads s) as [| r l]; [discriminate Hhd |].
  cbn [hd_error] in Hhd. injection Hhd as ->.
  cbn [find]. rewrite Henv. reflexivity.
Qed.

End Runs.

(** ** [code_for_dead_trees_detection.py] *)

Lemma detection_script_free_reads (env0 : list name) :
  (forall n, In n (free_reads detection_script) -> In n env0) <->
  In (File input_raster) env0 /\ In (File mask_layer) env0 /\
  In (File "Molly_deadtrees.shp") env0 /\ In (File "dead_trees_final.shp") env0.
Proof.
  change (free_reads detection_script)
    with [File mask_layer; File input_raster; File "Molly_deadtrees.shp";
          File "dead_trees_final.shp"].
  cbn [In]. split.
  - intros H. repeat split; apply H; auto 6.
  - intros (H1 & H2 & H3 & H4) n [<- | [<- | [<- | [<- | []]]]]; assumption.
Qed.

(** The two spatial joins of lines 123 and 128 read dead_trees_final.shp,
    which no line of the script writes: the polygons the script has just
    computed go to dead_trees_final_12.shp (line 109), which no line reads.
    So the script runs to its end only where a dead_trees_final.shp was
    there before it started; and where the three inputs are there, every
    tool works and there is no such file, it ends at line 123 for want of
    it. *)
Theorem detection_script_joins_an_earlier_result :
  ~ In (File "dead_trees_final.shp") (all_writes detection_script) /\
  In (File "dead_trees_final_12.shp") (all_writes detection_script) /\
  ~ In (File "dead_trees_final_12.shp") (all_reads detection_script) /\
  (forall (tool_fails : stmt -> bool) (env0 : list name),
      fst (run_script tool_fails detection_script env0) = Completed ->
      In (File "dead_trees_final.shp") env0) /\
  (forall (tool_fails : stmt -> bool) (env0 : list name),
      (forall s, In s detection_script -> tool_fails s = false) ->
      In (File input_raster) env0 ->
      In (File mask_layer) env0 ->
      In (File "Molly_deadtrees.shp") env0 ->
      ~ In (File "dead_trees_final.shp") env0 ->
      fst (run_script tool_fails detection_script env0) =
      MissingInput 123 (File "dead_trees_final.shp")).
Proof.
  split.
  { intros H. apply present_In in H. vm_compute in H. discriminate H. }
  split.
  { apply present_In. vm_compute. reflexivity. }
  split.
  { intros H. apply present_In in H. vm_compute in H. discriminate H. }
  split.
  - intros tool_fails env0 H.
    apply (proj1 (detection_script_free_reads env0)).
    exact (proj1 (completed_iff_free_reads tool_fails detection_script env0) H).
  - intros tool_fails env0 Hwork Hin Hmask Hmolly Hnone.
    pose (pre := firstn 29 detection_script).
    pose (suf := skipn 29 detection_script).
    assert (Hsplit : detection_script = (pre ++ suf)%list) by reflexivity.
    rewrite Hsplit, run_script_app.
    assert (Hpre : fst (run_script tool_fails pre env0) = Completed).
    { apply completed_iff_free_reads.
      - intros s Hs. apply Hwork. rewrite Hsplit. apply in_or_app. left. exact Hs.
      - change (free_reads pre)
          with [File mask_layer; File input_raster; File "Molly_deadtrees.shp"].
        intros n [<- | [<- | [<- | []]]]; assumption. }
    pose proof (completed_env tool_fails pre env0 Hpre
                  (File "dead_trees_final.shp")) as Henv.
    destruct (run_script tool_fails pre env0) as [o env'].
    cbn [fst snd] in Hpre, Henv. subst o.
    assert (Hw : present (all_writes pre) (File "dead_trees_final.shp") = false)
      by (vm_compute; reflexivity).
    assert (H0 : present env0 (File "dead_trees_final.shp") = false).
    { destruct (present env0 (File "dead_trees_final.shp")) eqn:Hp; [| reflexivity].
      apply present_In in Hp. contradiction. }
    rewrite Hw, H0 in Henv. cbn [orb] in Henv.
    change suf with
      (mkStmt 123 "arcpy.analysis.SpatialJoin"
         [File "dead_trees_final.shp"; File "Molly_points_clipped.shp"]
         [File "polygons_to_points.shp"] [] :: skipn 30 detection_script).
    cbn [run_script]. unfold first_missing. cbn [reads find].
    rewrite Henv. reflexivity.
Qed.

(** [detection_script_joins_an_earlier_result] from a workspace with the
    three inputs and nothing else. *)
Lemma detection_script_joins_an_earlier_result_witness :
  fst (run_script tools_work detection_script
         [File input_raster; File mask_layer; File "Molly_deadtrees.shp"]) =
  MissingInput 123 (File "dead_trees_final.shp").
Proof.
  apply (proj2 (proj2 (proj2 (proj2 detection_script_joins_an_earlier_result)))).
  - intros s _. reflexivity.
  - left. reflexivity.
  - right. left. reflexivity.
  - right. right. left. reflexivity.
  - intros [H | [H | [H | []]]]; discriminate H.
Defined.

(** ** The script at the end of [enhanced_toolbox.py] *)

(** The sibling script joins what it has just computed: its spatial joins
    read dead_trees_final_no_blue.shp, which line 443 writes.  With every
    tool working it runs to its end exactly where its three inputs are
    there. *)
Theorem no_blue_script_joins_its_own_result :
  In (File "dead_trees_final_no_blue.shp") (all_writes no_blue_script) /\
  (forall (tool_fails : stmt -> bool) (env0 : list name),
      fst (run_script tool_fails no_blue_script env0) = Completed ->
      In (File no_blue_input_raster) env0 /\ In (File "forest_lc.tif") env0 /\
      In (File "Molly_deadtrees.shp") env0) /\
  (forall (tool_fails : stmt -> bool) (env0 : list name),
      (forall s, In s no_blue_script -> tool_fails s = false) ->
      In (File no_blue_input_raster) env0 ->
      In (File "forest_lc.tif") env0 ->
      In (File "Molly_deadtrees.shp") env0 ->
      fst (run_script tool_fails no_blue_script env0) = Completed).
Proof.
  split.
  { apply present_In. vm_compute. reflexivity. }
  assert (Hfree : free_reads no_blue_script =
                  [File "forest_lc.tif"; File no_blue_input_raster;
                   File "Molly_deadtrees.shp"]) by reflexivity.
  split.
  - intros tool_fails env0 H.
    pose proof (proj1 (completed_iff_free_reads tool_fails no_blue_script env0) H)
      as Hall.
    rewrite Hfree in Hall. repeat split; apply Hall; cbn [In]; auto.
  - intros tool_fails env0 Hwork H1 H2 H3.
    apply completed_iff_free_reads; [exact Hwork |].
    rewrite Hfree. intros n [<- | [<- | [<- | []]]]; assumption.
Qed.

(** [no_blue_script_joins_its_own_result] from a workspace with the three
    inputs and nothing else. *)
Lemma no_blue_script_joins_its_own_result_witness :
  fst (run_script tools_work no_blue_script
         [File no_blue_input_raster; File "forest_lc.tif";
          File "Molly_deadtrees.shp"]) = Completed.
Proof.
  apply (proj2 (proj2 no_blue_script_joins_its_own_result)).
  - intros s _. reflexivity.
  - left. reflexivity.
  - right. left. reflexivity.
  - right. right. left. reflexivity.
Defined.

(** ** [zoom.py] *)

Lemma all_writes_flat_map (g : string -> list stmt) (l : list string) (n : name) :
  In n (all_writes (flat_map g l)) <-> exists f, In f l /\ In n (all_writes (g f)).
Proof.
  unfold all_writes. rewrite in_flat_map. split.
  - intros (s & Hs & Hn). apply in_flat_map in Hs. destruct Hs as (f & Hf & Hs).
    exists f. split; [exact Hf |]. apply in_flat_map. exists s. split; assumption.
  - intros (f & Hf & Hn). apply in_flat_map in Hn. destruct Hn as (s & Hs & Hn).
    exists s. split; [| exact Hn]. apply in_flat_map. exists f. split; assumption.
Qed.

(** What a turn of the loop writes does not depend on the file. *)
Lemma zoom_iteration_writes (f g : string) :
  all_writes (zoom_iteration f) = all_writes (zoom_iteration g).
Proof. reflexivity. Qed.

(** Line 66 writes the polygons of a tile to
    dead_trees_vector_{file_name_without_extension}.shp, braces included,
    and lines 69 to 78 work on dead_trees_vector.shp, which no call of the
    loop creates: the calls that write it (the two field updates) read it
    first.  So with at least one .JP2 file in the folder the loop runs to
    its end only where a dead_trees_vector.shp was there before it started;
    where it is not, the tile and the mask are there and the tools work, the
    loop ends at line 69 of its first turn. *)
Theorem zoom_updates_a_vector_it_never_creates :
  (forall (all_files : list string) (s : stmt),
      In s (zoom_script all_files) ->
      In (File "dead_trees_vector.shp") (writes s) ->
      In (File "dead_trees_vector.shp") (reads s)) /\
  (forall (tool_fails : stmt -> bool) (all_files : list string) (env0 : list name),
      jp2_files all_files <> [] ->
      fst (run_script tool_fails (zoom_script all_files) env0) = Completed ->
      In (File "dead_trees_vector.shp") env0) /\
  (forall (tool_fails : stmt -> bool) (all_files : list string) (env0 : list name)
          (jp2_file : string) (others : list string),
      jp2_files all_files = jp2_file :: others ->
      (forall s, In s (zoom_iteration jp2_file) -> tool_fails s = false) ->
      In (File (Pipeline.ntpath_join zoom_workspace jp2_file)) env0 ->
      In (File "shrubs_and_forest.tif") env0 ->
      ~ In (File "dead_trees_vector.shp") env0 ->
      fst (run_script tool_fails (zoom_script all_files) env0) =
      MissingInput 69 (File "dead_trees_vector.shp")).
Proof.
  split; [| split].
  - intros all_files s Hs. unfold zoom_script in Hs.
    apply in_flat_map in Hs. destruct Hs as (f & _ & Hs).
    unfold zoom_iteration in Hs. cbn [In] in Hs.
    repeat (destruct Hs as [<- | Hs];
            [rewrite <- !present_In; vm_compute; intros H;
             first [exact H | reflexivity] |]).
    destruct Hs.
  - intros tool_fails all_files env0 Hne H. unfold zoom_script in H.
    destruct (jp2_files all_files) as [| f rest]; [contradiction Hne; reflexivity |].
    cbn [flat_map] in H. apply completed_app in H.
    assert (Hsplit : zoom_iteration f =
                     (firstn 15 (zoom_iteration f)
                      ++ skipn 15 (zoom_iteration f))%list) by reflexivity.
    rewrite Hsplit in H.
    pose proof (completed_env _ _ _ (completed_app _ _ _ _ H)
                  (File "dead_trees_vector.shp")) as Henv.
    rewrite run_script_app in H.
    destruct (run_script tool_fails (firstn 15 (zoom_iteration f)) env0)
      as [[| l n | l] env']; cbn [fst snd] in H, Henv; try discriminate H.
    change (skipn 15 (zoom_iteration f))
      with (mkStmt 69 "arcpy.AddField_management"
              [File "dead_trees_vector.shp"] [File "dead_trees_vector.shp"]
              ["Shape_Area"; "DOUBLE"] :: skipn 16 (zoom_iteration f)) in H.
    cbn [run_script] in H. unfold first_missing in H. cbn [reads find] in H.
    apply present_In.
    change (present (all_writes (firstn 15 (zoom_iteration f)))
                    (File "dead_trees_vector.shp")) with false in Henv.
    cbn [orb] in Henv. rewrite <- Henv.
    destruct (present env' (File "dead_trees_vector.shp"));
      [reflexivity | discriminate H].
  - intros tool_fails all_files env0 jp2_file others Hfiles Hwork Htile Hmask Hnone.
    unfold zoom_script. rewrite Hfiles. cbn [flat_map].
    assert (Hturn : fst (run_script tool_fails (zoom_iteration jp2_file) env0) =
                    MissingInput 69 (File "dead_trees_vector.shp")).
    { change (zoom_iteration jp2_file)
        with (firstn 15 (zoom_iteration jp2_file)
              ++ mkStmt 69 "arcpy.AddField_management"
                   [File "dead_trees_vector.shp"] [File "dead_trees_vector.shp"]
                   ["Shape_Area"; "DOUBLE"]
                 :: skipn 16 (zoom_iteration jp2_file))%list.
      apply stops_for_want_of.
      - intros s Hs. apply Hwork.
        change (zoom_iteration jp2_file)
          with (firstn 15 (zoom_iteration jp2_file)
                ++ skipn 15 (zoom_iteration jp2_file))%list.
        apply in_or_app. left. exact Hs.
      - intros m Hm. vm_compute in Hm.
        destruct Hm as [<- | [<- | [<- | [<- | []]]]];
          first [exact Htile | exact Hmask].
      - reflexivity.
      - reflexivity.
      - exact Hnone. }
    rewrite stopped_app; [exact Hturn |].
    rewrite Hturn. discriminate.
Qed.

(** [zoom_updates_a_vector_it_never_creates] on a folder with two tiles and a
    text file, the tiles and the mask being there. *)
Lemma zoom_updates_a_vector_it_never_creates_witness :
  fst (run_script tools_work (zoom_script ["a.JP2"; "notes.txt"; "b.JP2"])
         [File (Pipeline.ntpath_join zoom_workspace "a.JP2");
          File (Pipeline.ntpath_join zoom_workspace "b.JP2");
          File "shrubs_and_forest.tif"; File "Molly_deadtrees.shp"]) =
  MissingInput 69 (File "dead_trees_vector.shp").
Proof.
  apply (proj2 (proj2 zoom_updates_a_vector_it_never_creates)
           tools_work ["a.JP2"; "notes.txt"; "b.JP2"] _ "a.JP2" ["b.JP2"]).
  - reflexivity.
  - intros s _. reflexivity.
  - left. reflexivity.
  - right. right. left. reflexivity.
  - intros [H | [H | [H | [H | []]]]]; discriminate H.
Defined.

(** Every turn of the loop writes to the same names, so each tile replaces
    the results of the tile before it: after a loop that ran to its end over
    any number of tiles, the datasets that are there are the ones that were
    there before and the ones one turn writes, for whichever file. *)
Theorem zoom_tiles_replace_each_other
    (tool_fails : stmt -> bool) (all_files : list string) (env0 : list name) :
  jp2_files all_files <> [] ->
  fst (run_script tool_fails (zoom_script all_files) env0) = Completed ->
  forall (jp2_file : string) (n : name),
    In n (snd (run_script tool_fails (zoom_script all_files) env0)) <->
    In n (all_writes (zoom_iteration jp2_file)) \/ In n env0.
Proof.
  intros Hne Hdone jp2_file n.
  rewrite <- !present_In. rewrite (completed_env _ _ _ Hdone n).
  rewrite orb_true_iff, !present_In.
  assert (Hw : In n (all_writes (zoom_script all_files)) <->
               In n (all_writes (zoom_iteration jp2_file))).
  { unfold zoom_script. rewrite all_writes_flat_map. split.
    - intros (f & _ & H). rewrite (zoom_iteration_writes jp2_file f). exact H.
    - intros H. destruct (jp2_files all_files) as [| f rest];
        [contradiction Hne; reflexivity |].
      exists f. split; [left; reflexivity |].
      rewrite (zoom_iteration_writes f jp2_file). exact H. }
  rewrite Hw. reflexivity.
Qed.

(** [zoom_tiles_replace_each_other] on a folder with two tiles, where an
    earlier dead_trees_vector.shp is there: one result is left, under the
    name with the braces. *)
Lemma zoom_tiles_replace_each_other_witness :
  In (File "dead_trees_final_{file_name_without_extension}.shp")
     (snd (run_script tools_work (zoom_script ["a.JP2"; "notes.txt"; "b.JP2"])
             [File (Pipeline.ntpath_join zoom_workspace "a.JP2");
              File (Pipeline.ntpath_join zoom_workspace "b.JP2");
              File "shrubs_and_forest.tif"; File "Molly_deadtrees.shp";
              File "dead_trees_vector.shp"])).
Proof.
  refine (proj2 (@zoom_tiles_replace_each_other tools_work
                   ["a.JP2"; "notes.txt"; "b.JP2"]
                   [File (Pipeline.ntpath_join zoom_workspace "a.JP2");
                    File (Pipeline.ntpath_join zoom_workspace "b.JP2");
                    File "shrubs_and_forest.tif"; File "Molly_deadtrees.shp";
                    File "dead_trees_vector.shp"] _ _ "a.JP2" _) _).
  - discriminate.
  - vm_compute. reflexivity.
  - left. apply present_In. vm_compute. reflexivity.
Defined.

End ScriptFacts.
